(** * Attention layers of [keras/layers/attention.py]

    A shallow embedding of the attention layers (multi-head scaled
    dot-product attention, soft attention, convolutional attention) and
    of the layer life cycle they implement ([__init__], [build], [call],
    [compute_mask], [get_config]).

    Tensors are nested lists of real numbers: a tensor of shape
    [(N, T, D)] is a list of [N] matrices, each a list of [T] rows of
    [D] scalars.  Scalars are exact reals; rounding of the backend's
    floating point numbers is outside this model. *)

From Stdlib Require Import String Reals Lra ZArith Bool Arith Lia List.
Import ListNotations.

Open Scope R_scope.

Abbreviation tensor1 := (list R).
Abbreviation tensor2 := (list (list R)).
Abbreviation tensor3 := (list (list (list R))).

(** ** The backend [K]

    The layers are written against the tensor backend imported as
    [from .. import backend as K].  The backend itself is not part of
    [attention.py]; each operation used by the layers is given here with
    the meaning the layers rely on, as fixed by the shape comments that
    accompany every call in the source. *)
Module K.

(** Pairwise combination of two lists, as elementwise tensor
    operators combine two operands of the same shape. *)
Definition map2 {A B C : Type} (f : A -> B -> C) (l1 : list A) (l2 : list B) : list C :=
  map (fun p => f (fst p) (snd p)) (combine l1 l2).

(** Map with the position of each element. *)
Definition mapi {A B : Type} (f : nat -> A -> B) (l : list A) : list B :=
  map2 f (seq 0 (length l)) l.

(** Python slice [l[a:b]] for [0 <= a <= b]. *)
Definition slice {A : Type} (a b : nat) (l : list A) : list A :=
  firstn (b - a) (skipn a l).

(** Modelled from the spec: [K.sum(x, axis=-1)] on a vector, one of
    the backend's elementwise and reduction operations. *)
Definition sum (v : tensor1) : R := fold_right Rplus 0 v.

Definition dotp (u v : tensor1) : R := sum (map2 Rmult u v).

Definition ncols (m : tensor2) : nat :=
  match m with [] => 0%nat | r :: _ => length r end.

Definition col (m : tensor2) (c : nat) : tensor1 := map (fun r => nth c r 0) m.

Definition transpose (m : tensor2) : tensor2 := map (col m) (seq 0 (ncols m)).

Definition matmul (a b : tensor2) : tensor2 :=
  map (fun row => map (fun c => dotp row (col b c)) (seq 0 (ncols b))) a.

(** Modelled from the spec: [K.dot(x, kernel)] for a 3D tensor and a
    2D kernel, the matrix product over the last axis of [x]. *)
Definition dot (x : tensor3) (kernel : tensor2) : tensor3 :=
  map (fun m => matmul m kernel) x.

(** Modelled from the spec: [K.dot(x, w)] for a 3D tensor and a
    vector, contracting the last axis of [x]. *)
Definition dot_vec (x : tensor3) (w : tensor1) : tensor2 :=
  map (map (fun row => dotp row w)) x.

(** Modelled from the spec: [K.bias_add(x, bias)], the bias vector
    broadcast over the leading axes. *)
Definition bias_add (x : tensor3) (bias : tensor1) : tensor3 :=
  map (map (fun row => map2 Rplus row bias)) x.

(** Modelled from the spec: [K.permute_dimensions(x, (0, 2, 1))]. *)
Definition permute_dimensions_021 (x : tensor3) : tensor3 := map transpose x.

(** Modelled from the spec: [K.batch_dot(x, y, axes=[2, 1])], the
    batched matrix multiply. *)
Definition batch_dot (x y : tensor3) : tensor3 := map2 matmul x y.

(** Modelled from the spec: [K.concatenate(tensors, axis=0)]. *)
Definition concatenate0 {A : Type} (ts : list (list A)) : list A := concat ts.

(** Modelled from the spec: [K.concatenate(tensors, axis=2)] for 3D
    tensors that agree on the first two axes. *)
Definition concatenate2 (ts : list tensor3) : tensor3 :=
  match ts with
  | [] => []
  | t :: rest => fold_left (map2 (map2 (@app R))) rest t
  end.

(** [x[:, :, a:b]]. *)
Definition slice2 (a b : nat) (x : tensor3) : tensor3 := map (map (slice a b)) x.

Definition map3 (f : R -> R) (x : tensor3) : tensor3 := map (map (map f)) x.

(** Modelled from the spec: [K.sign]. *)
Definition sign (x : R) : R :=
  if Rlt_dec 0 x then 1 else if Rlt_dec x 0 then -1 else 0.

(** Modelled from the spec: [K.sum(K.abs(x), axis=-1)] for a 3D
    tensor. *)
Definition sum_abs_last (x : tensor3) : tensor2 :=
  map (map (fun row => sum (map Rabs row))) x.

(** Modelled from the spec: [K.tile(x, [n, 1])], [n] copies of [x]
    along the first axis. *)
Definition tile0 {A : Type} (n : nat) (x : list A) : list A := concat (repeat x n).

(** Modelled from the spec: [K.tile(K.expand_dims(x, 1), [1, t, 1])]
    for a 2D tensor: every row is repeated [t] times along a new
    middle axis. *)
Definition expand1_tile (t : nat) (x : tensor2) : tensor3 :=
  map (fun row => repeat row t) x.

(** Modelled from the spec: [K.tile(K.expand_dims(x, -1), [1, 1, t])]
    for a 2D tensor: every scalar is repeated [t] times along a new
    last axis. *)
Definition expand_last_tile (t : nat) (x : tensor2) : tensor3 :=
  map (map (fun v => repeat v t)) x.

(** Modelled from the spec: [K.tile(K.expand_dims(m, 0), [n, 1, 1])]. *)
Definition expand0_tile (n : nat) (m : tensor2) : tensor3 := repeat m n.

(** Modelled from the spec: [K.ones_like(x) * c]. *)
Definition full_like (c : R) (x : tensor3) : tensor3 := map3 (fun _ => c) x.

Definition ones_like2 (m : tensor2) : tensor2 := map (map (fun _ => 1)) m.

(** Modelled from the spec: [K.equal(x, 0)], an elementwise test. *)
Definition is_zero (v : R) : bool := if Req_dec_T v 0 then true else false.

Definition equal0 (x : tensor3) : list (list (list bool)) :=
  map (map (map is_zero)) x.

Definition zip3 (a b : tensor3) : list (list (list (R * R))) :=
  map2 (map2 (@combine R R)) a b.

(** Modelled from the spec: [K.switch(cond, a, b)], elementwise
    selection between two tensors of the same shape. *)
Definition switch (cond : list (list (list bool))) (a b : tensor3) : tensor3 :=
  map2 (map2 (map2 (fun (c : bool) (p : R * R) => if c then fst p else snd p)))
       cond (zip3 a b).

(** Modelled from the spec: [K.tril], the lower triangle of a matrix
    (entries [(i, j)] with [j <= i]); the rest is zero. *)
Definition tril (m : tensor2) : tensor2 :=
  mapi (fun i row => mapi (fun j v => if (j <=? i)%nat then v else 0) row) m.

(** Modelled from the spec: softmax normalization,
    [alpha_i = exp(e_i) / sum_j exp(e_j)], along the last axis. *)
Definition softmax1 (e : tensor1) : tensor1 :=
  map (fun x => exp x / sum (map exp e)) e.

Definition softmax (e : tensor2) : tensor2 := map softmax1 e.

Definition softmax_3d (e : tensor3) : tensor3 := map (map softmax1) e.

(** Elementwise product of two 3D tensors of the same shape. *)
Definition mul3 (x y : tensor3) : tensor3 := map2 (map2 (map2 Rmult)) x y.

(** Modelled from the spec: [K.cast(mask, K.dtype(x))] of a boolean
    mask. *)
Definition cast (m : list (list bool)) : tensor2 :=
  map (map (fun b : bool => if b then 1 else 0)) m.

(** [x * m[:, :, None]]: every feature vector scaled by the entry of
    the 2D tensor [m] at its position. *)
Definition scale_rows (x : tensor3) (m : tensor2) : tensor3 :=
  map2 (map2 (fun row s => map (fun v => v * s) row)) x m.

(** Modelled from the spec: [x.sum(axis=1)] for a 3D tensor; the
    feature vectors of every batch element are added up. *)
Definition sum_axis1 (x : tensor3) : tensor2 :=
  map (fun m => map (fun c => sum (col m c)) (seq 0 (ncols m))) x.

(** Modelled from the spec: [K.repeat(x, n)], from [(samples, dim)]
    to [(samples, n, dim)]. *)
Definition repeat_ {A : Type} (x : list (list A)) (n : nat) : list (list (list A)) :=
  map (fun row => repeat row n) x.

(** Modelled from the spec: [K.flatten] of a 3D tensor. *)
Definition flatten {A : Type} (x : list (list (list A))) : list A :=
  concat (map (@concat A) x).

(** Shape test: [x] has shape [(n, t, d)]. *)
Definition has_shape2 (t d : nat) (m : tensor2) : bool :=
  (length m =? t)%nat && forallb (fun r => (length r =? d)%nat) m.

Definition has_shape3 (n t d : nat) (x : tensor3) : bool :=
  (length x =? n)%nat && forallb (has_shape2 t d) x.

(** Modelled from the spec: [K.not_equal(x, 0)], an elementwise test
    on a 2D tensor. *)
Definition not_equal0 (x : tensor2) : list (list bool) :=
  map (map (fun v => negb (is_zero v))) x.

(** Modelled from the spec: [K.sigmoid]. *)
Definition sigmoid (x : R) : R := 1 / (1 + exp (- x)).

End K.

(** ** Python values, dictionaries and exceptions *)

Inductive pyval :=
| PyNone
| PyBool (b : bool)
| PyInt (z : Z)
| PyFloat (r : R)
| PyStr (s : string).

(** A dictionary built by [dict(items)]: the items in insertion order;
    a later item with the same key overrides an earlier one. *)
Definition dict := list (string * pyval).

Definition dict_get (d : dict) (k : string) : option pyval :=
  match find (fun p => String.eqb (fst p) k) (rev d) with
  | Some p => Some (snd p)
  | None => None
  end.

(** The [assert] statements of the module, by what they test. *)
Inductive assertion :=
| dmodel_multiple_of_heads   (* 'dmodel should be a multiple of the head number' *)
| two_inputs                 (* 'You should pass two inputs to ...' *)
| input_rank3                (* 'Input shape must be: (nb_samples, temporal_or_spatial_dimensions, input_dim)' *)
| output_shape_defined.      (* the assertions of compute_output_shape *)

(** The [raise ValueError(...)] statements of the module. *)
Inductive value_error :=
| invalid_border_mode (given : pyval)    (* 'Invalid border mode for Convolution2D:' *)
| dim_ordering_not_tf_th                 (* 'dim_ordering must be in {tf, th}.' *)
| invalid_dim_ordering (given : pyval)   (* 'Invalid dim_ordering:' *)
| unknown_activation (given : string)    (* raised by activations.get *)
| negative_dimension.                    (* raised by add_weight *)

Inductive Exn :=
| AssertionError (a : assertion)
| ValueError (v : value_error)
| Exception_timesteps (layer_name : string)
    (* 'When using TensorFlow, you should define explicitly the number
       of temporal_or_spatial_dimensions of your sequences. ...' *)
| TypeError (what : string)
| IndexError
| ZeroDivisionError
| NameError (name : string).

Definition result (A : Type) := sum Exn A.
Definition ret {A : Type} (a : A) : result A := inr a.
Definition raise {A : Type} (e : Exn) : result A := inl e.
Definition bind {A B : Type} (m : result A) (f : A -> result B) : result B :=
  match m with inl e => inl e | inr a => f a end.

Notation "x <- m ;; k" := (bind m (fun x => k))
  (at level 61, m at next level, right associativity).

Definition assert_ (b : bool) (a : assertion) : result unit :=
  if b then ret tt else raise (AssertionError a).

(** ** The host framework

    [Layer], [activations], [initializers], [regularizers] and
    [constraints] belong to the host framework and are outside
    [attention.py]. *)
Module Framework.

(** Modelled from the spec: the state kept by the base class [Layer]
    of the host framework's layer life cycle. *)
Record Layer := { name : string; trainable : bool }.

(** The keyword arguments the base class understands. *)
Definition allowed_kwargs : list string :=
  ["input_shape"; "batch_input_shape"; "batch_size"; "dtype"; "name"; "trainable";
   "weights"; "input_dtype"]%string.

(** Modelled from the spec: [Layer.__init__] accepts as keyword
    arguments the framework's own keywords and refuses every other
    one; of those it accepts, the name and the trainable flag are
    kept here. *)
Definition Layer_init (default_name : string) (kwargs : dict) : result Layer :=
  match find (fun p => negb (existsb (String.eqb (fst p)) allowed_kwargs)) kwargs with
  | Some p => raise (TypeError (fst p))
  | None =>
      nm <- match dict_get kwargs "name" with
            | None => ret default_name
            | Some (PyStr s) => ret s
            | Some _ => raise (TypeError "name")
            end ;;
      tr <- match dict_get kwargs "trainable" with
            | None => ret true
            | Some (PyBool b) => ret b
            | Some _ => raise (TypeError "trainable")
            end ;;
      ret {| name := nm; trainable := tr |}
  end.

(** Modelled from the spec: [Layer.get_config()]. *)
Definition Layer_get_config (l : Layer) : dict :=
  [("name", PyStr (name l)); ("trainable", PyBool (trainable l))]%string.

(** An activation function object: its [__name__] and the function
    it applies to every scalar of a tensor. *)
Record Activation := { act_name : string; act_fn : R -> R }.

(** Modelled from the spec: [activations.get(identifier)], for the
    elementwise activations; [None] is the linear activation. *)
Definition activations_get (identifier : pyval) : result Activation :=
  match identifier with
  | PyNone => ret {| act_name := "linear"; act_fn := fun x => x |}
  | PyStr s =>
      if String.eqb s "linear" then ret {| act_name := s; act_fn := fun x => x |}
      else if String.eqb s "relu" then ret {| act_name := s; act_fn := fun x => Rmax x 0 |}
      else if String.eqb s "tanh" then ret {| act_name := s; act_fn := tanh |}
      else if String.eqb s "sigmoid" then ret {| act_name := s; act_fn := fun x => 1 / (1 + exp (- x)) |}
      else if String.eqb s "softplus" then ret {| act_name := s; act_fn := fun x => ln (1 + exp x) |}
      else if String.eqb s "softsign" then ret {| act_name := s; act_fn := fun x => x / (1 + Rabs x) |}
      else raise (ValueError (unknown_activation s))
  | _ => raise (TypeError "activation")
  end.

(** Modelled from the spec: [activations.serialize(fn)]. *)
Definition activations_serialize (a : Activation) : pyval := PyStr (act_name a).

(** Modelled from the spec: [initializers.get], [regularizers.get]
    and [constraints.get] return the object a configuration value
    names, and the matching [serialize] returns that value; the
    object is identified with its serialized form. *)
Definition identifier_get (identifier : pyval) : pyval := identifier.
Definition identifier_serialize (obj : pyval) : pyval := obj.

End Framework.

(** Reading the keyword arguments a constructor is called with. *)
Definition arg (kw : dict) (k : string) (default : pyval) : pyval :=
  match dict_get kw k with Some v => v | None => default end.

Definition required (kw : dict) (k : string) : result pyval :=
  match dict_get kw k with Some v => ret v | None => raise (TypeError k) end.

Definition as_int (k : string) (v : pyval) : result Z :=
  match v with PyInt z => ret z | _ => raise (TypeError k) end.

Definition as_bool (k : string) (v : pyval) : result bool :=
  match v with PyBool b => ret b | _ => raise (TypeError k) end.

Definition as_float (k : string) (v : pyval) : result R :=
  match v with PyFloat r => ret r | PyInt z => ret (IZR z) | _ => raise (TypeError k) end.

(** The keyword arguments left for the base class: those that are not
    parameters of the constructor itself. *)
Definition other_kwargs (params : list string) (kw : dict) : dict :=
  filter (fun p => negb (existsb (String.eqb (fst p)) params)) kw.

(** A shape tuple; [None] is an undefined dimension. *)
Definition shape := list (option nat).

Definition dim (s : shape) (i : nat) : result nat :=
  match nth_error s i with
  | None => raise IndexError
  | Some None => raise (TypeError "NoneType")
  | Some (Some d) => ret d
  end.

(** [l[i]] on a tuple or list [l], for [0 <= i]. *)
Definition item {A : Type} (l : list A) (i : nat) : result A :=
  match nth_error l i with
  | Some a => ret a
  | None => raise IndexError
  end.

(** Modelled from the spec: [add_weight] of the host framework
    creates a weight of the given shape; a shape with a negative
    dimension is refused, since no initializer can draw it. *)
Definition weight_dim (z : Z) : result nat :=
  if (z <? 0)%Z then raise (ValueError negative_dimension) else ret (Z.to_nat z).

(** [add_weight(shape=(rows, cols), initializer=...)]: the initializer
    fixes the value at every position. *)
Definition add_weight2 (init : nat -> nat -> R) (rows cols : nat) : tensor2 :=
  map (fun i => map (fun j => init i j) (seq 0 cols)) (seq 0 rows).

Definition add_weight1 (init : nat -> R) (n : nat) : tensor1 := map init (seq 0 n).

(** ** [class MultiHeadAttention(Layer)] *)
Module MultiHeadAttention.
Import Framework.

Record t := {
  base : Layer;
  n_heads : Z;
  dmodel : Z;
  dk : Z;
  dv : Z;
  dropout : R;
  activation : Activation;
  use_bias : bool;
  kernel_initializer : pyval;
  kernel_regularizer : pyval;
  kernel_constraint : pyval;
  activity_regularizer : pyval;
  bias_initializer : pyval;
  bias_regularizer : pyval;
  bias_constraint : pyval;
  linear_v : option tensor2;
  linear_k : option tensor2;
  linear_q : option tensor2;
  linear_o : option tensor2;
  bias_v : option tensor1;
  bias_k : option tensor1;
  bias_q : option tensor1;
  bias_o : option tensor1;
  mask_future : bool
}.

Definition params : list string :=
  ["n_heads"; "dmodel"; "mask_future"; "dropout"; "activation"; "use_bias";
   "kernel_initializer"; "kernel_regularizer"; "activity_regularizer";
   "kernel_constraint"; "bias_initializer"; "bias_regularizer";
   "bias_constraint"]%string.

(** [__init__(self, n_heads, dmodel, mask_future=False, dropout=0.,
    activation='relu', use_bias=False, ...)], called with keyword
    arguments [kw]; the arguments are taken at their documented
    types. *)
Definition __init__ (default_name : string) (kw : dict) : result t :=
  n_heads_ <- (v <- required kw "n_heads" ;; as_int "n_heads" v) ;;
  dmodel_ <- (v <- required kw "dmodel" ;; as_int "dmodel" v) ;;
  mask_future_ <- as_bool "mask_future" (arg kw "mask_future" (PyBool false)) ;;
  dropout_ <- as_float "dropout" (arg kw "dropout" (PyFloat 0)) ;;
  use_bias_ <- as_bool "use_bias" (arg kw "use_bias" (PyBool false)) ;;
  base_ <- Layer_init default_name (other_kwargs params kw) ;;
  _ <- (if (n_heads_ =? 0)%Z then raise ZeroDivisionError else ret tt) ;;
  _ <- assert_ (dmodel_ mod n_heads_ =? 0)%Z dmodel_multiple_of_heads ;;
  activation_ <- activations_get (arg kw "activation" (PyStr "relu")) ;;
  ret {| base := base_;
         n_heads := n_heads_;
         dmodel := dmodel_;
         dk := (dmodel_ / n_heads_)%Z;
         dv := (dmodel_ / n_heads_)%Z;
         dropout := dropout_;
         activation := activation_;
         use_bias := use_bias_;
         kernel_initializer := identifier_get (arg kw "kernel_initializer" (PyStr "glorot_uniform"));
         kernel_regularizer := identifier_get (arg kw "kernel_regularizer" PyNone);
         kernel_constraint := identifier_get (arg kw "kernel_constraint" PyNone);
         activity_regularizer := identifier_get (arg kw "activity_regularizer" PyNone);
         bias_initializer := identifier_get (arg kw "bias_initializer" (PyStr "zeros"));
         bias_regularizer := identifier_get (arg kw "bias_regularizer" PyNone);
         bias_constraint := identifier_get (arg kw "bias_constraint" PyNone);
         linear_v := None; linear_k := None; linear_q := None; linear_o := None;
         bias_v := None; bias_k := None; bias_q := None; bias_o := None;
         mask_future := mask_future_ |}.

(** The values the initializers give to the weights created by
    [build]. *)
Record initial := {
  init_q : nat -> nat -> R;
  init_k : nat -> nat -> R;
  init_v : nat -> nat -> R;
  init_o : nat -> nat -> R;
  init_bq : nat -> R;
  init_bk : nat -> R;
  init_bv : nat -> R;
  init_bo : nat -> R
}.

Definition build (self : t) (ini : initial) (input_shape : list shape) : result t :=
  _ <- assert_ (length input_shape =? 2)%nat two_inputs ;;
  query_dim <- dim (nth 0 input_shape []) 2 ;;
  key_dim <- dim (nth 1 input_shape []) 2 ;;
  hk <- weight_dim (dk self * n_heads self) ;;
  hv <- weight_dim (dv self * n_heads self) ;;
  dm <- weight_dim (dmodel self) ;;
  ret {| base := base self;
         n_heads := n_heads self;
         dmodel := dmodel self;
         dk := dk self;
         dv := dv self;
         dropout := dropout self;
         activation := activation self;
         use_bias := use_bias self;
         kernel_initializer := kernel_initializer self;
         kernel_regularizer := kernel_regularizer self;
         kernel_constraint := kernel_constraint self;
         activity_regularizer := activity_regularizer self;
         bias_initializer := bias_initializer self;
         bias_regularizer := bias_regularizer self;
         bias_constraint := bias_constraint self;
         linear_q := Some (add_weight2 (init_q ini) query_dim hk);
         linear_k := Some (add_weight2 (init_k ini) key_dim hk);
         linear_v := Some (add_weight2 (init_v ini) key_dim hv);
         linear_o := Some (add_weight2 (init_o ini) hv dm);
         bias_q := if use_bias self then Some (add_weight1 (init_bq ini) hk) else None;
         bias_k := if use_bias self then Some (add_weight1 (init_bk ini) hk) else None;
         bias_v := if use_bias self then Some (add_weight1 (init_bv ini) hv) else None;
         bias_o := if use_bias self then Some (add_weight1 (init_bo ini) dm) else None;
         mask_future := mask_future self |}.

(** [compute_output_shape]: the shape of the queries with [dmodel] as
    its last dimension; [dmodel] is written into the tuple as the
    integer it is. *)
Definition compute_output_shape (self : t) (input_shape : list shape)
  : result (list (option Z)) :=
  s0 <- match nth_error input_shape 0 with
        | Some s0 => ret s0
        | None => raise IndexError
        end ;;
  _ <- assert_ (negb (length s0 =? 0)%nat && (3 <=? length s0)%nat) output_shape_defined ;;
  _ <- assert_ (match last s0 None with Some (S _) => true | _ => false end)
               output_shape_defined ;;
  ret (map (option_map Z.of_nat) (removelast s0) ++ [Some (dmodel self)]).

(** The value written over masked scores; Python reads
    [-2 ** 32 + 1] as [-(2 ** 32) + 1]. *)
Definition padding_value : R := - 2 ^ 32 + 1.

(** The [Dropout] layer applied to the attention weights: every
    weight is multiplied by the factor drawn for its position (one
    at inference time). *)
Definition dropout_layer (noise : nat -> nat -> nat -> R) (x : tensor3) : tensor3 :=
  K.mapi (fun a => K.mapi (fun i => K.mapi (fun j v => v * noise a i j))) x.

(** One of the linear projections of [call]:
    [activation(K.bias_add(K.dot(x, kernel), bias))] with a bias,
    [activation(K.dot(x, kernel))] without. *)
Definition linear (self : t) (x : tensor3) (kernel : option tensor2)
           (bias : option tensor1) : result tensor3 :=
  match kernel with
  | None => raise (TypeError "NoneType")
  | Some w =>
      if use_bias self then
        match bias with
        | None => raise (TypeError "NoneType")
        | Some b => ret (K.map3 (act_fn (activation self)) (K.bias_add (K.dot x w) b))
        end
      else ret (K.map3 (act_fn (activation self)) (K.dot x w))
  end.

(** [[x[:, :, i * d: (i + 1) * d] for i in range(n)]] concatenated
    along axis 0. *)
Definition split_heads (n d : nat) (x : tensor3) : tensor3 :=
  K.concatenate0 (map (fun i => K.slice2 (i * d) ((i + 1) * d) x) (seq 0 n)).

Definition masks := option (option (list (list bool)) * option (list (list bool))).

(** The tensors [call] computes on its way to the output. *)
Record trace := {
  query_in : tensor3;       (* query, after the input mask *)
  key_in : tensor3;         (* key, after the input mask *)
  queries : tensor3;        (* projected queries *)
  keys : tensor3;           (* projected keys *)
  values : tensor3;         (* projected values *)
  queries_ : tensor3;
  keys_ : tensor3;
  values_ : tensor3;
  scores : tensor3;         (* attended_heads = matmul / scale *)
  logits : tensor3;         (* attended_heads handed to the softmax *)
  alphas : tensor3;         (* attention weights after query masking *)
  heads : tensor3;          (* K.batch_dot(alphas, values_) *)
  restored : tensor3;       (* heads concatenated along the features *)
  output : tensor3
}.

(** [# Scaled-Dot-Product Attention]: [matmul / scale]. *)
Definition scaled_dot_product (self : t) (queries_ keys_ : tensor3) : tensor3 :=
  let matmul := K.batch_dot queries_ (K.permute_dimensions_021 keys_) in
  let scale := sqrt (IZR (dk self)) in
  K.map3 (fun v => v / scale) matmul.

(** [# Key Masking]. *)
Definition key_masking (self : t) (query key attended_heads : tensor3) : tensor3 :=
  let key_masks := map (map K.sign) (K.sum_abs_last key) in
  let key_masks := K.tile0 (Z.to_nat (n_heads self)) key_masks in
  let key_masks := K.expand1_tile (length (hd [] query)) key_masks in
  let paddings := K.full_like padding_value attended_heads in
  K.switch (K.equal0 key_masks) paddings attended_heads.

(** [if self.mask_future: ...]. *)
Definition future_masking (self : t) (attended_heads : tensor3) : tensor3 :=
  if mask_future self then
    let diag_vals := K.ones_like2 (hd [] attended_heads) in
    let tril := K.tril diag_vals in
    let future_masks := K.expand0_tile (length attended_heads) tril in
    let paddings := K.full_like padding_value future_masks in
    K.switch (K.equal0 future_masks) paddings attended_heads
  else attended_heads.

(** [# Activation (softmax)], the dropout and [# Query Masking]. *)
Definition attention_weights (self : t) (noise : nat -> nat -> nat -> R)
           (query key attended_heads : tensor3) : tensor3 :=
  let alphas := K.softmax_3d attended_heads in
  let alphas := if Rlt_dec 0 (dropout self) then dropout_layer noise alphas else alphas in
  let query_masks := map (map K.sign) (K.sum_abs_last query) in
  let query_masks := K.tile0 (Z.to_nat (n_heads self)) query_masks in
  let query_masks := K.expand_last_tile (length (hd [] key)) query_masks in
  K.mul3 alphas query_masks.

(** [# Restore shape]. *)
Definition restore_shape (self : t) (attended_heads : tensor3) : tensor3 :=
  let nb_samples := (length attended_heads / Z.to_nat (n_heads self))%nat in
  K.concatenate2
    (map (fun i => K.slice (i * nb_samples) ((i + 1) * nb_samples) attended_heads)
         (seq 0 (Z.to_nat (n_heads self)))).

Definition call_trace (self : t) (noise : nat -> nat -> nat -> R)
           (inputs : tensor3 * tensor3) (mask : masks) : result trace :=
  let query := fst inputs in
  let key := snd inputs in
  let query := match mask with
               | Some (Some m0, _) => K.scale_rows query (K.cast m0)
               | _ => query
               end in
  let key := match mask with
             | Some (_, Some m1) => K.scale_rows key (K.cast m1)
             | _ => key
             end in
  (* Do linear projections *)
  queries <- linear self query (linear_q self) (bias_q self) ;;
  keys <- linear self key (linear_k self) (bias_k self) ;;
  values <- linear self key (linear_v self) (bias_v self) ;;
  let h := Z.to_nat (n_heads self) in
  let queries_ := split_heads h (Z.to_nat (dk self)) queries in
  let keys_ := split_heads h (Z.to_nat (dk self)) keys in
  let values_ := split_heads h (Z.to_nat (dv self)) values in
  let attended_heads := scaled_dot_product self queries_ keys_ in
  let attended_heads1 := key_masking self query key attended_heads in
  let attended_heads2 := future_masking self attended_heads1 in
  let alphas := attention_weights self noise query key attended_heads2 in
  (* Matmul with V *)
  let attended := K.batch_dot alphas values_ in
  let restored := restore_shape self attended in
  (* Apply the final linear *)
  output <- linear self restored (linear_o self) (bias_o self) ;;
  ret {| query_in := query; key_in := key;
         queries := queries; keys := keys; values := values;
         queries_ := queries_; keys_ := keys_; values_ := values_;
         scores := attended_heads; logits := attended_heads2;
         alphas := alphas; heads := attended;
         restored := restored; output := output |}.

Definition call (self : t) (noise : nat -> nat -> nat -> R)
           (inputs : tensor3 * tensor3) (mask : masks) : result tensor3 :=
  tr <- call_trace self noise inputs mask ;;
  ret (output tr).

(** [get_config]: the layer's own entries after those of the base
    class. *)
Definition get_config (self : t) : dict :=
  let config :=
    [("n_heads", PyInt (n_heads self));
     ("dmodel", PyInt (dmodel self));
     ("activation", activations_serialize (activation self));
     ("use_bias", PyBool (use_bias self));
     ("kernel_initializer", identifier_serialize (kernel_initializer self));
     ("kernel_regularizer", identifier_serialize (kernel_regularizer self));
     ("kernel_constraint", identifier_serialize (kernel_constraint self));
     ("activity_regularizer", identifier_serialize (activity_regularizer self));
     ("dropout", PyFloat (dropout self));
     ("mask_future", PyBool (mask_future self))]%string in
  let base_config := Layer_get_config (base self) in
  base_config ++ config.

(** *** Attention of one head on one sample

    The formulation the layer implements, written for a single
    head [hh] and a single sample [b]:
    [score(i, j) = <q_i, k_j> / sqrt(dk)], masked positions
    overwritten, a softmax along the keys, and the weighted sum of
    the value vectors. *)

Definition all_zero (v : tensor1) : bool :=
  forallb K.is_zero v.

Definition head_slice (d hh : nat) (v : tensor1) : tensor1 :=
  K.slice (hh * d) ((hh + 1) * d) v.

Definition sample_scores (self : t) (Q Kh : tensor2) : tensor2 :=
  map (fun q => map (fun k => K.dotp q k / sqrt (IZR (dk self))) Kh) Q.

Definition sample_logits (self : t) (key_b : tensor2) (S : tensor2) : tensor2 :=
  K.mapi (fun i row =>
            K.mapi (fun j s =>
                      if all_zero (nth j key_b []) || (mask_future self && (i <? j)%nat)
                      then padding_value else s) row) S.

Definition sample_alphas (self : t) (noise_a : nat -> nat -> R) (query_b : tensor2)
           (L : tensor2) : tensor2 :=
  K.mapi (fun i row =>
            K.mapi (fun j a =>
                      (if Rlt_dec 0 (dropout self) then a * noise_a i j else a)
                      * (if all_zero (nth i query_b []) then 0 else 1))
                   (K.softmax1 row)) L.

(** Scaled dot-product attention of one head on one sample, from the
    head's slices [Qh], [Kh], [Vh] of the projections and the input
    query and key of the sample, which decide the masks. *)
Definition head_attention (self : t) (noise_a : nat -> nat -> R)
           (query_b key_b Qh Kh Vh : tensor2) : tensor2 :=
  let L := sample_logits self key_b (sample_scores self Qh Kh) in
  let A := sample_alphas self noise_a query_b L in
  K.matmul A Vh.

(** The attention of head [hh] on sample [b]. *)
Definition head_output (self : t) (noise : nat -> nat -> nat -> R)
           (query key queries keys values : tensor3) (hh b : nat) : tensor2 :=
  head_attention self (noise (hh * length query + b)%nat) (nth b query []) (nth b key [])
                 (map (head_slice (Z.to_nat (dk self)) hh) (nth b queries []))
                 (map (head_slice (Z.to_nat (dk self)) hh) (nth b keys []))
                 (map (head_slice (Z.to_nat (dv self)) hh) (nth b values [])).

(** The per-head results laid side by side along the feature axis. *)
Definition heads_side_by_side (self : t) (noise : nat -> nat -> nat -> R)
           (query key queries keys values : tensor3) : tensor3 :=
  map (fun b =>
         map (fun i =>
                concat (map (fun hh =>
                               nth i (head_output self noise query key
                                                     queries keys values hh b) [])
                            (seq 0 (Z.to_nat (n_heads self)))))
             (seq 0 (length (nth b query []))))
      (seq 0 (length query)).

(** [compute_mask(self, inputs, mask=None)]: the mask handed to the
    next layer, one entry per query position. *)
Definition compute_mask (self : t) (inputs : tensor3 * tensor3) (mask : masks) : tensor2 :=
  let query := fst inputs in
  match mask with
  | Some (Some m0, _) => K.cast m0
  | _ => K.cast (K.not_equal0 (K.sum_abs_last query))
  end.

End MultiHeadAttention.

(** The deprecated layers below call [initializations.get(init)] in
    their constructors.  The module imports [activations],
    [initializers], [regularizers] and [constraints] (lines 6-9) and
    binds the name [initializations] nowhere, so evaluating it raises
    [NameError]. *)
Definition initializations_get (identifier : pyval) : result pyval :=
  raise (NameError "initializations").

(** ** [class Attention(Layer)] *)
Module Attention.

(** The attributes that [build], [attention_step] and
    [get_output_shape_for] read or write. *)
Record t := {
  nb_attention : nat;   (* a count of attention mechanisms *)
  Wa : tensor2;    (* (input_dim, nb_attention) *)
  ba : tensor1     (* (nb_attention,) *)
}.

(** [build(self, input_shape)]: [Wa] is drawn by the initializer,
    [ba] starts at zero. *)
Definition build (self : t) (init_Wa : nat -> nat -> R) (input_shape : shape) : result t :=
  input_dim <- match rev input_shape with
               | [] => raise IndexError
               | None :: _ => raise (TypeError "NoneType")
               | Some d :: _ => ret d
               end ;;
  ret {| nb_attention := nb_attention self;
         Wa := add_weight2 init_Wa input_dim (nb_attention self);
         ba := repeat 0 (nb_attention self) |}.

(** [constants[0]]: the list [[K.cast_to_floatx(1.)]] or a dropout
    mask of the shape of the input. *)
Inductive multiplier :=
| OneList (c : R)
| Mask (m : tensor3).

(** [x * B_Wa] under the backend's broadcasting rules. *)
Definition times (x : tensor3) (b : multiplier) : tensor3 :=
  match b with
  | OneList c => K.map3 (fun v => v * c) x
  | Mask m => K.mul3 x m
  end.

Definition attention_step (self : t) (x : tensor3) (constants : list multiplier)
  : result tensor3 :=
  B_Wa <- item constants 0 ;;
  let beta := K.map3 K.sigmoid (K.bias_add (K.dot (times x B_Wa) (Wa self)) (ba self)) in
  ret beta.

(** [tuple(list(input_shape[:2]) + [self.nb_attention])]. *)
Definition get_output_shape_for (self : t) (input_shape : shape) : shape :=
  firstn 2 input_shape ++ [Some (nb_attention self)].

End Attention.

(** ** [class SoftAttention(Layer)] *)
Module SoftAttention.
Import Framework.

Record t := {
  base : Layer;
  att_dim : Z;
  init : pyval;
  activation : Activation;
  sum_weighted_output : bool;
  dropout_Wa : R;
  dropout_Ua : R;
  wa_regularizer : pyval;
  Wa_regularizer : pyval;
  Ua_regularizer : pyval;
  ba_regularizer : pyval;
  ca_regularizer : pyval;
  wa : tensor1;    (* (att_dim,) *)
  Wa : tensor2;    (* (input_dim, att_dim) *)
  Ua : tensor2;    (* (context_dim, att_dim) *)
  ba : tensor1;    (* (att_dim,) *)
  ca : tensor1     (* (input_steps,) *)
}.

Definition params : list string :=
  ["att_dim"; "sum_weighted_output"; "init"; "activation"; "dropout_Wa";
   "dropout_Ua"; "wa_regularizer"; "Wa_regularizer"; "Ua_regularizer";
   "ba_regularizer"; "ca_regularizer"]%string.

(** [__init__(self, att_dim, sum_weighted_output=True,
    init='glorot_uniform', ...)], called with keyword arguments [kw].
    Its second statement is [self.init = initializations.get(init)]. *)
Definition __init__ (default_name : string) (kw : dict) : result t :=
  att_dim_ <- (v <- required kw "att_dim" ;; as_int "att_dim" v) ;;
  init_ <- initializations_get (arg kw "init" (PyStr "glorot_uniform")) ;;
  activation_ <- activations_get (arg kw "activation" (PyStr "tanh")) ;;
  sum_weighted_output_ <- as_bool "sum_weighted_output"
                            (arg kw "sum_weighted_output" (PyBool true)) ;;
  dropout_Wa_ <- as_float "dropout_Wa" (arg kw "dropout_Wa" (PyFloat 0)) ;;
  dropout_Ua_ <- as_float "dropout_Ua" (arg kw "dropout_Ua" (PyFloat 0)) ;;
  base_ <- Layer_init default_name (other_kwargs params kw) ;;
  ret {| base := base_;
         att_dim := att_dim_;
         init := init_;
         activation := activation_;
         sum_weighted_output := sum_weighted_output_;
         dropout_Wa := dropout_Wa_;
         dropout_Ua := dropout_Ua_;
         wa_regularizer := identifier_get (arg kw "wa_regularizer" PyNone);
         Wa_regularizer := identifier_get (arg kw "Wa_regularizer" PyNone);
         Ua_regularizer := identifier_get (arg kw "Ua_regularizer" PyNone);
         ba_regularizer := identifier_get (arg kw "ba_regularizer" PyNone);
         ca_regularizer := identifier_get (arg kw "ca_regularizer" PyNone);
         (* the weights are created by build *)
         wa := []; Wa := []; Ua := []; ba := []; ca := [] |}.

(** [constants[0]]: the list [[K.cast_to_floatx(1.)]] or a list
    holding a dropout mask of shape [(samples, dim)]. *)
Inductive multiplier :=
| Scalar (s : R)
| Mask (m : tensor2).

(** [x * B_Wa[0]] under the backend's broadcasting rules: a scalar
    multiplies every entry; a 2D mask is aligned with the last two
    axes of [x]. *)
Definition times (x : tensor3) (b : multiplier) : tensor3 :=
  match b with
  | Scalar s => K.map3 (fun v => v * s) x
  | Mask m => map (fun xb => K.map2 (K.map2 Rmult) xb m) x
  end.

(** The attended representation: summed over the input positions
    or kept per position. *)
Inductive attended :=
| Summed (ctx : tensor2)
| PerPosition (ctx : tensor3).

Definition attention_step (self : t) (x : tensor3) (constants : multiplier * tensor2)
  : attended * tensor2 :=
  let B_Wa := fst constants in
  let pctx_ := snd constants in
  let p_state_ := K.dot (times x B_Wa) (Wa self) in
  (* pctx_[:, None, :] + p_state_ *)
  let pctx_ := K.map3 (act_fn (activation self))
                 (K.map2 (fun pc ps => map (fun row => K.map2 Rplus pc row) ps) pctx_ p_state_) in
  let e := map (fun row => K.map2 Rplus row (ca self)) (K.dot_vec pctx_ (wa self)) in
  let alphas := K.softmax e in
  let ctx_ := K.scale_rows x alphas in
  if sum_weighted_output self
  then (Summed (K.sum_axis1 ctx_), alphas)
  else (PerPosition ctx_, alphas).

Definition get_config (self : t) : dict :=
  let config :=
    [("att_units", PyInt (att_dim self));
     ("kernel_initializer", init self);
     ("activation", PyStr (act_name (activation self)));
     ("sum_weighted_output", PyBool (sum_weighted_output self));
     ("wa_regularizer", wa_regularizer self);
     ("Wa_regularizer", Wa_regularizer self);
     ("Ua_regularizer", Ua_regularizer self);
     ("ba_regularizer", ba_regularizer self);
     ("ca_regularizer", ca_regularizer self);
     ("dropout_Wa", PyFloat (dropout_Wa self));
     ("dropout_Ua", PyFloat (dropout_Ua self))]%string in
  let base_config := Layer_get_config (base self) in
  base_config ++ config.

(** The formulation of the class docstring:
    [phi(X, t) = sum_i alpha_i(t) * x_i]. *)
Definition phi (alpha : tensor1) (X : tensor2) : tensor1 :=
  map (fun c => K.sum (K.map2 (fun a x_i => a * nth c x_i 0) alpha X))
      (seq 0 (K.ncols X)).

(** [get_output_shape_for(self, input_shape)]: the shapes of the
    attended representation and of the attention weights. *)
Definition get_output_shape_for (self : t) (input_shape : list shape)
  : result (shape * shape) :=
  dim_x_att <- (if sum_weighted_output self
                then s0 <- item input_shape 0 ;;
                     samples <- item s0 0 ;;
                     input_dim <- item s0 2 ;;
                     ret [samples; input_dim]
                else item input_shape 0) ;;
  s0 <- item input_shape 0 ;;
  samples <- item s0 0 ;;
  steps <- item s0 1 ;;
  let dim_alpha_att := [samples; steps] in
  ret (dim_x_att, dim_alpha_att).

End SoftAttention.

(** ** [class ConvAtt(Layer)] *)
Module ConvAtt.
Import Framework.

Record t := {
  base : Layer;
  nb_embedding : Z;
  nb_glimpses : Z;
  concat_timesteps : bool;
  return_states : bool;
  border_mode : pyval;
  dim_ordering : pyval;
  bias : bool
}.

Definition in_set (v : pyval) (l : list string) : bool :=
  match v with PyStr s => existsb (String.eqb s) l | _ => false end.

Definition params : list string :=
  ["nb_embedding"; "nb_glimpses"; "concat_timesteps"; "init"; "activation";
   "weights"; "return_states"; "border_mode"; "dim_ordering"; "W_regularizer";
   "U_regularizer"; "V_regularizer"; "b_regularizer"; "activity_regularizer";
   "W_constraint"; "U_constraint"; "V_constraint"; "b_constraint";
   "W_learning_rate_multiplier"; "b_learning_rate_multiplier"; "bias"]%string.

(** [__init__(self, nb_embedding, nb_glimpses=1, ..., border_mode='valid',
    dim_ordering='default', ...)]; [image_dim_ordering] is the value
    of [K.image_dim_ordering()]. *)
Definition __init__ (image_dim_ordering default_name : string) (kw : dict) : result t :=
  nb_embedding_ <- (v <- required kw "nb_embedding" ;; as_int "nb_embedding" v) ;;
  nb_glimpses_ <- as_int "nb_glimpses" (arg kw "nb_glimpses" (PyInt 1)) ;;
  concat_timesteps_ <- as_bool "concat_timesteps" (arg kw "concat_timesteps" (PyBool true)) ;;
  return_states_ <- as_bool "return_states" (arg kw "return_states" (PyBool true)) ;;
  bias_ <- as_bool "bias" (arg kw "bias" (PyBool true)) ;;
  let dim_ordering_ :=
    match arg kw "dim_ordering" (PyStr "default") with
    | PyStr s => if String.eqb s "default" then PyStr image_dim_ordering else PyStr s
    | v => v
    end in
  let border_mode_ := arg kw "border_mode" (PyStr "valid") in
  _ <- (if in_set border_mode_ ["valid"; "same"; "full"]%string then ret tt
        else raise (ValueError (invalid_border_mode border_mode_))) ;;
  init_ <- initializations_get (arg kw "init" (PyStr "glorot_uniform")) ;;
  _ <- (if in_set dim_ordering_ ["tf"; "th"]%string then ret tt
        else raise (ValueError dim_ordering_not_tf_th)) ;;
  base_ <- Layer_init default_name (other_kwargs params kw) ;;
  ret {| base := base_;
         nb_embedding := nb_embedding_;
         nb_glimpses := nb_glimpses_;
         concat_timesteps := concat_timesteps_;
         return_states := return_states_;
         border_mode := border_mode_;
         dim_ordering := dim_ordering_;
         bias := bias_ |}.

(** [compute_mask(self, input, mask)]; [mask] is the list of the
    masks of the two inputs. *)
Definition compute_mask {A B : Type} (self : t) (input : A)
           (mask : list (option (list (list B)))) : result (list B) :=
  m1 <- match nth_error mask 1 with
        | None => raise IndexError
        | Some None => raise (TypeError "NoneType")
        | Some (Some m) => ret m
        end ;;
  let out_mask :=
    if (nb_glimpses self >? 0)%Z
    then K.repeat_ m1 (Z.to_nat (nb_glimpses self))
    else K.repeat_ m1 (Z.to_nat (nb_embedding self)) in
  let out_mask := K.repeat_ m1 (Z.to_nat (nb_embedding self)) in
  let out_mask := K.flatten out_mask in
  ret out_mask.

Definition set_nb_glimpses (self : t) (g : Z) : t :=
  {| base := base self; nb_embedding := nb_embedding self; nb_glimpses := g;
     concat_timesteps := concat_timesteps self; return_states := return_states self;
     border_mode := border_mode self; dim_ordering := dim_ordering self;
     bias := bias self |}.

End ConvAtt.

(** ** The errors of the layers *)



(** Entry [(a, i, j)] of a 3D tensor, if there is one. *)
Definition get3 {A : Type} (x : list (list (list A))) (a i j : nat) : option A :=
  match nth_error x a with
  | Some m => match nth_error m i with
              | Some r => nth_error r j
              | None => None
              end
  | None => None
  end.

Definition row3 {A : Type} (x : list (list (list A))) (a i : nat) : list A :=
  nth i (nth a x []) [].

(** The masks of [call] fit inputs of [n] samples with [tq] query and
    [tk] key positions. *)
Definition mask_fits {A : Type} (n t : nat) (m : option (list (list A))) : bool :=
  match m with
  | None => true
  | Some m => (length m =? n)%nat && forallb (fun r => (length r =? t)%nat) m
  end.

Definition masks_fit (n tq tk : nat) (mask : MultiHeadAttention.masks) : bool :=
  match mask with
  | None => true
  | Some (m0, m1) => mask_fits n tq m0 && mask_fits n tk m1
  end.

(** ** Concrete inputs used below *)



(** A [MultiHeadAttention] constructor call with a bias initializer
    other than the default. *)
Definition mha_ones_kwargs : dict :=
  [("n_heads", PyInt 2); ("dmodel", PyInt 4); ("use_bias", PyBool true);
   ("bias_initializer", PyStr "ones")]%string.

(** The constants handed to [SoftAttention.attention_step] fit inputs
    of [n] samples with [t] positions: one projected context per
    sample, one bias [ca] per position, and a dropout mask, if there
    is one, with a row per position. *)
Definition constants_fit (self : SoftAttention.t) (n t : nat)
           (constants : SoftAttention.multiplier * tensor2) : bool :=
  (length (snd constants) =? n)%nat
  && (length (SoftAttention.ca self) =? t)%nat
  && match fst constants with
     | SoftAttention.Scalar _ => true
     | SoftAttention.Mask m => (length m =? t)%nat
     end.

(** A [SoftAttention] layer for two positions and two features, and
    an input of one sample. *)
Definition soft_example : SoftAttention.t :=
  {| SoftAttention.base := {| Framework.name := "soft_attention_1"; Framework.trainable := true |};
     SoftAttention.att_dim := 1;
     SoftAttention.init := PyStr "glorot_uniform";
     SoftAttention.activation := {| Framework.act_name := "tanh"; Framework.act_fn := tanh |};
     SoftAttention.sum_weighted_output := true;
     SoftAttention.dropout_Wa := 0;
     SoftAttention.dropout_Ua := 0;
     SoftAttention.wa_regularizer := PyNone;
     SoftAttention.Wa_regularizer := PyNone;
     SoftAttention.Ua_regularizer := PyNone;
     SoftAttention.ba_regularizer := PyNone;
     SoftAttention.ca_regularizer := PyNone;
     SoftAttention.wa := [1];
     SoftAttention.Wa := [[1]; [0]];
     SoftAttention.Ua := [[1]];
     SoftAttention.ba := [0];
     SoftAttention.ca := [0; 0] |}.

Definition soft_example_x : tensor3 := [[[1; 2]; [3; 4]]].

Definition soft_example_constants : SoftAttention.multiplier * tensor2 :=
  (SoftAttention.Scalar 1, [[0]]).

(** What is known of the trace of a call of a built layer on inputs
    of [n] samples, [tq] query positions and [tk] key positions:
    the shapes of the masked inputs and of the projections, and how
    every later tensor comes from the earlier ones. *)
Record trace_ok (self : MultiHeadAttention.t) (noise : nat -> nat -> nat -> R)
       (n tq tk dq dk_in : nat) (tr : MultiHeadAttention.trace) : Prop := {
  ok_heads : (0 < Z.to_nat (MultiHeadAttention.n_heads self))%nat;
  ok_dk : (0 < Z.to_nat (MultiHeadAttention.dk self))%nat;
  ok_dv : MultiHeadAttention.dv self = MultiHeadAttention.dk self;
  ok_dmodel : Z.to_nat (MultiHeadAttention.dmodel self)
              = (Z.to_nat (MultiHeadAttention.n_heads self)
                 * Z.to_nat (MultiHeadAttention.dk self))%nat;
  ok_query : K.has_shape3 n tq dq (MultiHeadAttention.query_in tr) = true;
  ok_key : K.has_shape3 n tk dk_in (MultiHeadAttention.key_in tr) = true;
  ok_queries : K.has_shape3 n tq (Z.to_nat (MultiHeadAttention.dmodel self))
                            (MultiHeadAttention.queries tr) = true;
  ok_keys : K.has_shape3 n tk (Z.to_nat (MultiHeadAttention.dmodel self))
                         (MultiHeadAttention.keys tr) = true;
  ok_values : K.has_shape3 n tk (Z.to_nat (MultiHeadAttention.dmodel self))
                           (MultiHeadAttention.values tr) = true;
  ok_queries_ : MultiHeadAttention.queries_ tr
                = MultiHeadAttention.split_heads
                    (Z.to_nat (MultiHeadAttention.n_heads self))
                    (Z.to_nat (MultiHeadAttention.dk self)) (MultiHeadAttention.queries tr);
  ok_keys_ : MultiHeadAttention.keys_ tr
             = MultiHeadAttention.split_heads
                 (Z.to_nat (MultiHeadAttention.n_heads self))
                 (Z.to_nat (MultiHeadAttention.dk self)) (MultiHeadAttention.keys tr);
  ok_values_ : MultiHeadAttention.values_ tr
               = MultiHeadAttention.split_heads
                   (Z.to_nat (MultiHeadAttention.n_heads self))
                   (Z.to_nat (MultiHeadAttention.dv self)) (MultiHeadAttention.values tr);
  ok_scores : MultiHeadAttention.scores tr
              = MultiHeadAttention.scaled_dot_product
                  self (MultiHeadAttention.queries_ tr) (MultiHeadAttention.keys_ tr);
  ok_logits : MultiHeadAttention.logits tr
              = MultiHeadAttention.future_masking
                  self (MultiHeadAttention.key_masking
                          self (MultiHeadAttention.query_in tr) (MultiHeadAttention.key_in tr)
                          (MultiHeadAttention.scores tr));
  ok_alphas : MultiHeadAttention.alphas tr
              = MultiHeadAttention.attention_weights
                  self noise (MultiHeadAttention.query_in tr) (MultiHeadAttention.key_in tr)
                  (MultiHeadAttention.logits tr);
  ok_attended : MultiHeadAttention.heads tr
                = K.batch_dot (MultiHeadAttention.alphas tr) (MultiHeadAttention.values_ tr);
  ok_restored : MultiHeadAttention.restored tr
                = MultiHeadAttention.restore_shape self (MultiHeadAttention.heads tr);
  ok_output : MultiHeadAttention.linear self (MultiHeadAttention.restored tr)
                                        (MultiHeadAttention.linear_o self)
                                        (MultiHeadAttention.bias_o self)
              = ret (MultiHeadAttention.output tr)
}.

(** The input shapes handed to [build] for inputs of these sizes. *)
Definition input_shapes (n tq tk dq dk_in : nat) : list shape :=
  [[Some n; Some tq; Some dq]; [Some n; Some tk; Some dk_in]].

(** Row [(a, i)] of a 3D tensor, if there is one. *)
Definition get2 {A : Type} (x : list (list (list A))) (a i : nat) : option (list A) :=
  match nth_error x a with
  | Some m => nth_error m i
  | None => None
  end.

(** A [MultiHeadAttention] layer with two heads of one feature each,
    constructed with [mask_future=True] and built for one sample with
    two query and two key positions of one feature.  The second query
    and the second key are entirely zero. *)
Definition mha_example_kwargs : dict :=
  [("n_heads", PyInt 2); ("dmodel", PyInt 2); ("mask_future", PyBool true)]%string.

Definition mha_example_constructed : MultiHeadAttention.t :=
  {| MultiHeadAttention.base :=
       {| Framework.name := "multi_head_attention_1"; Framework.trainable := true |};
     MultiHeadAttention.n_heads := 2;
     MultiHeadAttention.dmodel := 2;
     MultiHeadAttention.dk := 1;
     MultiHeadAttention.dv := 1;
     MultiHeadAttention.dropout := 0;
     MultiHeadAttention.activation :=
       {| Framework.act_name := "relu"; Framework.act_fn := fun x => Rmax x 0 |};
     MultiHeadAttention.use_bias := false;
     MultiHeadAttention.kernel_initializer := PyStr "glorot_uniform";
     MultiHeadAttention.kernel_regularizer := PyNone;
     MultiHeadAttention.kernel_constraint := PyNone;
     MultiHeadAttention.activity_regularizer := PyNone;
     MultiHeadAttention.bias_initializer := PyStr "zeros";
     MultiHeadAttention.bias_regularizer := PyNone;
     MultiHeadAttention.bias_constraint := PyNone;
     MultiHeadAttention.linear_v := None;
     MultiHeadAttention.linear_k := None;
     MultiHeadAttention.linear_q := None;
     MultiHeadAttention.linear_o := None;
     MultiHeadAttention.bias_v := None;
     MultiHeadAttention.bias_k := None;
     MultiHeadAttention.bias_q := None;
     MultiHeadAttention.bias_o := None;
     MultiHeadAttention.mask_future := true |}.

Definition mha_example_initial : MultiHeadAttention.initial :=
  {| MultiHeadAttention.init_q := fun _ _ => 1;
     MultiHeadAttention.init_k := fun _ _ => 1;
     MultiHeadAttention.init_v := fun _ _ => 1;
     MultiHeadAttention.init_o := fun _ _ => 1;
     MultiHeadAttention.init_bq := fun _ => 0;
     MultiHeadAttention.init_bk := fun _ => 0;
     MultiHeadAttention.init_bv := fun _ => 0;
     MultiHeadAttention.init_bo := fun _ => 0 |}.

Definition mha_example : MultiHeadAttention.t :=
  {| MultiHeadAttention.base :=
       {| Framework.name := "multi_head_attention_1"; Framework.trainable := true |};
     MultiHeadAttention.n_heads := 2;
     MultiHeadAttention.dmodel := 2;
     MultiHeadAttention.dk := 1;
     MultiHeadAttention.dv := 1;
     MultiHeadAttention.dropout := 0;
     MultiHeadAttention.activation :=
       {| Framework.act_name := "relu"; Framework.act_fn := fun x => Rmax x 0 |};
     MultiHeadAttention.use_bias := false;
     MultiHeadAttention.kernel_initializer := PyStr "glorot_uniform";
     MultiHeadAttention.kernel_regularizer := PyNone;
     MultiHeadAttention.kernel_constraint := PyNone;
     MultiHeadAttention.activity_regularizer := PyNone;
     MultiHeadAttention.bias_initializer := PyStr "zeros";
     MultiHeadAttention.bias_regularizer := PyNone;
     MultiHeadAttention.bias_constraint := PyNone;
     MultiHeadAttention.linear_v := Some [[1; 1]];
     MultiHeadAttention.linear_k := Some [[1; 1]];
     MultiHeadAttention.linear_q := Some [[1; 1]];
     MultiHeadAttention.linear_o := Some [[1; 1]; [1; 1]];
     MultiHeadAttention.bias_v := None;
     MultiHeadAttention.bias_k := None;
     MultiHeadAttention.bias_q := None;
     MultiHeadAttention.bias_o := None;
     MultiHeadAttention.mask_future := true |}.

Definition mha_example_query : tensor3 := [[[1]; [0]]].
Definition mha_example_key : tensor3 := [[[1]; [0]]].
Definition mha_example_noise : nat -> nat -> nat -> R := fun _ _ _ => 1.

(** Entry [(b, i)] of a 2D tensor, if there is one. *)
Definition get_entry {A : Type} (m : list (list A)) (b i : nat) : option A :=
  match nth_error m b with
  | Some r => nth_error r i
  | None => None
  end.

(** Whether the input mask of the queries (of the keys) switches
    position [(b, i)] off; without a mask no position is. *)
Definition query_mask_off (mask : MultiHeadAttention.masks) (b i : nat) : bool :=
  match mask with
  | Some (Some m0, _) => negb (nth i (nth b m0 []) true)
  | _ => false
  end.

Definition key_mask_off (mask : MultiHeadAttention.masks) (b j : nat) : bool :=
  match mask with
  | Some (_, Some m1) => negb (nth j (nth b m1 []) true)
  | _ => false
  end.

(** Input masks for the example layer: the first query position is
    switched off, no key position is. *)
Definition mha_example_mask : MultiHeadAttention.masks :=
  Some (Some [[false; true]], Some [[true; true]]).

(** A second pair of inputs, without zero vectors. *)
Definition mha_example_query2 : tensor3 := [[[1]; [2]]].
Definition mha_example_key2 : tensor3 := [[[1]; [3]]].


(** Two batches of two samples that agree at sample 0 only. *)
Definition mha_batch_query : tensor3 := [[[1]; [2]]; [[3]; [4]]].
Definition mha_batch_key : tensor3 := [[[1]; [3]]; [[2]; [2]]].
Definition mha_batch_query' : tensor3 := [[[1]; [2]]; [[5]; [0]]].
Definition mha_batch_key' : tensor3 := [[[1]; [3]]; [[0]; [7]]].


(** A tensor has the shape a shape tuple announces. *)
Definition tensor2_has_shape (s : shape) (m : tensor2) : bool :=
  match s with
  | [Some n; Some d] => K.has_shape2 n d m
  | _ => false
  end.

Definition tensor3_has_shape (s : shape) (x : tensor3) : bool :=
  match s with
  | [Some n; Some t; Some d] => K.has_shape3 n t d x
  | _ => false
  end.

Definition attended_has_shape (s : shape) (a : SoftAttention.attended) : bool :=
  match a with
  | SoftAttention.Summed ctx => tensor2_has_shape s ctx
  | SoftAttention.PerPosition ctx => tensor3_has_shape s ctx
  end.

(** The constants handed to [Attention.attention_step] fit inputs of
    shape [(n, t, d)]. *)
Definition attention_constants_fit (n t d : nat) (constants : list Attention.multiplier)
  : bool :=
  match constants with
  | Attention.OneList _ :: _ => true
  | Attention.Mask m :: _ => K.has_shape3 n t d m
  | [] => false
  end.

(** An [Attention] layer with two attention mechanisms, before
    [build]. *)
Definition attention_example : Attention.t :=
  {| Attention.nb_attention := 2; Attention.Wa := []; Attention.ba := [] |}.


(** A mask that switches no position off. *)
Definition all_true (m : option (list (list bool))) : bool :=
  match m with
  | None => true
  | Some m => forallb (forallb (fun b : bool => b)) m
  end.




(** The score [e[b, i]] that [SoftAttention.attention_step] computes
    for input position [i] of sample [b]:
    [p_state_ = K.dot(x * B_Wa[0], self.Wa)],
    [pctx_ = self.activation(pctx_[:, None, :] + p_state_)],
    [e = K.dot(pctx_, self.wa) + self.ca], read at one entry. *)
Definition attention_score (self : SoftAttention.t) (x : tensor3)
           (constants : SoftAttention.multiplier * tensor2) (b i : nat) : R :=
  let x_i := row3 (SoftAttention.times x (fst constants)) b i in
  let p_state_ := map (fun c => K.dotp x_i (K.col (SoftAttention.Wa self) c))
                      (seq 0 (K.ncols (SoftAttention.Wa self))) in
  let pctx_ := map (Framework.act_fn (SoftAttention.activation self))
                   (K.map2 Rplus (nth b (snd constants) []) p_state_) in
  K.dotp pctx_ (SoftAttention.wa self) + nth i (SoftAttention.ca self) 0.


(* ================================================================= *)
(** * Properties *)

(** ** [ConvAtt.compute_mask] *)

(** C10: [ConvAtt.compute_mask] returns
    [K.flatten(K.repeat(mask[1], nb_embedding))] for every input and
    mask; the result of the [nb_glimpses > 0] branch is overwritten,
    so [nb_glimpses] has no effect on the output mask. *)
Theorem convatt_compute_mask_ignores_nb_glimpses :
  forall (A B : Type) (self : ConvAtt.t) (input : A) (mask : list (option (list (list B)))),
    ConvAtt.compute_mask self input mask =
      match nth_error mask 1 with
      | Some (Some m1) =>
          ret (K.flatten (K.repeat_ m1 (Z.to_nat (ConvAtt.nb_embedding self))))
      | Some None => raise (TypeError "NoneType")
      | None => raise IndexError
      end
    /\ forall g : Z,
        ConvAtt.compute_mask (ConvAtt.set_nb_glimpses self g) input mask =
        ConvAtt.compute_mask self input mask.
Proof.
  intros A B self input mask. unfold ConvAtt.compute_mask. split.
  - destruct (nth_error mask 1) as [[m1|]|]; reflexivity.
  - intros g. destruct (nth_error mask 1) as [[m1|]|]; reflexivity.
Qed.

(** ** Errors raised by the layers *)


Lemma as_int_raises (k : string) (v : pyval) (e : Exn) :
  as_int k v = raise e -> e = TypeError k.
Proof. destruct v; cbn; intros H; inversion H; reflexivity. Qed.

Lemma as_bool_raises (k : string) (v : pyval) (e : Exn) :
  as_bool k v = raise e -> e = TypeError k.
Proof. destruct v; cbn; intros H; inversion H; reflexivity. Qed.





Lemma weight_dim_inv (z : Z) :
  match weight_dim z with
  | inl e => e = ValueError negative_dimension /\ (z < 0)%Z
  | inr d => d = Z.to_nat z /\ (0 <= z)%Z
  end.
Proof.
  unfold weight_dim. destruct (z <? 0)%Z eqn:Hz.
  - apply Z.ltb_lt in Hz. split; [reflexivity|exact Hz].
  - apply Z.ltb_ge in Hz. split; [reflexivity|exact Hz].
Qed.






(** ** [get_config] and the constructor *)

(** C7: for the layer built by
    [MultiHeadAttention(n_heads=2, dmodel=4, use_bias=True,
    bias_initializer='ones')], [get_config] has no entry for
    [bias_initializer], and the constructor called with that
    dictionary builds a layer whose bias initializer is ['zeros'];
    for every [SoftAttention] layer, [get_config] has no entry under
    the constructor's parameter name [att_dim], and the constructor
    called with it raises [TypeError]. *)
Theorem get_config_does_not_round_trip :
  (exists l l',
      MultiHeadAttention.__init__ "multi_head_attention_1" mha_ones_kwargs = ret l
      /\ dict_get (MultiHeadAttention.get_config l) "bias_initializer" = None
      /\ MultiHeadAttention.__init__ "multi_head_attention_1"
           (MultiHeadAttention.get_config l) = ret l'
      /\ MultiHeadAttention.bias_initializer l = PyStr "ones"
      /\ MultiHeadAttention.bias_initializer l' = PyStr "zeros")
  /\ (forall (l : SoftAttention.t) (default_name : string),
        dict_get (SoftAttention.get_config l) "att_dim" = None
        /\ SoftAttention.__init__ default_name (SoftAttention.get_config l)
           = raise (TypeError "att_dim")).
Proof.
  split.
  - eexists. eexists.
    split; [reflexivity|].
    split; [reflexivity|].
    split; [reflexivity|].
    split; reflexivity.
  - intros l default_name. split; reflexivity.
Qed.

(** ** Lists and tensors *)

Lemma length_map2 {A B C : Type} (f : A -> B -> C) (l1 : list A) (l2 : list B) :
  length (K.map2 f l1 l2) = Nat.min (length l1) (length l2).
Proof. unfold K.map2. rewrite length_map, length_combine. reflexivity. Qed.

Lemma Forall_map2 {A B C : Type} (P : C -> Prop) (f : A -> B -> C) (l1 : list A) (l2 : list B) :
  (forall a b, In a l1 -> In b l2 -> P (f a b)) -> Forall P (K.map2 f l1 l2).
Proof.
  intros H. unfold K.map2. apply Forall_forall. intros c Hc.
  apply in_map_iff in Hc. destruct Hc as [[a b] [Hc Hin]]. subst c. simpl.
  apply H; [eapply in_combine_l | eapply in_combine_r]; exact Hin.
Qed.

Lemma has_shape2_spec (t d : nat) (m : tensor2) :
  K.has_shape2 t d m = true <-> length m = t /\ Forall (fun r => length r = d) m.
Proof.
  unfold K.has_shape2. rewrite andb_true_iff, Nat.eqb_eq, forallb_forall, Forall_forall.
  split; intros [H1 H2]; split; auto; intros r Hr; apply Nat.eqb_eq; auto.
Qed.

Lemma has_shape3_spec (n t d : nat) (x : tensor3) :
  K.has_shape3 n t d x = true <->
  length x = n /\ Forall (fun m => length m = t /\ Forall (fun r => length r = d) m) x.
Proof.
  unfold K.has_shape3. rewrite andb_true_iff, Nat.eqb_eq, forallb_forall, Forall_forall.
  split; intros [H1 H2]; split; auto; intros m Hm; apply has_shape2_spec; auto.
Qed.

(** ** Softmax *)

Lemma sum_map_exp_pos (e : tensor1) : e <> [] -> 0 < K.sum (map exp e).
Proof.
  destruct e as [|x e]; [congruence|]. intros _. simpl.
  assert (H : 0 <= K.sum (map exp e)).
  { induction e as [|y e IH]; simpl; [lra|]. pose proof (exp_pos y). lra. }
  pose proof (exp_pos x). lra.
Qed.

Lemma sum_map_div (f : R -> R) (c : R) (l : tensor1) :
  K.sum (map (fun x => f x / c) l) = K.sum (map f l) / c.
Proof.
  induction l as [|x l IH]; simpl.
  - unfold Rdiv. ring.
  - rewrite IH. unfold Rdiv. ring.
Qed.

Lemma softmax1_length (e : tensor1) : length (K.softmax1 e) = length e.
Proof. unfold K.softmax1. apply length_map. Qed.

Lemma softmax1_nonneg (e : tensor1) : Forall (fun a => 0 <= a) (K.softmax1 e).
Proof.
  unfold K.softmax1. apply Forall_forall. intros a Ha.
  apply in_map_iff in Ha. destruct Ha as [x [Ha Hin]]. subst a.
  assert (He : e <> []) by (intros ->; contradiction).
  pose proof (sum_map_exp_pos e He). pose proof (exp_pos x).
  apply Rlt_le. apply Rdiv_lt_0_compat; assumption.
Qed.

Lemma softmax1_sum (e : tensor1) : e <> [] -> K.sum (K.softmax1 e) = 1.
Proof.
  intros He. unfold K.softmax1.
  rewrite (sum_map_div exp (K.sum (map exp e)) e).
  pose proof (sum_map_exp_pos e He). field. lra.
Qed.

Lemma length_matmul (a b : tensor2) : length (K.matmul a b) = length a.
Proof. unfold K.matmul. apply length_map. Qed.

Lemma times_shape (n t d : nat) (x : tensor3) (b : SoftAttention.multiplier) :
  K.has_shape3 n t d x = true ->
  match b with SoftAttention.Scalar _ => True | SoftAttention.Mask m => length m = t end ->
  length (SoftAttention.times x b) = n
  /\ Forall (fun m => length m = t) (SoftAttention.times x b).
Proof.
  intros Hx Hb. apply has_shape3_spec in Hx. destruct Hx as [Hn Hx].
  rewrite Forall_forall in Hx.
  destruct b as [s|m]; simpl.
  - unfold K.map3. rewrite length_map. split; [exact Hn|].
    apply Forall_forall. intros m Hm. apply in_map_iff in Hm.
    destruct Hm as [m' [<- Hm']]. rewrite length_map. apply Hx; exact Hm'.
  - rewrite length_map. split; [exact Hn|].
    apply Forall_forall. intros m' Hm'. apply in_map_iff in Hm'.
    destruct Hm' as [xb [<- Hxb]]. rewrite length_map2.
    destruct (Hx xb Hxb) as [Hl _]. rewrite Hl, Hb. apply Nat.min_id.
Qed.

(** The attention weights returned by [attention_step]. *)
Lemma attention_step_alphas (self : SoftAttention.t) (x : tensor3)
      (constants : SoftAttention.multiplier * tensor2) :
  snd (SoftAttention.attention_step self x constants) =
  K.softmax
    (map (fun row => K.map2 Rplus row (SoftAttention.ca self))
         (K.dot_vec
            (K.map3 (Framework.act_fn (SoftAttention.activation self))
               (K.map2 (fun pc ps => map (fun row => K.map2 Rplus pc row) ps)
                       (snd constants)
                       (K.dot (SoftAttention.times x (fst constants)) (SoftAttention.Wa self))))
            (SoftAttention.wa self))).
Proof.
  unfold SoftAttention.attention_step.
  destruct (SoftAttention.sum_weighted_output self); reflexivity.
Qed.

Lemma attention_step_alphas_shape (self : SoftAttention.t) (x : tensor3)
      (constants : SoftAttention.multiplier * tensor2) (n t d : nat) :
  K.has_shape3 n t d x = true ->
  constants_fit self n t constants = true ->
  K.has_shape2 n t (snd (SoftAttention.attention_step self x constants)) = true.
Proof.
  intros Hx Hc. unfold constants_fit in Hc.
  apply andb_true_iff in Hc. destruct Hc as [Hc Hm].
  apply andb_true_iff in Hc. destruct Hc as [Hp Hca].
  apply Nat.eqb_eq in Hp. apply Nat.eqb_eq in Hca.
  assert (Hm' : match fst constants with
                | SoftAttention.Scalar _ => True
                | SoftAttention.Mask m => length m = t end).
  { destruct (fst constants); [exact I | apply Nat.eqb_eq; exact Hm]. }
  destruct (times_shape n t d x (fst constants) Hx Hm') as [Hlen Hrows].
  rewrite attention_step_alphas. apply has_shape2_spec.
  unfold K.softmax, K.dot_vec, K.map3, K.dot.
  rewrite !length_map, length_map2, length_map, Hp, Hlen. split; [apply Nat.min_id|].
  rewrite !Forall_map.
  apply Forall_map2. intros pc ps Hpc Hps.
  apply in_map_iff in Hps. destruct Hps as [m [<- Hm0]].
  rewrite softmax1_length, length_map2, !length_map, length_matmul, Hca.
  rewrite Forall_forall in Hrows. rewrite (Hrows m Hm0). apply Nat.min_id.
Qed.


Lemma map_map2 {A B C D : Type} (g : C -> D) (f : A -> B -> C) (l1 : list A) (l2 : list B) :
  map g (K.map2 f l1 l2) = K.map2 (fun a b => g (f a b)) l1 l2.
Proof. unfold K.map2. rewrite map_map. reflexivity. Qed.

Lemma map2_swap {A B C : Type} (f : A -> B -> C) (l1 : list A) (l2 : list B) :
  K.map2 f l1 l2 = K.map2 (fun b a => f a b) l2 l1.
Proof.
  unfold K.map2. revert l2. induction l1 as [|a l1 IH]; intros [|b l2]; simpl; try reflexivity.
  rewrite IH. reflexivity.
Qed.

Lemma map2_ext_in {A B C : Type} (f g : A -> B -> C) (l1 : list A) (l2 : list B) :
  (forall a b, In (a, b) (combine l1 l2) -> f a b = g a b) ->
  K.map2 f l1 l2 = K.map2 g l1 l2.
Proof.
  intros H. unfold K.map2. apply map_ext_in. intros [a b] Hin. simpl. apply H. exact Hin.
Qed.

Lemma nth_map_scale (c : nat) (s : R) (row : tensor1) :
  nth c (map (fun v => v * s) row) 0 = nth c row 0 * s.
Proof.
  revert c. induction row as [|v row IH]; intros [|c]; simpl; try ring; apply IH.
Qed.

(** Column sums of the weighted inputs of one sample are the weighted
    sums of the formulation. *)
Lemma weighted_columns (X : tensor2) (alpha : tensor1) :
  length X = length alpha ->
  map (fun c => K.sum (K.col (K.map2 (fun row s => map (fun v => v * s) row) X alpha) c))
      (seq 0 (K.ncols (K.map2 (fun row s => map (fun v => v * s) row) X alpha)))
  = SoftAttention.phi alpha X.
Proof.
  intros Hlen. unfold SoftAttention.phi.
  assert (Hn : K.ncols (K.map2 (fun row s => map (fun v => v * s) row) X alpha) = K.ncols X).
  { destruct X as [|r X], alpha as [|a alpha]; simpl in *; try discriminate; try reflexivity.
    apply length_map. }
  rewrite Hn. apply map_ext. intros c. f_equal. clear Hn.
  unfold K.col. rewrite map_map2. rewrite (map2_swap _ alpha X).
  apply map2_ext_in. intros row s _. rewrite nth_map_scale. ring.
Qed.


(** ** Entries of combined, tiled and sliced lists *)

Lemma nth_error_map2 {A B C : Type} (f : A -> B -> C) (l1 : list A) (l2 : list B) (i : nat) :
  nth_error (K.map2 f l1 l2) i =
  match nth_error l1 i, nth_error l2 i with
  | Some a, Some b => Some (f a b)
  | _, _ => None
  end.
Proof.
  unfold K.map2. revert l2 i.
  induction l1 as [|a l1 IH]; intros [|b l2] [|i]; simpl; try reflexivity.
  - destruct (nth_error l1 i); reflexivity.
  - apply IH.
Qed.

Lemma nth_error_mapi {A B : Type} (f : nat -> A -> B) (l : list A) (i : nat) :
  nth_error (K.mapi f l) i = option_map (f i) (nth_error l i).
Proof.
  unfold K.mapi. rewrite nth_error_map2, nth_error_seq.
  destruct (Nat.ltb_spec i (length l)) as [Hlt|Hge].
  - destruct (nth_error l i); reflexivity.
  - apply nth_error_None in Hge. rewrite Hge. reflexivity.
Qed.

Lemma length_mapi {A B : Type} (f : nat -> A -> B) (l : list A) :
  length (K.mapi f l) = length l.
Proof. unfold K.mapi. rewrite length_map2, length_seq. apply Nat.min_id. Qed.

Lemma nth_error_concat_uniform {A : Type} (n : nat) (ls : list (list A)) (hh b : nat) :
  Forall (fun l => length l = n) ls ->
  (b < n)%nat ->
  nth_error (concat ls) (hh * n + b) =
  match nth_error ls hh with
  | Some l => nth_error l b
  | None => None
  end.
Proof.
  intros Hall Hb. revert hh. induction Hall as [|l ls Hl Hall IH]; intros hh.
  - simpl. rewrite !nth_error_nil. reflexivity.
  - destruct hh as [|hh]; simpl.
    + apply nth_error_app1. lia.
    + rewrite nth_error_app2 by lia.
      replace (n + hh * n + b - length l)%nat with (hh * n + b)%nat by lia.
      apply IH.
Qed.

Lemma length_concat_uniform {A : Type} (n : nat) (ls : list (list A)) :
  Forall (fun l => length l = n) ls -> length (concat ls) = (length ls * n)%nat.
Proof.
  induction 1 as [|l ls Hl Hall IH]; simpl; [reflexivity|].
  rewrite length_app, IH, Hl. reflexivity.
Qed.

Lemma nth_error_tile0 {A : Type} (h : nat) (x : list A) (hh b : nat) :
  (hh < h)%nat -> (b < length x)%nat ->
  nth_error (K.tile0 h x) (hh * length x + b) = nth_error x b.
Proof.
  intros Hh Hb. unfold K.tile0.
  rewrite (nth_error_concat_uniform (length x)); [|apply Forall_forall|exact Hb].
  - rewrite nth_error_repeat by exact Hh. reflexivity.
  - intros l Hl. apply repeat_spec in Hl. subst l. reflexivity.
Qed.

Lemma nth_error_slice {A : Type} (a b : nat) (l : list A) (i : nat) :
  nth_error (K.slice a b l) i = if (i <? b - a)%nat then nth_error l (a + i) else None.
Proof. unfold K.slice. rewrite nth_error_firstn, nth_error_skipn. reflexivity. Qed.

Lemma length_slice {A : Type} (a b : nat) (l : list A) :
  (b <= length l)%nat -> length (K.slice a b l) = (b - a)%nat.
Proof. intros H. unfold K.slice. rewrite length_firstn, length_skipn. lia. Qed.

Lemma nth_error_split_heads (n d : nat) (x : tensor3) (hh b : nat) :
  (hh < n)%nat -> (b < length x)%nat ->
  nth_error (MultiHeadAttention.split_heads n d x) (hh * length x + b) =
  option_map (map (MultiHeadAttention.head_slice d hh)) (nth_error x b).
Proof.
  intros Hh Hb. unfold MultiHeadAttention.split_heads, K.concatenate0.
  rewrite (nth_error_concat_uniform (length x)); [|apply Forall_forall|exact Hb].
  - rewrite nth_error_map, nth_error_seq.
    destruct (Nat.ltb_spec hh n) as [_|Hge]; [|lia]. simpl.
    unfold K.slice2. rewrite nth_error_map. reflexivity.
  - intros l Hl. apply in_map_iff in Hl. destruct Hl as [i [<- _]].
    unfold K.slice2. apply length_map.
Qed.

Lemma length_split_heads (n d : nat) (x : tensor3) :
  length (MultiHeadAttention.split_heads n d x) = (n * length x)%nat.
Proof.
  unfold MultiHeadAttention.split_heads, K.concatenate0.
  rewrite (length_concat_uniform (length x)).
  - rewrite length_map, length_seq. reflexivity.
  - apply Forall_forall. intros l Hl. apply in_map_iff in Hl. destruct Hl as [i [<- _]].
    unfold K.slice2. apply length_map.
Qed.

(** A sample position of the batch of heads: [a = hh * n + b]. *)
Lemma head_sample_index (h n a : nat) :
  (a < h * n)%nat -> exists hh b, (hh < h)%nat /\ (b < n)%nat /\ a = (hh * n + b)%nat.
Proof.
  intros Ha. assert (Hn : (n <> 0)%nat) by (intros ->; lia).
  exists (a / n)%nat, (a mod n)%nat. repeat split.
  - apply Nat.Div0.div_lt_upper_bound. lia.
  - apply Nat.mod_upper_bound. exact Hn.
  - rewrite (Nat.div_mod_eq a n) at 1. lia.
Qed.

(** ** Matrices *)

Lemma map_nth_seq {A : Type} (l : list A) (d : A) :
  map (fun c => nth c l d) (seq 0 (length l)) = l.
Proof.
  induction l as [|x l IH]; simpl; [reflexivity|].
  f_equal. rewrite <- seq_shift, map_map. exact IH.
Qed.

Lemma nth_col (m : tensor2) (c j : nat) :
  nth j (K.col m c) 0 = nth c (nth j m []) 0.
Proof.
  unfold K.col. revert j. induction m as [|r m IH]; intros [|j]; simpl;
    try (destruct c; reflexivity); apply IH.
Qed.

Lemma ncols_shape (t d : nat) (m : tensor2) :
  K.has_shape2 t d m = true -> (0 < t)%nat -> K.ncols m = d.
Proof.
  intros H Ht. apply has_shape2_spec in H. destruct H as [Hl Hr].
  destruct m as [|r m]; simpl in *; [lia|]. inversion Hr; assumption.
Qed.

Lemma row_length (t d : nat) (m : tensor2) (j : nat) :
  K.has_shape2 t d m = true -> (j < t)%nat -> length (nth j m []) = d.
Proof.
  intros H Hj. apply has_shape2_spec in H. destruct H as [Hl Hr].
  rewrite Forall_forall in Hr. apply Hr. apply nth_In. lia.
Qed.

Lemma col_transpose (t d : nat) (m : tensor2) (j : nat) :
  K.has_shape2 t d m = true -> (j < t)%nat ->
  K.col (K.transpose m) j = nth j m [].
Proof.
  intros H Hj. unfold K.transpose.
  rewrite (ncols_shape t d m H) by lia.
  unfold K.col at 1. rewrite map_map.
  rewrite <- (map_nth_seq (nth j m []) 0) at 1.
  rewrite (row_length t d m j H Hj).
  apply map_ext. intros c. apply nth_col.
Qed.

Lemma ncols_transpose (t d : nat) (m : tensor2) :
  K.has_shape2 t d m = true -> (0 < d)%nat -> K.ncols (K.transpose m) = t.
Proof.
  intros H Hd. unfold K.transpose.
  destruct (Nat.eq_dec t 0) as [->|Ht].
  - apply has_shape2_spec in H. destruct H as [Hl _].
    apply length_zero_iff_nil in Hl. subst m. reflexivity.
  - rewrite (ncols_shape t d m H) by lia.
    destruct d as [|d]; [lia|]. simpl. unfold K.col. rewrite length_map.
    apply has_shape2_spec in H. tauto.
Qed.

(** The product with a transposed matrix pairs every row of the left
    matrix with every row of the right one. *)
Lemma matmul_transpose (t d : nat) (q k : tensor2) :
  K.has_shape2 t d k = true -> (0 < d)%nat ->
  K.matmul q (K.transpose k) = map (fun qr => map (fun kr => K.dotp qr kr) k) q.
Proof.
  intros H Hd. unfold K.matmul. rewrite (ncols_transpose t d k H Hd).
  apply map_ext. intros qr.
  assert (Hl : length k = t) by (apply has_shape2_spec in H; tauto).
  replace (map (fun kr => K.dotp qr kr) k)
    with (map (fun kr => K.dotp qr kr) (map (fun c => nth c k []) (seq 0 t)))
    by (rewrite <- Hl, map_nth_seq; reflexivity).
  rewrite map_map. apply map_ext_in. intros c Hc. apply in_seq in Hc.
  rewrite (col_transpose t d k c H) by lia. reflexivity.
Qed.

Lemma scaled_dot_product_nth (self : MultiHeadAttention.t) (Q_ K_ : tensor3)
      (a t d : nat) (Qa Ka : tensor2) :
  nth_error Q_ a = Some Qa -> nth_error K_ a = Some Ka ->
  K.has_shape2 t d Ka = true -> (0 < d)%nat ->
  nth_error (MultiHeadAttention.scaled_dot_product self Q_ K_) a
  = Some (MultiHeadAttention.sample_scores self Qa Ka).
Proof.
  intros HQ HK Hs Hd.
  unfold MultiHeadAttention.scaled_dot_product, K.map3, K.batch_dot, K.permute_dimensions_021.
  rewrite nth_error_map, nth_error_map2, nth_error_map, HQ, HK. simpl. f_equal.
  rewrite (matmul_transpose t d Qa Ka Hs Hd).
  unfold MultiHeadAttention.sample_scores. rewrite map_map.
  apply map_ext. intros qr. rewrite map_map. reflexivity.
Qed.

(** ** Masks *)

Lemma map2_map_l {A A' B C : Type} (f : A' -> B -> C) (g : A -> A') (l1 : list A) (l2 : list B) :
  K.map2 f (map g l1) l2 = K.map2 (fun a b => f (g a) b) l1 l2.
Proof.
  unfold K.map2. revert l2. induction l1 as [|a l1 IH]; intros [|b l2]; simpl; try reflexivity.
  f_equal. apply IH.
Qed.

Lemma map2_map_r {A B B' C : Type} (f : A -> B' -> C) (g : B -> B') (l1 : list A) (l2 : list B) :
  K.map2 f l1 (map g l2) = K.map2 (fun a b => f a (g b)) l1 l2.
Proof.
  unfold K.map2. revert l2. induction l1 as [|a l1 IH]; intros [|b l2]; simpl; try reflexivity.
  f_equal. apply IH.
Qed.

Lemma map2_diag {A B C D E : Type} (f : A -> D -> E) (k : C -> B -> D) (g : A -> C)
      (l : list A) (r : list B) :
  K.map2 f l (K.map2 k (map g l) r) = K.map2 (fun x a => f x (k (g x) a)) l r.
Proof.
  unfold K.map2. revert r. induction l as [|x l IH]; intros [|a r]; simpl; try reflexivity.
  f_equal. apply IH.
Qed.

Lemma map2_same {A C : Type} (f : A -> A -> C) (l : list A) :
  K.map2 f l l = map (fun a => f a a) l.
Proof. unfold K.map2. induction l as [|a l IH]; simpl; [reflexivity|]. f_equal. exact IH. Qed.

Lemma combine_map2 {A B : Type} (l : list A) (r : list B) :
  combine l r = K.map2 pair l r.
Proof.
  unfold K.map2. rewrite <- (map_id (combine l r)) at 1.
  apply map_ext. intros [a b]. reflexivity.
Qed.

Lemma map2_ext {A B C : Type} (f g : A -> B -> C) (l1 : list A) (l2 : list B) :
  (forall a b, f a b = g a b) -> K.map2 f l1 l2 = K.map2 g l1 l2.
Proof. intros H. apply map2_ext_in. intros a b _. apply H. Qed.

(** [K.switch(K.equal(m, 0), K.ones_like(x) * c, x)] on one sample. *)
Lemma sample_switch_self (c : R) (C : list (list bool)) (S : tensor2) :
  K.map2 (K.map2 (fun (b : bool) (p : R * R) => if b then fst p else snd p)) C
         (K.map2 (@combine R R) (map (map (fun _ => c)) S) S)
  = K.map2 (K.map2 (fun (b : bool) s => if b then c else s)) C S.
Proof.
  rewrite map2_map_l, map2_same, map2_map_r.
  apply map2_ext. intros cr r.
  rewrite combine_map2, map2_map_l, map2_same, map2_map_r. reflexivity.
Qed.

(** [K.switch(K.equal(m, 0), K.ones_like(m) * c, x)] on one sample. *)
Lemma sample_switch_mask (c : R) (F S : tensor2) :
  K.map2 (K.map2 (fun (b : bool) (p : R * R) => if b then fst p else snd p))
         (map (map K.is_zero) F)
         (K.map2 (@combine R R) (map (map (fun _ => c)) F) S)
  = K.map2 (K.map2 (fun f s => if K.is_zero f then c else s)) F S.
Proof.
  rewrite map2_map_l, map2_diag.
  apply map2_ext. intros f r.
  rewrite combine_map2, map2_map_l, map2_diag. reflexivity.
Qed.

Lemma sum_abs_nonneg (v : tensor1) : 0 <= K.sum (map Rabs v).
Proof.
  induction v as [|x v IH]; simpl; [lra|]. pose proof (Rabs_pos x). lra.
Qed.

Lemma sign_sum_abs (v : tensor1) :
  K.sign (K.sum (map Rabs v)) = if MultiHeadAttention.all_zero v then 0 else 1.
Proof.
  unfold K.sign. induction v as [|x v IH]; simpl.
  - destruct (Rlt_dec 0 0); [lra|]. reflexivity.
  - pose proof (sum_abs_nonneg v) as Hv. pose proof (Rabs_pos x) as Hx.
    unfold K.is_zero at 1. destruct (Req_dec_T x 0) as [->|Hne]; simpl.
    + rewrite Rabs_R0, Rplus_0_l. exact IH.
    + apply Rabs_pos_lt in Hne.
      destruct (Rlt_dec 0 (Rabs x + K.sum (map Rabs v))); [reflexivity|lra].
Qed.

Lemma is_zero_sign_sum_abs (v : tensor1) :
  K.is_zero (K.sign (K.sum (map Rabs v))) = MultiHeadAttention.all_zero v.
Proof.
  rewrite sign_sum_abs. unfold K.is_zero.
  destruct (MultiHeadAttention.all_zero v).
  - destruct (Req_dec_T 0 0); [reflexivity|lra].
  - destruct (Req_dec_T 1 0); [lra|reflexivity].
Qed.

Lemma nth_error_length_row (t d : nat) (m : tensor2) (i : nat) (r : tensor1) :
  K.has_shape2 t d m = true -> nth_error m i = Some r -> (i < t)%nat /\ length r = d.
Proof.
  intros H Hr. apply has_shape2_spec in H. destruct H as [Hl Hrows].
  split.
  - rewrite <- Hl. apply nth_error_Some. congruence.
  - rewrite Forall_forall in Hrows. apply Hrows. eapply nth_error_In. exact Hr.
Qed.

Lemma key_masking_nth (self : MultiHeadAttention.t) (query key att : tensor3)
      (a : nat) (S : tensor2) (kma : tensor1) :
  nth_error att a = Some S ->
  nth_error (K.tile0 (Z.to_nat (MultiHeadAttention.n_heads self))
                     (map (map K.sign) (K.sum_abs_last key))) a = Some kma ->
  nth_error (MultiHeadAttention.key_masking self query key att) a
  = Some (K.map2 (K.map2 (fun (b : bool) s => if b then MultiHeadAttention.padding_value else s))
                 (map (map K.is_zero) (repeat kma (length (hd [] query)))) S).
Proof.
  intros HS Hk.
  unfold MultiHeadAttention.key_masking, K.switch, K.zip3, K.equal0, K.full_like,
    K.map3, K.expand1_tile.
  rewrite nth_error_map2, nth_error_map, nth_error_map, Hk. simpl.
  rewrite nth_error_map2, nth_error_map, HS. simpl. f_equal.
  apply sample_switch_self.
Qed.

(** Key masking of one sample: the scores of the keys that are
    entirely zero are overwritten. *)
Lemma key_mask_sample (tq tk : nat) (key_b S : tensor2) :
  K.has_shape2 tq tk S = true -> length key_b = tk ->
  K.map2 (K.map2 (fun (b : bool) s => if b then MultiHeadAttention.padding_value else s))
         (map (map K.is_zero)
              (repeat (map K.sign (map (fun row => K.sum (map Rabs row)) key_b)) tq)) S
  = K.mapi (fun i row =>
              K.mapi (fun j s => if MultiHeadAttention.all_zero (nth j key_b [])
                                 then MultiHeadAttention.padding_value else s) row) S.
Proof.
  intros HS Hk. apply nth_error_ext. intros i.
  rewrite nth_error_map2, nth_error_mapi, nth_error_map.
  destruct (nth_error S i) as [row|] eqn:Hrow.
  2:{ destruct (option_map _ _); reflexivity. }
  destruct (nth_error_length_row tq tk S i row HS Hrow) as [Hi Hlen].
  rewrite nth_error_repeat by exact Hi. simpl. f_equal.
  apply nth_error_ext. intros j.
  rewrite nth_error_map2, nth_error_mapi, !nth_error_map.
  destruct (nth_error row j) as [s|] eqn:Hs.
  2:{ destruct (option_map _ _); reflexivity. }
  assert (Hj : (j < length key_b)%nat).
  { rewrite Hk, <- Hlen. apply nth_error_Some. congruence. }
  rewrite (nth_error_nth' key_b [] Hj). simpl.
  rewrite is_zero_sign_sum_abs. reflexivity.
Qed.

Lemma future_masking_nth (self : MultiHeadAttention.t) (att : tensor3) (a : nat) (S : tensor2) :
  nth_error att a = Some S ->
  nth_error (MultiHeadAttention.future_masking self att) a
  = Some (if MultiHeadAttention.mask_future self
          then K.map2 (K.map2 (fun f s => if K.is_zero f
                                          then MultiHeadAttention.padding_value else s))
                      (K.tril (K.ones_like2 (hd [] att))) S
          else S).
Proof.
  intros HS. unfold MultiHeadAttention.future_masking.
  destruct (MultiHeadAttention.mask_future self); [|exact HS].
  assert (Ha : (a < length att)%nat) by (apply nth_error_Some; congruence).
  unfold K.switch, K.zip3, K.equal0, K.full_like, K.map3, K.expand0_tile.
  rewrite nth_error_map2, nth_error_map, nth_error_repeat by exact Ha. simpl.
  rewrite nth_error_map2, nth_error_map, nth_error_repeat, HS by exact Ha. simpl. f_equal.
  apply sample_switch_mask.
Qed.

Lemma is_zero_0 : K.is_zero 0 = true.
Proof. unfold K.is_zero. destruct (Req_dec_T 0 0); [reflexivity|lra]. Qed.

Lemma is_zero_1 : K.is_zero 1 = false.
Proof. unfold K.is_zero. destruct (Req_dec_T 1 0); [lra|reflexivity]. Qed.

(** Future masking of one sample: the scores of the keys behind the
    query position are overwritten. *)
Lemma future_mask_sample (tq tk : nat) (S0 S : tensor2) :
  K.has_shape2 tq tk S0 = true -> K.has_shape2 tq tk S = true ->
  K.map2 (K.map2 (fun f s => if K.is_zero f then MultiHeadAttention.padding_value else s))
         (K.tril (K.ones_like2 S0)) S
  = K.mapi (fun i row =>
              K.mapi (fun j s => if (i <? j)%nat
                                 then MultiHeadAttention.padding_value else s) row) S.
Proof.
  intros H0 HS. apply nth_error_ext. intros i.
  unfold K.tril, K.ones_like2.
  rewrite nth_error_map2, !nth_error_mapi, nth_error_map.
  destruct (nth_error S i) as [row|] eqn:Hrow.
  2:{ destruct (option_map _ _); reflexivity. }
  destruct (nth_error_length_row tq tk S i row HS Hrow) as [Hi Hlen].
  destruct (nth_error S0 i) as [row0|] eqn:Hrow0.
  2:{ apply nth_error_None in Hrow0. apply has_shape2_spec in H0. lia. }
  destruct (nth_error_length_row tq tk S0 i row0 H0 Hrow0) as [_ Hlen0].
  simpl. f_equal. apply nth_error_ext. intros j.
  rewrite nth_error_map2, !nth_error_mapi, nth_error_map.
  destruct (nth_error row j) as [s|] eqn:Hs.
  2:{ destruct (option_map _ _); reflexivity. }
  destruct (nth_error row0 j) as [s0|] eqn:Hs0.
  2:{ apply nth_error_None in Hs0.
      assert (Hjr : (j < length row)%nat) by (apply nth_error_Some; congruence). lia. }
  simpl. f_equal.
  destruct (Nat.leb_spec j i) as [Hle|Hgt], (Nat.ltb_spec i j) as [Hlt|Hge]; try lia.
  - rewrite is_zero_1. reflexivity.
  - rewrite is_zero_0. reflexivity.
Qed.

Lemma mapi_mapi {A B C : Type} (f : nat -> B -> C) (g : nat -> A -> B) (l : list A) :
  K.mapi f (K.mapi g l) = K.mapi (fun i x => f i (g i x)) l.
Proof.
  apply nth_error_ext. intros i. rewrite !nth_error_mapi.
  destruct (nth_error l i); reflexivity.
Qed.

Lemma mapi_ext {A B : Type} (f g : nat -> A -> B) (l : list A) :
  (forall i x, f i x = g i x) -> K.mapi f l = K.mapi g l.
Proof. intros H. unfold K.mapi. apply map2_ext. exact H. Qed.

Lemma has_shape2_mapi2 (t d : nat) (f : nat -> nat -> R -> R) (g : tensor1 -> tensor1)
      (S : tensor2) :
  (forall r, length (g r) = length r) ->
  K.has_shape2 t d S = true ->
  K.has_shape2 t d (K.mapi (fun i row => K.mapi (f i) (g row)) S) = true.
Proof.
  intros Hg H. apply has_shape2_spec in H. destruct H as [Hl Hr].
  apply has_shape2_spec. rewrite length_mapi. split; [exact Hl|].
  unfold K.mapi at 1. apply Forall_map2. intros i row _ Hrow.
  rewrite length_mapi, Hg. rewrite Forall_forall in Hr. apply Hr. exact Hrow.
Qed.

Lemma sample_scores_shape (self : MultiHeadAttention.t) (Qa Ka : tensor2) :
  K.has_shape2 (length Qa) (length Ka) (MultiHeadAttention.sample_scores self Qa Ka) = true.
Proof.
  apply has_shape2_spec. unfold MultiHeadAttention.sample_scores.
  rewrite length_map. split; [reflexivity|].
  rewrite Forall_map. apply Forall_forall. intros q _. apply length_map.
Qed.

Lemma sample_logits_shape (self : MultiHeadAttention.t) (t d : nat) (key_b S : tensor2) :
  K.has_shape2 t d S = true ->
  K.has_shape2 t d (MultiHeadAttention.sample_logits self key_b S) = true.
Proof.
  intros H. unfold MultiHeadAttention.sample_logits.
  apply (has_shape2_mapi2 t d _ (fun r => r)); [reflexivity|exact H].
Qed.

Lemma sample_alphas_shape (self : MultiHeadAttention.t) (noise_a : nat -> nat -> R)
      (t d : nat) (query_b L : tensor2) :
  K.has_shape2 t d L = true ->
  K.has_shape2 t d (MultiHeadAttention.sample_alphas self noise_a query_b L) = true.
Proof.
  intros H. unfold MultiHeadAttention.sample_alphas.
  apply (has_shape2_mapi2 t d _ K.softmax1); [apply softmax1_length|exact H].
Qed.

(** Both maskings of one sample. *)
Lemma logits_sample (self : MultiHeadAttention.t) (tq tk : nat) (key_b S0 S : tensor2) :
  K.has_shape2 tq tk S0 = true -> K.has_shape2 tq tk S = true -> length key_b = tk ->
  (if MultiHeadAttention.mask_future self
   then K.map2 (K.map2 (fun f s => if K.is_zero f
                                   then MultiHeadAttention.padding_value else s))
               (K.tril (K.ones_like2 S0))
               (K.mapi (fun i row =>
                          K.mapi (fun j s => if MultiHeadAttention.all_zero (nth j key_b [])
                                             then MultiHeadAttention.padding_value else s)
                                 row) S)
   else K.mapi (fun i row =>
                  K.mapi (fun j s => if MultiHeadAttention.all_zero (nth j key_b [])
                                     then MultiHeadAttention.padding_value else s) row) S)
  = MultiHeadAttention.sample_logits self key_b S.
Proof.
  intros H0 HS Hk. unfold MultiHeadAttention.sample_logits.
  destruct (MultiHeadAttention.mask_future self).
  - rewrite (future_mask_sample tq tk S0).
    + rewrite mapi_mapi. apply mapi_ext. intros i row.
      rewrite mapi_mapi. apply mapi_ext. intros j s. simpl.
      destruct (MultiHeadAttention.all_zero (nth j key_b [])), (i <? j)%nat; reflexivity.
    + exact H0.
    + apply (has_shape2_mapi2 tq tk _ (fun r => r)); [reflexivity|exact HS].
  - apply mapi_ext. intros i row. apply mapi_ext. intros j s.
    rewrite orb_false_r. reflexivity.
Qed.

Lemma attention_weights_nth (self : MultiHeadAttention.t) (noise : nat -> nat -> nat -> R)
      (query key L : tensor3) (a : nat) (La : tensor2) (qma : tensor1) :
  nth_error L a = Some La ->
  nth_error (K.tile0 (Z.to_nat (MultiHeadAttention.n_heads self))
                     (map (map K.sign) (K.sum_abs_last query))) a = Some qma ->
  nth_error (MultiHeadAttention.attention_weights self noise query key L) a
  = Some (K.map2 (K.map2 Rmult)
                 (if Rlt_dec 0 (MultiHeadAttention.dropout self)
                  then K.mapi (fun i => K.mapi (fun j v => v * noise a i j))
                              (map K.softmax1 La)
                  else map K.softmax1 La)
                 (map (fun v => repeat v (length (hd [] key))) qma)).
Proof.
  intros HL Hq.
  unfold MultiHeadAttention.attention_weights, K.mul3, K.expand_last_tile, K.softmax_3d,
    MultiHeadAttention.dropout_layer.
  rewrite nth_error_map2, nth_error_map, Hq.
  destruct (Rlt_dec 0 (MultiHeadAttention.dropout self)).
  - rewrite nth_error_mapi, nth_error_map, HL. reflexivity.
  - rewrite nth_error_map, HL. reflexivity.
Qed.

(** Softmax, dropout and query masking of one sample. *)
Lemma weights_sample (self : MultiHeadAttention.t) (noise_a : nat -> nat -> R)
      (tq tk : nat) (query_b La : tensor2) :
  K.has_shape2 tq tk La = true -> length query_b = tq ->
  K.map2 (K.map2 Rmult)
         (if Rlt_dec 0 (MultiHeadAttention.dropout self)
          then K.mapi (fun i => K.mapi (fun j v => v * noise_a i j)) (map K.softmax1 La)
          else map K.softmax1 La)
         (map (fun v => repeat v tk)
              (map K.sign (map (fun row => K.sum (map Rabs row)) query_b)))
  = MultiHeadAttention.sample_alphas self noise_a query_b La.
Proof.
  intros HL Hq. unfold MultiHeadAttention.sample_alphas.
  apply nth_error_ext. intros i.
  rewrite nth_error_map2, nth_error_mapi, !nth_error_map.
  assert (HX : nth_error (if Rlt_dec 0 (MultiHeadAttention.dropout self)
                          then K.mapi (fun i => K.mapi (fun j v => v * noise_a i j))
                                      (map K.softmax1 La)
                          else map K.softmax1 La) i
               = option_map (fun row =>
                               if Rlt_dec 0 (MultiHeadAttention.dropout self)
                               then K.mapi (fun j v => v * noise_a i j) (K.softmax1 row)
                               else K.softmax1 row) (nth_error La i)).
  { destruct (Rlt_dec 0 (MultiHeadAttention.dropout self)).
    - rewrite nth_error_mapi, nth_error_map. destruct (nth_error La i); reflexivity.
    - rewrite nth_error_map. reflexivity. }
  rewrite HX. clear HX.
  destruct (nth_error La i) as [row|] eqn:Hrow; [|reflexivity].
  destruct (nth_error_length_row tq tk La i row HL Hrow) as [Hi Hlen].
  assert (Hi' : (i < length query_b)%nat) by lia.
  rewrite (nth_error_nth' query_b [] Hi'). simpl. f_equal.
  rewrite sign_sum_abs.
  apply nth_error_ext. intros j.
  rewrite nth_error_map2, nth_error_mapi.
  assert (HY : nth_error (if Rlt_dec 0 (MultiHeadAttention.dropout self)
                          then K.mapi (fun j v => v * noise_a i j) (K.softmax1 row)
                          else K.softmax1 row) j
               = option_map (fun v => if Rlt_dec 0 (MultiHeadAttention.dropout self)
                                      then v * noise_a i j else v)
                            (nth_error (K.softmax1 row) j)).
  { destruct (Rlt_dec 0 (MultiHeadAttention.dropout self)).
    - rewrite nth_error_mapi. reflexivity.
    - destruct (nth_error (K.softmax1 row) j); reflexivity. }
  rewrite HY. clear HY.
  destruct (nth_error (K.softmax1 row) j) as [v|] eqn:Hv; [|reflexivity].
  assert (Hj : (j < tk)%nat).
  { rewrite <- Hlen, <- (softmax1_length row). apply nth_error_Some. congruence. }
  rewrite nth_error_repeat by exact Hj. reflexivity.
Qed.

(** ** Construction, [build] and the projections *)

Ltac inv_bind H :=
  repeat match type of H with
         | context [match ?x with _ => _ end] =>
             let E := fresh "E" in destruct x eqn:E; try discriminate H
         end.

Lemma init_inv (default_name : string) (kw : dict) (self0 : MultiHeadAttention.t) :
  MultiHeadAttention.__init__ default_name kw = ret self0 ->
  MultiHeadAttention.n_heads self0 <> 0%Z
  /\ (MultiHeadAttention.dmodel self0 mod MultiHeadAttention.n_heads self0 = 0)%Z
  /\ MultiHeadAttention.dk self0
     = (MultiHeadAttention.dmodel self0 / MultiHeadAttention.n_heads self0)%Z
  /\ MultiHeadAttention.dv self0
     = (MultiHeadAttention.dmodel self0 / MultiHeadAttention.n_heads self0)%Z.
Proof.
  intros H. unfold MultiHeadAttention.__init__, bind, assert_, ret, raise in H.
  inv_bind H. inversion H. subst self0. clear H. simpl.
  destruct (z =? 0)%Z eqn:Hz; [discriminate|].
  destruct (z0 mod z =? 0)%Z eqn:Hm; [|discriminate].
  repeat split.
  - apply Z.eqb_neq. exact Hz.
  - apply Z.eqb_eq. exact Hm.
Qed.

Lemma build_inv (self0 self : MultiHeadAttention.t) (ini : MultiHeadAttention.initial)
      (n tq tk dq dk_in : nat) :
  MultiHeadAttention.build self0 ini (input_shapes n tq tk dq dk_in) = ret self ->
  MultiHeadAttention.n_heads self = MultiHeadAttention.n_heads self0
  /\ MultiHeadAttention.dmodel self = MultiHeadAttention.dmodel self0
  /\ MultiHeadAttention.dk self = MultiHeadAttention.dk self0
  /\ MultiHeadAttention.dv self = MultiHeadAttention.dv self0
  /\ MultiHeadAttention.mask_future self = MultiHeadAttention.mask_future self0
  /\ (exists fq fk fv fo gq gk gv go,
        let hk := Z.to_nat (MultiHeadAttention.dk self * MultiHeadAttention.n_heads self) in
        let hv := Z.to_nat (MultiHeadAttention.dv self * MultiHeadAttention.n_heads self) in
        let dm := Z.to_nat (MultiHeadAttention.dmodel self) in
        MultiHeadAttention.linear_q self = Some (add_weight2 fq dq hk)
        /\ MultiHeadAttention.linear_k self = Some (add_weight2 fk dk_in hk)
        /\ MultiHeadAttention.linear_v self = Some (add_weight2 fv dk_in hv)
        /\ MultiHeadAttention.linear_o self = Some (add_weight2 fo hv dm)
        /\ MultiHeadAttention.bias_q self
           = (if MultiHeadAttention.use_bias self then Some (add_weight1 gq hk) else None)
        /\ MultiHeadAttention.bias_k self
           = (if MultiHeadAttention.use_bias self then Some (add_weight1 gk hk) else None)
        /\ MultiHeadAttention.bias_v self
           = (if MultiHeadAttention.use_bias self then Some (add_weight1 gv hv) else None)
        /\ MultiHeadAttention.bias_o self
           = (if MultiHeadAttention.use_bias self then Some (add_weight1 go dm) else None)).
Proof.
  intros H. unfold MultiHeadAttention.build, input_shapes in H.
  cbn [length Nat.eqb assert_ bind ret raise nth dim nth_error] in H.
  unfold weight_dim in H.
  destruct (MultiHeadAttention.dk self0 * MultiHeadAttention.n_heads self0 <? 0)%Z;
    [discriminate H|].
  destruct (MultiHeadAttention.dv self0 * MultiHeadAttention.n_heads self0 <? 0)%Z;
    [discriminate H|].
  destruct (MultiHeadAttention.dmodel self0 <? 0)%Z; [discriminate H|].
  cbn [bind ret raise] in H.
  inversion H. subst self. clear H. simpl.
  repeat split.
  exists (MultiHeadAttention.init_q ini), (MultiHeadAttention.init_k ini),
    (MultiHeadAttention.init_v ini), (MultiHeadAttention.init_o ini),
    (MultiHeadAttention.init_bq ini), (MultiHeadAttention.init_bk ini),
    (MultiHeadAttention.init_bv ini), (MultiHeadAttention.init_bo ini).
  repeat split.
Qed.

Lemma add_weight2_shape (f : nat -> nat -> R) (rows cols : nat) :
  K.has_shape2 rows cols (add_weight2 f rows cols) = true.
Proof.
  apply has_shape2_spec. unfold add_weight2. rewrite length_map, length_seq.
  split; [reflexivity|]. rewrite Forall_map. apply Forall_forall. intros i _.
  rewrite length_map, length_seq. reflexivity.
Qed.

Lemma length_add_weight1 (g : nat -> R) (n : nat) : length (add_weight1 g n) = n.
Proof. unfold add_weight1. rewrite length_map, length_seq. reflexivity. Qed.

(** A projection with a built kernel of [m] columns maps inputs of
    shape [(n, t, d)] to shape [(n, t, m)]. *)
Lemma linear_built (self : MultiHeadAttention.t) (x : tensor3) (n t d m : nat)
      (f : nat -> nat -> R) (g : nat -> R) :
  K.has_shape3 n t d x = true -> (0 < d)%nat ->
  exists P,
    MultiHeadAttention.linear self x (Some (add_weight2 f d m))
      (if MultiHeadAttention.use_bias self then Some (add_weight1 g m) else None) = ret P
    /\ K.has_shape3 n t m P = true.
Proof.
  intros Hx Hd. apply has_shape3_spec in Hx. destruct Hx as [Hn Hx].
  rewrite Forall_forall in Hx.
  pose proof (ncols_shape d m _ (add_weight2_shape f d m) Hd) as Hc.
  unfold MultiHeadAttention.linear.
  destruct (MultiHeadAttention.use_bias self); eexists; (split; [reflexivity|]);
    apply has_shape3_spec; unfold K.map3, K.bias_add, K.dot;
    rewrite !length_map; (split; [exact Hn|]);
    rewrite !Forall_map; apply Forall_forall; intros xm Hxm;
    rewrite !length_map, length_matmul; (split; [apply Hx; exact Hxm|]);
    rewrite !Forall_map; unfold K.matmul; rewrite Forall_map;
    apply Forall_forall; intros row _.
  - rewrite length_map, length_map2, length_map, length_seq, Hc, length_add_weight1.
    apply Nat.min_id.
  - rewrite !length_map, length_seq. exact Hc.
Qed.

Lemma scale_rows_shape (n t d : nat) (x : tensor3) (m : list (list bool)) :
  K.has_shape3 n t d x = true -> mask_fits n t (Some m) = true ->
  K.has_shape3 n t d (K.scale_rows x (K.cast m)) = true.
Proof.
  intros Hx Hm. apply has_shape3_spec in Hx. destruct Hx as [Hn Hx].
  rewrite Forall_forall in Hx.
  simpl in Hm. apply andb_true_iff in Hm. destruct Hm as [Hmn Hmr].
  apply Nat.eqb_eq in Hmn. rewrite forallb_forall in Hmr.
  apply has_shape3_spec. unfold K.scale_rows, K.cast.
  rewrite length_map2, length_map, Hn, Hmn. split; [apply Nat.min_id|].
  apply Forall_map2. intros xm mr Hxm Hmr'.
  apply in_map_iff in Hmr'. destruct Hmr' as [mr0 [<- Hmr0]].
  destruct (Hx xm Hxm) as [Hlen Hrows].
  rewrite length_map2, length_map, Hlen.
  rewrite (proj1 (Nat.eqb_eq _ _) (Hmr mr0 Hmr0)). split; [apply Nat.min_id|].
  apply Forall_map2. intros row s Hrow _. rewrite length_map.
  rewrite Forall_forall in Hrows. apply Hrows. exact Hrow.
Qed.

Lemma all_zero_scale (row : tensor1) (s : R) :
  MultiHeadAttention.all_zero row = true ->
  MultiHeadAttention.all_zero (map (fun v => v * s) row) = true.
Proof.
  unfold MultiHeadAttention.all_zero. rewrite !forallb_forall. intros H v Hv.
  apply in_map_iff in Hv. destruct Hv as [v0 [<- Hv0]].
  specialize (H v0 Hv0). unfold K.is_zero in *.
  destruct (Req_dec_T v0 0) as [->|]; [|discriminate].
  destruct (Req_dec_T (0 * s) 0) as [|Hne]; [reflexivity|]. exfalso. apply Hne. ring.
Qed.

Lemma nth_map2_default {A B C : Type} (f : A -> B -> C) (l1 : list A) (l2 : list B)
      (i : nat) (da : A) (db : B) (dc : C) :
  (i < length l1)%nat -> (i < length l2)%nat ->
  nth i (K.map2 f l1 l2) dc = f (nth i l1 da) (nth i l2 db).
Proof.
  intros H1 H2. apply nth_error_nth. rewrite nth_error_map2.
  rewrite (nth_error_nth' l1 da H1), (nth_error_nth' l2 db H2). reflexivity.
Qed.

(** A feature vector that is entirely zero stays so under the input
    mask. *)
Lemma scale_rows_zero (n t d : nat) (x : tensor3) (m : list (list bool)) (b i : nat) :
  K.has_shape3 n t d x = true -> mask_fits n t (Some m) = true ->
  (b < n)%nat -> (i < t)%nat ->
  MultiHeadAttention.all_zero (row3 x b i) = true ->
  MultiHeadAttention.all_zero (row3 (K.scale_rows x (K.cast m)) b i) = true.
Proof.
  intros Hx Hm Hb Hi Hz. apply has_shape3_spec in Hx. destruct Hx as [Hn Hx].
  rewrite Forall_forall in Hx.
  simpl in Hm. apply andb_true_iff in Hm. destruct Hm as [Hmn Hmr].
  apply Nat.eqb_eq in Hmn. rewrite forallb_forall in Hmr.
  unfold row3, K.scale_rows, K.cast in *.
  rewrite (nth_map2_default _ _ _ b [] [] []) by (rewrite ?length_map; lia).
  assert (Hxb : length (nth b x []) = t) by (apply Hx, nth_In; lia).
  assert (Hmb : length (nth b m []) = t).
  { apply Nat.eqb_eq, Hmr, nth_In. lia. }
  rewrite (nth_map2_default _ _ _ i [] 0 []).
  - apply all_zero_scale. exact Hz.
  - lia.
  - assert (E : nth b (map (map (fun b0 : bool => if b0 then 1 else 0)) m) []
                = map (fun b0 : bool => if b0 then 1 else 0) (nth b m []))
      by (apply (map_nth (map (fun b0 : bool => if b0 then 1 else 0)) m [] b)).
    rewrite E, length_map. lia.
Qed.

(** ** The trace, sample by sample and head by head *)

Lemma shape3_nth (n t d : nat) (x : tensor3) (b : nat) :
  K.has_shape3 n t d x = true -> (b < n)%nat ->
  length x = n
  /\ nth_error x b = Some (nth b x [])
  /\ K.has_shape2 t d (nth b x []) = true.
Proof.
  intros H Hb. apply has_shape3_spec in H. destruct H as [Hn Hx].
  rewrite Forall_forall in Hx. split; [exact Hn|]. split.
  - apply nth_error_nth'. lia.
  - apply has_shape2_spec. apply Hx. apply nth_In. lia.
Qed.

Lemma hd_nth_error {A : Type} (l : list (list A)) (x : list A) :
  nth_error l 0 = Some x -> hd [] l = x.
Proof. destruct l; simpl; congruence. Qed.

Lemma head_slice_shape (t d h hh : nat) (m : tensor2) :
  K.has_shape2 t (h * d) m = true -> (hh < h)%nat ->
  K.has_shape2 t d (map (MultiHeadAttention.head_slice d hh) m) = true.
Proof.
  intros H Hh. apply has_shape2_spec in H. destruct H as [Hl Hr].
  apply has_shape2_spec. rewrite length_map. split; [exact Hl|].
  rewrite Forall_map. revert Hr. apply Forall_impl. intros r Hr.
  unfold MultiHeadAttention.head_slice. rewrite length_slice; [lia|].
  rewrite Hr. nia.
Qed.

Section Traced.

Variables (self : MultiHeadAttention.t) (noise : nat -> nat -> nat -> R)
          (n tq tk dq dk_in : nat) (tr : MultiHeadAttention.trace).
Hypothesis Hok : trace_ok self noise n tq tk dq dk_in tr.

Local Abbreviation h := (Z.to_nat (MultiHeadAttention.n_heads self)).
Local Abbreviation d := (Z.to_nat (MultiHeadAttention.dk self)).
Local Abbreviation qin := (MultiHeadAttention.query_in tr).
Local Abbreviation kin := (MultiHeadAttention.key_in tr).
Local Abbreviation Qh hh b :=
  (map (MultiHeadAttention.head_slice d hh) (nth b (MultiHeadAttention.queries tr) [])).
Local Abbreviation Kh hh b :=
  (map (MultiHeadAttention.head_slice d hh) (nth b (MultiHeadAttention.keys tr) [])).
Local Abbreviation Vh hh b :=
  (map (MultiHeadAttention.head_slice d hh) (nth b (MultiHeadAttention.values tr) [])).
Local Abbreviation key_masked key_b S :=
  (K.mapi (fun i row =>
             K.mapi (fun j s => if MultiHeadAttention.all_zero (nth j key_b [])
                                then MultiHeadAttention.padding_value else s) row) S).

Lemma split_heads_nth (x : tensor3) (t hh b : nat) :
  K.has_shape3 n t (Z.to_nat (MultiHeadAttention.dmodel self)) x = true ->
  (hh < h)%nat -> (b < n)%nat ->
  nth_error (MultiHeadAttention.split_heads h d x) (hh * n + b)
  = Some (map (MultiHeadAttention.head_slice d hh) (nth b x []))
  /\ K.has_shape2 t d (map (MultiHeadAttention.head_slice d hh) (nth b x [])) = true.
Proof.
  intros Hx Hh Hb. destruct (shape3_nth _ _ _ _ _ Hx Hb) as (Hn & Hnth & Hs).
  split.
  - rewrite <- Hn at 1. rewrite nth_error_split_heads by lia. rewrite Hnth. reflexivity.
  - apply (head_slice_shape t d h); [|exact Hh]. rewrite <- (ok_dmodel _ _ _ _ _ _ _ _ Hok).
    exact Hs.
Qed.

Lemma sample_scores_shape_at (hh b : nat) :
  (hh < h)%nat -> (b < n)%nat ->
  K.has_shape2 tq tk (MultiHeadAttention.sample_scores self (Qh hh b) (Kh hh b)) = true.
Proof.
  intros Hh Hb.
  destruct (split_heads_nth _ tq hh b (ok_queries _ _ _ _ _ _ _ _ Hok) Hh Hb) as [_ HQs].
  destruct (split_heads_nth _ tk hh b (ok_keys _ _ _ _ _ _ _ _ Hok) Hh Hb) as [_ HKs].
  apply has_shape2_spec in HQs. apply has_shape2_spec in HKs.
  pose proof (sample_scores_shape self (Qh hh b) (Kh hh b)) as Hs.
  rewrite (proj1 HQs), (proj1 HKs) in Hs. exact Hs.
Qed.

Lemma scores_nth (hh b : nat) :
  (hh < h)%nat -> (b < n)%nat ->
  nth_error (MultiHeadAttention.scores tr) (hh * n + b)
  = Some (MultiHeadAttention.sample_scores self (Qh hh b) (Kh hh b)).
Proof.
  intros Hh Hb.
  destruct (split_heads_nth _ tq hh b (ok_queries _ _ _ _ _ _ _ _ Hok) Hh Hb) as [HQ _].
  destruct (split_heads_nth _ tk hh b (ok_keys _ _ _ _ _ _ _ _ Hok) Hh Hb) as [HK HKs].
  rewrite (ok_scores _ _ _ _ _ _ _ _ Hok), (ok_queries_ _ _ _ _ _ _ _ _ Hok),
    (ok_keys_ _ _ _ _ _ _ _ _ Hok).
  apply (scaled_dot_product_nth self _ _ _ tk d); try assumption.
  exact (ok_dk _ _ _ _ _ _ _ _ Hok).
Qed.

Lemma tiled_mask_nth (x : tensor3) (t dx hh b : nat) :
  K.has_shape3 n t dx x = true -> (hh < h)%nat -> (b < n)%nat ->
  nth_error (K.tile0 h (map (map K.sign) (K.sum_abs_last x))) (hh * n + b)
  = Some (map K.sign (map (fun row => K.sum (map Rabs row)) (nth b x []))).
Proof.
  intros Hx Hh Hb. destruct (shape3_nth _ _ _ _ _ Hx Hb) as (Hn & Hnth & _).
  assert (Hl : length (map (map K.sign) (K.sum_abs_last x)) = n).
  { unfold K.sum_abs_last. rewrite !length_map. exact Hn. }
  rewrite <- Hl at 1. rewrite nth_error_tile0 by lia.
  unfold K.sum_abs_last. rewrite !nth_error_map, Hnth. reflexivity.
Qed.

Lemma hd_length (x : tensor3) (t dx : nat) :
  K.has_shape3 n t dx x = true -> (0 < n)%nat -> length (hd [] x) = t.
Proof.
  intros Hx Hn. destruct (shape3_nth _ _ _ _ _ Hx Hn) as (_ & Hnth & Hs).
  rewrite (hd_nth_error _ _ Hnth). apply has_shape2_spec in Hs. tauto.
Qed.

Lemma key_masked_nth (hh b : nat) :
  (hh < h)%nat -> (b < n)%nat ->
  nth_error (MultiHeadAttention.key_masking self qin kin (MultiHeadAttention.scores tr))
            (hh * n + b)
  = Some (key_masked (nth b kin [])
                     (MultiHeadAttention.sample_scores self (Qh hh b) (Kh hh b))).
Proof.
  intros Hh Hb.
  rewrite (key_masking_nth self qin kin _ _ _ _ (scores_nth hh b Hh Hb)
             (tiled_mask_nth kin tk dk_in hh b (ok_key _ _ _ _ _ _ _ _ Hok) Hh Hb)).
  f_equal.
  rewrite (hd_length qin tq dq (ok_query _ _ _ _ _ _ _ _ Hok)) by lia.
  apply (key_mask_sample tq tk).
  - apply sample_scores_shape_at; assumption.
  - destruct (shape3_nth _ _ _ _ _ (ok_key _ _ _ _ _ _ _ _ Hok) Hb) as (_ & _ & Hs).
    apply has_shape2_spec in Hs. tauto.
Qed.

Lemma logits_nth (hh b : nat) :
  (hh < h)%nat -> (b < n)%nat ->
  nth_error (MultiHeadAttention.logits tr) (hh * n + b)
  = Some (MultiHeadAttention.sample_logits
            self (nth b kin [])
            (MultiHeadAttention.sample_scores self (Qh hh b) (Kh hh b))).
Proof.
  intros Hh Hb. rewrite (ok_logits _ _ _ _ _ _ _ _ Hok).
  rewrite (future_masking_nth self _ _ _ (key_masked_nth hh b Hh Hb)). f_equal.
  assert (H0 : (0 < h)%nat) by lia. assert (Hn0 : (0 < n)%nat) by lia.
  pose proof (key_masked_nth 0 0 H0 Hn0) as Hhd. simpl in Hhd.
  rewrite (hd_nth_error _ _ Hhd).
  apply (logits_sample self tq tk).
  - apply (has_shape2_mapi2 tq tk _ (fun r => r)); [reflexivity|].
    apply sample_scores_shape_at; assumption.
  - apply sample_scores_shape_at; assumption.
  - destruct (shape3_nth _ _ _ _ _ (ok_key _ _ _ _ _ _ _ _ Hok) Hb) as (_ & _ & Hs).
    apply has_shape2_spec in Hs. tauto.
Qed.

Lemma alphas_nth (hh b : nat) :
  (hh < h)%nat -> (b < n)%nat ->
  nth_error (MultiHeadAttention.alphas tr) (hh * n + b)
  = Some (MultiHeadAttention.sample_alphas
            self (noise (hh * n + b)%nat) (nth b qin [])
            (MultiHeadAttention.sample_logits
               self (nth b kin [])
               (MultiHeadAttention.sample_scores self (Qh hh b) (Kh hh b)))).
Proof.
  intros Hh Hb. rewrite (ok_alphas _ _ _ _ _ _ _ _ Hok).
  rewrite (attention_weights_nth self noise qin kin _ _ _ _ (logits_nth hh b Hh Hb)
             (tiled_mask_nth qin tq dq hh b (ok_query _ _ _ _ _ _ _ _ Hok) Hh Hb)).
  f_equal.
  rewrite (hd_length kin tk dk_in (ok_key _ _ _ _ _ _ _ _ Hok)) by lia.
  apply (weights_sample self _ tq tk).
  - apply sample_logits_shape. apply sample_scores_shape_at; assumption.
  - destruct (shape3_nth _ _ _ _ _ (ok_query _ _ _ _ _ _ _ _ Hok) Hb) as (_ & _ & Hs).
    apply has_shape2_spec in Hs. tauto.
Qed.

Lemma heads_nth (hh b : nat) :
  (hh < h)%nat -> (b < n)%nat ->
  nth_error (MultiHeadAttention.heads tr) (hh * n + b)
  = Some (MultiHeadAttention.head_output
            self noise qin kin (MultiHeadAttention.queries tr)
            (MultiHeadAttention.keys tr) (MultiHeadAttention.values tr) hh b).
Proof.
  intros Hh Hb. rewrite (ok_attended _ _ _ _ _ _ _ _ Hok).
  unfold K.batch_dot. rewrite nth_error_map2, (alphas_nth hh b Hh Hb).
  rewrite (ok_values_ _ _ _ _ _ _ _ _ Hok), (ok_dv _ _ _ _ _ _ _ _ Hok).
  destruct (split_heads_nth _ tk hh b (ok_values _ _ _ _ _ _ _ _ Hok) Hh Hb) as [HV _].
  rewrite HV. unfold MultiHeadAttention.head_output, MultiHeadAttention.head_attention.
  rewrite (ok_dv _ _ _ _ _ _ _ _ Hok).
  destruct (shape3_nth _ _ _ _ _ (ok_query _ _ _ _ _ _ _ _ Hok) Hb) as (Hn & _ & _).
  rewrite Hn. reflexivity.
Qed.

End Traced.

(** ** Entries of the per-sample tensors *)

Lemma nth_map_lt {A B : Type} (f : A -> B) (l : list A) (i : nat) (da : A) (db : B) :
  (i < length l)%nat -> nth i (map f l) db = f (nth i l da).
Proof.
  intros Hi. apply nth_error_nth. rewrite nth_error_map, (nth_error_nth' l da Hi).
  reflexivity.
Qed.

Lemma get3_sample {A : Type} (x : list (list (list A))) (a i j : nat)
      (m : list (list A)) :
  nth_error x a = Some m ->
  get3 x a i j = match nth_error m i with Some r => nth_error r j | None => None end.
Proof. intros H. unfold get3. rewrite H. reflexivity. Qed.

Lemma sample_scores_get (self : MultiHeadAttention.t) (Qa Ka : tensor2) (i j : nat) :
  (i < length Qa)%nat -> (j < length Ka)%nat ->
  match nth_error (MultiHeadAttention.sample_scores self Qa Ka) i with
  | Some r => nth_error r j
  | None => None
  end = Some (K.dotp (nth i Qa []) (nth j Ka [])
              / sqrt (IZR (MultiHeadAttention.dk self))).
Proof.
  intros Hi Hj. unfold MultiHeadAttention.sample_scores.
  rewrite nth_error_map, (nth_error_nth' Qa [] Hi). simpl.
  rewrite nth_error_map, (nth_error_nth' Ka [] Hj). reflexivity.
Qed.

Lemma sample_logits_get (self : MultiHeadAttention.t) (key_b S : tensor2) (i j : nat) (s : R) :
  match nth_error S i with Some r => nth_error r j | None => None end = Some s ->
  match nth_error (MultiHeadAttention.sample_logits self key_b S) i with
  | Some r => nth_error r j
  | None => None
  end = Some (if MultiHeadAttention.all_zero (nth j key_b [])
                 || (MultiHeadAttention.mask_future self && (i <? j)%nat)
              then MultiHeadAttention.padding_value else s).
Proof.
  intros H. unfold MultiHeadAttention.sample_logits. rewrite nth_error_mapi.
  destruct (nth_error S i) as [r|]; [|discriminate]. simpl.
  rewrite nth_error_mapi, H. reflexivity.
Qed.

Lemma dotp_zero_l (u v : tensor1) : Forall (fun a => a = 0) u -> K.dotp u v = 0.
Proof.
  intros Hu. unfold K.dotp, K.map2. revert v.
  induction Hu as [|a u Ha Hu IH]; intros [|b v]; simpl; try reflexivity.
  rewrite IH, Ha. ring.
Qed.

Lemma sample_alphas_zero_row (self : MultiHeadAttention.t) (noise_a : nat -> nat -> R)
      (t dd : nat) (query_b L : tensor2) (i : nat) :
  K.has_shape2 t dd L = true -> (i < t)%nat ->
  MultiHeadAttention.all_zero (nth i query_b []) = true ->
  exists arow,
    nth_error (MultiHeadAttention.sample_alphas self noise_a query_b L) i = Some arow
    /\ length arow = dd
    /\ Forall (fun a => a = 0) arow.
Proof.
  intros HL Hi Hz. unfold MultiHeadAttention.sample_alphas.
  apply has_shape2_spec in HL. destruct HL as [Hlen Hrows].
  assert (Hi' : (i < length L)%nat) by lia.
  rewrite nth_error_mapi, (nth_error_nth' L [] Hi'). simpl.
  eexists. split; [reflexivity|]. split.
  - rewrite length_mapi, softmax1_length. rewrite Forall_forall in Hrows.
    apply Hrows. apply nth_In. exact Hi'.
  - rewrite Hz. unfold K.mapi. apply Forall_map2. intros j a _ _. ring.
Qed.

Lemma matmul_zero_row (A V : tensor2) (i : nat) (arow : tensor1) :
  nth_error A i = Some arow -> Forall (fun a => a = 0) arow ->
  exists vrow,
    nth_error (K.matmul A V) i = Some vrow
    /\ length vrow = K.ncols V
    /\ Forall (fun v => v = 0) vrow.
Proof.
  intros HA Hz. unfold K.matmul. rewrite nth_error_map, HA. simpl.
  eexists. split; [reflexivity|]. split.
  - rewrite length_map, length_seq. reflexivity.
  - rewrite Forall_map. apply Forall_forall. intros c _. apply dotp_zero_l. exact Hz.
Qed.

(** ** Restoring the shape *)

Lemma row3_map2_app (x y : tensor3) (b r : nat) :
  (b < length x)%nat -> (b < length y)%nat ->
  (r < length (nth b x []))%nat -> (r < length (nth b y []))%nat ->
  row3 (K.map2 (K.map2 (@app R)) x y) b r = row3 x b r ++ row3 y b r.
Proof.
  intros Hx Hy Hrx Hry. unfold row3.
  rewrite (nth_map2_default _ x y b [] [] []) by assumption.
  rewrite (nth_map2_default _ _ _ r [] [] []) by assumption.
  reflexivity.
Qed.

Lemma rows_by_index (n t : nat) (x : tensor3) :
  length x = n -> Forall (fun m => length m = t) x ->
  x = map (fun b => map (fun r => row3 x b r) (seq 0 t)) (seq 0 n).
Proof.
  intros Hn Hx. rewrite <- (map_nth_seq x []) at 1. rewrite Hn.
  apply map_ext_in. intros b Hb. apply in_seq in Hb.
  rewrite <- (map_nth_seq (nth b x []) []) at 1.
  rewrite Forall_forall in Hx. rewrite (Hx (nth b x [])) by (apply nth_In; lia).
  reflexivity.
Qed.

(** Concatenating along the features lays the rows of the tensors
    side by side. *)
Lemma fold_left_side_by_side (n t : nat) (Ts : list tensor3) (acc : tensor3) :
  length acc = n -> Forall (fun m => length m = t) acc ->
  Forall (fun T => length T = n /\ Forall (fun m => length m = t) T) Ts ->
  fold_left (K.map2 (K.map2 (@app R))) Ts acc
  = map (fun b => map (fun r => row3 acc b r ++ concat (map (fun T => row3 T b r) Ts))
                      (seq 0 t))
        (seq 0 n).
Proof.
  intros Hn Hacc HTs. revert acc Hn Hacc.
  induction HTs as [|T Ts [HTn HT] HTs IH]; intros acc Hn Hacc.
  - simpl. rewrite (rows_by_index n t acc Hn Hacc) at 1.
    apply map_ext. intros b. apply map_ext. intros r. rewrite app_nil_r. reflexivity.
  - simpl. rewrite IH.
    + apply map_ext_in. intros b Hb. apply in_seq in Hb.
      apply map_ext_in. intros r Hr. apply in_seq in Hr.
      rewrite Forall_forall in Hacc, HT.
      rewrite row3_map2_app.
      * rewrite <- app_assoc. reflexivity.
      * lia.
      * lia.
      * rewrite (Hacc (nth b acc [])) by (apply nth_In; lia). lia.
      * rewrite (HT (nth b T [])) by (apply nth_In; lia). lia.
    + rewrite length_map2, Hn, HTn. apply Nat.min_id.
    + apply Forall_map2. intros a c Ha Hc. rewrite length_map2.
      rewrite Forall_forall in Hacc, HT. rewrite (Hacc a Ha), (HT c Hc). apply Nat.min_id.
Qed.

Lemma matmul_row_length (A V : tensor2) (r : nat) :
  (r < length A)%nat -> length (nth r (K.matmul A V) []) = K.ncols V.
Proof.
  intros Hr. unfold K.matmul. rewrite (nth_map_lt _ A r [] []) by exact Hr.
  rewrite length_map, length_seq. reflexivity.
Qed.

Section Restored.

Variables (self : MultiHeadAttention.t) (noise : nat -> nat -> nat -> R)
          (n tq tk dq dk_in : nat) (tr : MultiHeadAttention.trace).
Hypothesis Hok : trace_ok self noise n tq tk dq dk_in tr.

Local Abbreviation h := (Z.to_nat (MultiHeadAttention.n_heads self)).
Local Abbreviation d := (Z.to_nat (MultiHeadAttention.dk self)).
Local Abbreviation HA hh b :=
  (MultiHeadAttention.head_output
     self noise (MultiHeadAttention.query_in tr) (MultiHeadAttention.key_in tr)
     (MultiHeadAttention.queries tr) (MultiHeadAttention.keys tr)
     (MultiHeadAttention.values tr) hh b).

Lemma heads_length : length (MultiHeadAttention.heads tr) = (h * n)%nat.
Proof.
  apply Nat.le_antisymm.
  - rewrite (ok_attended _ _ _ _ _ _ _ _ Hok). unfold K.batch_dot.
    rewrite length_map2, (ok_values_ _ _ _ _ _ _ _ _ Hok), length_split_heads.
    destruct (proj1 (has_shape3_spec _ _ _ _) (ok_values _ _ _ _ _ _ _ _ Hok)) as [Hn _].
    rewrite Hn. apply Nat.le_min_r.
  - destruct (Nat.eq_dec (h * n) 0) as [E|E]; [lia|].
    destruct (head_sample_index h n (h * n - 1)) as (hh & b & Hh & Hb & Ea); [lia|].
    pose proof (heads_nth _ _ _ _ _ _ _ _ Hok hh b Hh Hb) as HH.
    rewrite <- Ea in HH.
    assert (Hlt : (h * n - 1 < length (MultiHeadAttention.heads tr))%nat)
      by (apply nth_error_Some; congruence).
    lia.
Qed.

Lemma heads_slice (hh : nat) :
  (hh < h)%nat ->
  K.slice (hh * n) ((hh + 1) * n) (MultiHeadAttention.heads tr)
  = map (fun b => HA hh b) (seq 0 n).
Proof.
  intros Hh. apply nth_error_ext. intros b.
  rewrite nth_error_slice, nth_error_map, nth_error_seq.
  replace ((hh + 1) * n - hh * n)%nat with n by lia.
  destruct (Nat.ltb_spec b n) as [Hb|Hb]; [|reflexivity].
  simpl. apply (heads_nth _ _ _ _ _ _ _ _ Hok); assumption.
Qed.

Lemma head_attention_length (hh b : nat) :
  (hh < h)%nat -> (b < n)%nat -> length (HA hh b) = tq.
Proof.
  intros Hh Hb. unfold MultiHeadAttention.head_output, MultiHeadAttention.head_attention.
  rewrite length_matmul.
  destruct (shape3_nth _ _ _ _ _ (ok_query _ _ _ _ _ _ _ _ Hok) Hb) as (Hn & _ & _).
  rewrite Hn.
  pose proof (sample_alphas_shape
                self (noise (hh * n + b)%nat) tq tk
                (nth b (MultiHeadAttention.query_in tr) [])
                _ (sample_logits_shape
                     self tq tk (nth b (MultiHeadAttention.key_in tr) []) _
                     (sample_scores_shape_at _ _ _ _ _ _ _ _ Hok hh b Hh Hb))) as Hs.
  apply has_shape2_spec in Hs. tauto.
Qed.

Lemma head_attention_row_length (hh b r : nat) :
  (hh < h)%nat -> (b < n)%nat -> (r < tq)%nat -> (0 < tk)%nat ->
  length (nth r (HA hh b) []) = d.
Proof.
  intros Hh Hb Hr Htk.
  pose proof (head_attention_length hh b Hh Hb) as Hlen.
  unfold MultiHeadAttention.head_output, MultiHeadAttention.head_attention in *.
  rewrite length_matmul in Hlen.
  rewrite matmul_row_length by lia.
  destruct (split_heads_nth _ _ _ _ _ _ _ _ Hok _ tk hh b
              (ok_values _ _ _ _ _ _ _ _ Hok) Hh Hb) as [_ Hs].
  rewrite (ok_dv _ _ _ _ _ _ _ _ Hok).
  apply (ncols_shape tk); assumption.
Qed.

(** The restored tensor lays the attended vectors of the heads side
    by side, sample by sample and position by position. *)
Lemma restored_side_by_side :
  MultiHeadAttention.restored tr
  = MultiHeadAttention.heads_side_by_side
      self noise (MultiHeadAttention.query_in tr) (MultiHeadAttention.key_in tr)
      (MultiHeadAttention.queries tr) (MultiHeadAttention.keys tr)
      (MultiHeadAttention.values tr).
Proof.
  rewrite (ok_restored _ _ _ _ _ _ _ _ Hok).
  unfold MultiHeadAttention.restore_shape, MultiHeadAttention.heads_side_by_side.
  pose proof (ok_heads _ _ _ _ _ _ _ _ Hok) as Hh0.
  rewrite heads_length, Nat.mul_comm, Nat.div_mul by lia.
  destruct (proj1 (has_shape3_spec _ _ _ _) (ok_query _ _ _ _ _ _ _ _ Hok)) as [Hn Hq].
  rewrite Hn. rewrite Forall_forall in Hq.
  rewrite (map_ext_in _ (fun hh => map (fun b => HA hh b) (seq 0 n))).
  2:{ intros hh Hhh. apply in_seq in Hhh. apply heads_slice. lia. }
  destruct h as [|h'] eqn:Eh; [lia|].
  cbn [seq map K.concatenate2].
  rewrite (fold_left_side_by_side n tq).
  - apply map_ext_in. intros b Hb. apply in_seq in Hb.
    assert (Hbl : (b < length (MultiHeadAttention.query_in tr))%nat) by lia.
    rewrite (proj1 (Hq _ (nth_In _ [] Hbl))).
    apply map_ext_in. intros r Hr. apply in_seq in Hr.
    cbn [concat]. f_equal.
    + unfold row3. rewrite (nth_map_lt _ _ b 0%nat []) by (rewrite length_seq; lia).
      rewrite seq_nth by lia. reflexivity.
    + f_equal. rewrite map_map. apply map_ext. intros hh.
      unfold row3. rewrite (nth_map_lt _ _ b 0%nat []) by (rewrite length_seq; lia).
      rewrite seq_nth by lia. reflexivity.
  - rewrite length_map, length_seq. reflexivity.
  - rewrite Forall_map. apply Forall_forall. intros b Hb. apply in_seq in Hb.
    apply head_attention_length; lia.
  - rewrite Forall_map. apply Forall_forall. intros hh Hhh. apply in_seq in Hhh.
    rewrite length_map, length_seq. split; [reflexivity|].
    rewrite Forall_map. apply Forall_forall. intros b Hb. apply in_seq in Hb.
    apply head_attention_length; lia.
Qed.

Lemma restored_shape :
  (0 < tk)%nat ->
  K.has_shape3 n tq (Z.to_nat (MultiHeadAttention.dmodel self))
               (MultiHeadAttention.restored tr) = true.
Proof.
  intros Htk. rewrite restored_side_by_side.
  unfold MultiHeadAttention.heads_side_by_side.
  destruct (proj1 (has_shape3_spec _ _ _ _) (ok_query _ _ _ _ _ _ _ _ Hok)) as [Hn Hq].
  rewrite Forall_forall in Hq.
  apply has_shape3_spec. rewrite length_map, length_seq. split; [exact Hn|].
  rewrite Forall_map. apply Forall_forall. intros b Hb. apply in_seq in Hb.
  assert (Hbl : (b < length (MultiHeadAttention.query_in tr))%nat) by lia.
  rewrite Hn in Hb.
  rewrite (proj1 (Hq _ (nth_In _ [] Hbl))).
  rewrite length_map, length_seq. split; [reflexivity|].
  rewrite Forall_map. apply Forall_forall. intros r Hr. apply in_seq in Hr.
  rewrite (length_concat_uniform d).
  - rewrite length_map, length_seq. exact (eq_sym (ok_dmodel _ _ _ _ _ _ _ _ Hok)).
  - rewrite Forall_map. apply Forall_forall. intros hh Hhh. apply in_seq in Hhh.
    apply head_attention_row_length; lia.
Qed.

End Restored.

(** ** A call of a built layer *)

Section Built.

Variables (default_name : string) (kw : dict) (self0 self : MultiHeadAttention.t)
          (ini : MultiHeadAttention.initial) (n tq tk dq dk_in : nat)
          (query key : tensor3) (mask : MultiHeadAttention.masks)
          (noise : nat -> nat -> nat -> R).

(** The layer is constructed with at least one head and a positive
    model size, and built for the shapes of its inputs. *)
Hypothesis Hinit : MultiHeadAttention.__init__ default_name kw = ret self0.
Hypothesis Hheads : (0 < MultiHeadAttention.n_heads self0)%Z.
Hypothesis Hdmodel : (0 < MultiHeadAttention.dmodel self0)%Z.
Hypothesis Hbuild :
  MultiHeadAttention.build self0 ini (input_shapes n tq tk dq dk_in) = ret self.
Hypothesis Hdq : (0 < dq)%nat.
Hypothesis Hdk : (0 < dk_in)%nat.
Hypothesis Hquery : K.has_shape3 n tq dq query = true.
Hypothesis Hkey : K.has_shape3 n tk dk_in key = true.
Hypothesis Hmask : masks_fit n tq tk mask = true.

Lemma call_trace_ok :
  exists tr,
    MultiHeadAttention.call_trace self noise (query, key) mask = ret tr
    /\ trace_ok self noise n tq tk dq dk_in tr
    /\ (forall b i, (b < n)%nat -> (i < tq)%nat ->
                    MultiHeadAttention.all_zero (row3 query b i) = true ->
                    MultiHeadAttention.all_zero
                      (row3 (MultiHeadAttention.query_in tr) b i) = true)
    /\ (forall b j, (b < n)%nat -> (j < tk)%nat ->
                    MultiHeadAttention.all_zero (row3 key b j) = true ->
                    MultiHeadAttention.all_zero
                      (row3 (MultiHeadAttention.key_in tr) b j) = true).
Proof.
  destruct (init_inv _ _ _ Hinit) as (Hnz & Hmod & Hdk0 & Hdv0).
  destruct (build_inv _ _ _ _ _ _ _ _ Hbuild)
    as (En & Edm & Edk & Edv & _ & fq & fk & fv & fo & gq & gk & gv & go & HW).
  cbv zeta in HW.
  destruct HW as (Hlq & Hlk & Hlv & Hlo & Hbq & Hbk & Hbv & Hbo).
  rewrite <- En, <- Edm, <- Edk, <- Edv in *.
  assert (Hmul : (MultiHeadAttention.dk self * MultiHeadAttention.n_heads self
                  = MultiHeadAttention.dmodel self)%Z).
  { rewrite Hdk0.
    pose proof (Z.div_mod (MultiHeadAttention.dmodel self)
                          (MultiHeadAttention.n_heads self) Hnz). lia. }
  assert (Hdkpos : (0 < MultiHeadAttention.dk self)%Z) by nia.
  assert (Hdveq : MultiHeadAttention.dv self = MultiHeadAttention.dk self) by congruence.
  rewrite Hdveq, Hmul in *.
  set (qin := match mask with
              | Some (Some m0, _) => K.scale_rows query (K.cast m0)
              | _ => query
              end).
  set (kin := match mask with
              | Some (_, Some m1) => K.scale_rows key (K.cast m1)
              | _ => key
              end).
  assert (Hqin : K.has_shape3 n tq dq qin = true).
  { unfold qin. destruct mask as [[[m0|] m1]|]; try exact Hquery.
    apply scale_rows_shape; [exact Hquery|].
    simpl in Hmask. apply andb_true_iff in Hmask. apply Hmask. }
  assert (Hkin : K.has_shape3 n tk dk_in kin = true).
  { unfold kin. destruct mask as [[m0 [m1|]]|]; try exact Hkey.
    apply scale_rows_shape; [exact Hkey|].
    simpl in Hmask. apply andb_true_iff in Hmask. apply Hmask. }
  destruct (linear_built self qin n tq dq (Z.to_nat (MultiHeadAttention.dmodel self))
                         fq gq Hqin Hdq) as [Q [HQ HQs]].
  destruct (linear_built self kin n tk dk_in (Z.to_nat (MultiHeadAttention.dmodel self))
                         fk gk Hkin Hdk) as [Kp [HK HKs]].
  destruct (linear_built self kin n tk dk_in (Z.to_nat (MultiHeadAttention.dmodel self))
                         fv gv Hkin Hdk) as [V [HV HVs]].
  assert (HO : forall x, exists O,
               MultiHeadAttention.linear self x (MultiHeadAttention.linear_o self)
                                         (MultiHeadAttention.bias_o self) = ret O).
  { intros x. rewrite Hlo, Hbo. unfold MultiHeadAttention.linear.
    destruct (MultiHeadAttention.use_bias self); eexists; reflexivity. }
  unfold MultiHeadAttention.call_trace. cbn [fst snd]. fold qin kin.
  rewrite Hlq, Hbq, Hlk, Hbk, Hlv, Hbv, HQ, HK, HV. cbn [bind ret].
  match goal with
  | |- context [MultiHeadAttention.linear self ?x _ _] => destruct (HO x) as [O HOx]
  end.
  rewrite HOx.
  eexists. split; [reflexivity|].
  split; [|split].
  - constructor; cbn; try reflexivity; try assumption; try lia.
  - intros b i Hb Hi Hz. cbn. unfold qin.
    destruct mask as [[[m0|] m1]|]; try exact Hz.
    apply (scale_rows_zero n tq dq); try assumption.
    simpl in Hmask. apply andb_true_iff in Hmask. apply Hmask.
  - intros b j Hb Hj Hz. cbn. unfold kin.
    destruct mask as [[m0 [m1|]]|]; try exact Hz.
    apply (scale_rows_zero n tk dk_in); try assumption.
    simpl in Hmask. apply andb_true_iff in Hmask. apply Hmask.
Qed.


Local Abbreviation h := (Z.to_nat (MultiHeadAttention.n_heads self)).
Local Abbreviation d := (Z.to_nat (MultiHeadAttention.dk self)).

(** C1: in [MultiHeadAttention.call], the attention scores are the
    batched matrix product of the projected queries with the
    transposed projected keys, divided by [sqrt(dk)], where
    [dk = dmodel / n_heads]: for head [hh], sample [b], query
    position [i] and key position [j] the score is the dot product
    of the head's slices of the projected query and key vectors,
    divided by [sqrt(dk)]. *)
Theorem mha_scores_are_scaled_dot_products :
  exists tr,
    MultiHeadAttention.call_trace self noise (query, key) mask = ret tr
    /\ MultiHeadAttention.dk self
       = (MultiHeadAttention.dmodel self / MultiHeadAttention.n_heads self)%Z
    /\ MultiHeadAttention.scores tr
       = K.map3 (fun v => v / sqrt (IZR (MultiHeadAttention.dk self)))
                (K.batch_dot (MultiHeadAttention.queries_ tr)
                             (K.permute_dimensions_021 (MultiHeadAttention.keys_ tr)))
    /\ forall hh b i j,
        (hh < h)%nat -> (b < n)%nat -> (i < tq)%nat -> (j < tk)%nat ->
        get3 (MultiHeadAttention.scores tr) (hh * n + b) i j
        = Some (K.dotp (MultiHeadAttention.head_slice
                          d hh (row3 (MultiHeadAttention.queries tr) b i))
                       (MultiHeadAttention.head_slice
                          d hh (row3 (MultiHeadAttention.keys tr) b j))
                / sqrt (IZR (MultiHeadAttention.dk self))).
Proof.
  destruct call_trace_ok as (tr & Htr & Hok & _ & _).
  exists tr. split; [exact Htr|]. split; [|split].
  - destruct (init_inv _ _ _ Hinit) as (_ & _ & Hdk0 & _).
    destruct (build_inv _ _ _ _ _ _ _ _ Hbuild) as (En & Edm & Edk & _).
    rewrite En, Edm, Edk. exact Hdk0.
  - rewrite (ok_scores _ _ _ _ _ _ _ _ Hok). reflexivity.
  - intros hh b i j Hh Hb Hi Hj.
    rewrite (get3_sample _ _ _ _ _ (scores_nth _ _ _ _ _ _ _ _ Hok hh b Hh Hb)).
    destruct (shape3_nth _ _ _ _ _ (ok_queries _ _ _ _ _ _ _ _ Hok) Hb) as (_ & _ & HQ).
    destruct (shape3_nth _ _ _ _ _ (ok_keys _ _ _ _ _ _ _ _ Hok) Hb) as (_ & _ & HK).
    apply has_shape2_spec in HQ. apply has_shape2_spec in HK.
    rewrite sample_scores_get by (rewrite length_map; lia).
    unfold row3.
    rewrite (nth_map_lt _ _ i [] []) by lia.
    rewrite (nth_map_lt _ _ j [] []) by lia.
    reflexivity.
Qed.

(** The logit of head [hh], sample [b], query [i] and key [j] is
    the padding value where the key is entirely zero or, with
    [mask_future], lies behind the query, and the score elsewhere. *)
Lemma logits_get (tr : MultiHeadAttention.trace) (hh b i j : nat) :
  trace_ok self noise n tq tk dq dk_in tr ->
  (hh < h)%nat -> (b < n)%nat -> (i < tq)%nat -> (j < tk)%nat ->
  exists s,
    get3 (MultiHeadAttention.scores tr) (hh * n + b) i j = Some s
    /\ get3 (MultiHeadAttention.logits tr) (hh * n + b) i j
       = Some (if MultiHeadAttention.all_zero (row3 (MultiHeadAttention.key_in tr) b j)
                  || (MultiHeadAttention.mask_future self && (i <? j)%nat)
               then MultiHeadAttention.padding_value else s).
Proof.
  intros Hok Hh Hb Hi Hj.
  destruct (shape3_nth _ _ _ _ _ (ok_queries _ _ _ _ _ _ _ _ Hok) Hb) as (_ & _ & HQ).
  destruct (shape3_nth _ _ _ _ _ (ok_keys _ _ _ _ _ _ _ _ Hok) Hb) as (_ & _ & HK).
  apply has_shape2_spec in HQ. apply has_shape2_spec in HK.
  eexists.
  rewrite (get3_sample _ _ _ _ _ (scores_nth _ _ _ _ _ _ _ _ Hok hh b Hh Hb)).
  rewrite (get3_sample _ _ _ _ _ (logits_nth _ _ _ _ _ _ _ _ Hok hh b Hh Hb)).
  split.
  - apply sample_scores_get; rewrite length_map; lia.
  - apply sample_logits_get. apply sample_scores_get; rewrite length_map; lia.
Qed.

(** C9: in [MultiHeadAttention.call], for every query position
    whose query vector is entirely zero, all attention weights of
    that row are zero after the query masking in every head, and the
    head's attended vector at that position is the zero vector. *)
Theorem mha_zero_queries_attend_to_nothing :
  exists tr,
    MultiHeadAttention.call_trace self noise (query, key) mask = ret tr
    /\ forall hh b i,
        (hh < h)%nat -> (b < n)%nat -> (i < tq)%nat ->
        MultiHeadAttention.all_zero (row3 query b i) = true ->
        exists arow vrow,
          get2 (MultiHeadAttention.alphas tr) (hh * n + b) i = Some arow
          /\ length arow = tk
          /\ Forall (fun a => a = 0) arow
          /\ get2 (MultiHeadAttention.heads tr) (hh * n + b) i = Some vrow
          /\ Forall (fun v => v = 0) vrow
          /\ ((0 < tk)%nat -> length vrow = Z.to_nat (MultiHeadAttention.dv self)).
Proof.
  destruct call_trace_ok as (tr & Htr & Hok & Hqz & _).
  exists tr. split; [exact Htr|].
  intros hh b i Hh Hb Hi Hz.
  specialize (Hqz b i Hb Hi Hz). unfold row3 in Hqz.
  destruct (sample_alphas_zero_row
              self (noise (hh * n + b)%nat) tq tk
              (nth b (MultiHeadAttention.query_in tr) [])
              (MultiHeadAttention.sample_logits
                 self (nth b (MultiHeadAttention.key_in tr) [])
                 (MultiHeadAttention.sample_scores
                    self
                    (map (MultiHeadAttention.head_slice d hh)
                         (nth b (MultiHeadAttention.queries tr) []))
                    (map (MultiHeadAttention.head_slice d hh)
                         (nth b (MultiHeadAttention.keys tr) []))))
              i) as (arow & Ha & Hlen & Hzero); try assumption.
  { apply sample_logits_shape.
    apply (sample_scores_shape_at _ _ _ _ _ _ _ _ Hok); assumption. }
  pose proof (alphas_nth _ _ _ _ _ _ _ _ Hok hh b Hh Hb) as HA.
  pose proof (heads_nth _ _ _ _ _ _ _ _ Hok hh b Hh Hb) as HH.
  unfold MultiHeadAttention.head_output, MultiHeadAttention.head_attention in HH.
  destruct (shape3_nth _ _ _ _ _ (ok_query _ _ _ _ _ _ _ _ Hok) Hb) as (Hn & _ & _).
  rewrite Hn in HH.
  destruct (matmul_zero_row _
              (map (MultiHeadAttention.head_slice
                      (Z.to_nat (MultiHeadAttention.dv self)) hh)
                   (nth b (MultiHeadAttention.values tr) []))
              i arow Ha Hzero) as (vrow & Hv & Hvlen & Hvz).
  exists arow, vrow. unfold get2. rewrite HA, HH.
  repeat split; try assumption.
  intros Htk. rewrite Hvlen.
  destruct (split_heads_nth _ _ _ _ _ _ _ _ Hok _ tk hh b
              (ok_values _ _ _ _ _ _ _ _ Hok) Hh Hb) as [_ Hs].
  rewrite (ok_dv _ _ _ _ _ _ _ _ Hok).
  apply (ncols_shape tk); assumption.
Qed.

(** C6: [MultiHeadAttention.call] splits the projected queries, keys
    and values into [n_heads] slices of [dk] (respectively [dv])
    features, computes the scaled dot-product attention of every
    head on that head's slices alone, and lays the attended vectors
    of the heads side by side along the feature axis, which restores
    the layout [(batch_size, timesteps, dmodel)] handed to the final
    projection and announced by [compute_output_shape]. *)
Theorem mha_heads_are_independent_and_concatenated :
  exists tr,
    MultiHeadAttention.call_trace self noise (query, key) mask = ret tr
    /\ (forall hh b,
           (hh < h)%nat -> (b < n)%nat ->
           let Qh := map (MultiHeadAttention.head_slice d hh)
                         (nth b (MultiHeadAttention.queries tr) []) in
           let Kh := map (MultiHeadAttention.head_slice d hh)
                         (nth b (MultiHeadAttention.keys tr) []) in
           let Vh := map (MultiHeadAttention.head_slice
                            (Z.to_nat (MultiHeadAttention.dv self)) hh)
                         (nth b (MultiHeadAttention.values tr) []) in
           nth_error (MultiHeadAttention.queries_ tr) (hh * n + b) = Some Qh
           /\ K.has_shape2 tq d Qh = true
           /\ nth_error (MultiHeadAttention.keys_ tr) (hh * n + b) = Some Kh
           /\ K.has_shape2 tk d Kh = true
           /\ nth_error (MultiHeadAttention.values_ tr) (hh * n + b) = Some Vh
           /\ K.has_shape2 tk (Z.to_nat (MultiHeadAttention.dv self)) Vh = true
           /\ nth_error (MultiHeadAttention.heads tr) (hh * n + b)
              = Some (MultiHeadAttention.head_attention
                        self (noise (hh * n + b)%nat)
                        (nth b (MultiHeadAttention.query_in tr) [])
                        (nth b (MultiHeadAttention.key_in tr) []) Qh Kh Vh))
    /\ MultiHeadAttention.restored tr
       = MultiHeadAttention.heads_side_by_side
           self noise (MultiHeadAttention.query_in tr) (MultiHeadAttention.key_in tr)
           (MultiHeadAttention.queries tr) (MultiHeadAttention.keys tr)
           (MultiHeadAttention.values tr)
    /\ ((0 < tk)%nat ->
        K.has_shape3 n tq (Z.to_nat (MultiHeadAttention.dmodel self))
                     (MultiHeadAttention.restored tr) = true)
    /\ MultiHeadAttention.linear self (MultiHeadAttention.restored tr)
                                 (MultiHeadAttention.linear_o self)
                                 (MultiHeadAttention.bias_o self)
       = ret (MultiHeadAttention.output tr)
    /\ MultiHeadAttention.compute_output_shape self (input_shapes n tq tk dq dk_in)
       = ret [Some (Z.of_nat n); Some (Z.of_nat tq); Some (MultiHeadAttention.dmodel self)].
Proof.
  destruct call_trace_ok as (tr & Htr & Hok & _ & _).
  exists tr. split; [exact Htr|]. split; [|split; [|split; [|split]]].
  - intros hh b Hh Hb Qh Kh Vh. subst Qh Kh Vh.
    rewrite (ok_queries_ _ _ _ _ _ _ _ _ Hok), (ok_keys_ _ _ _ _ _ _ _ _ Hok),
      (ok_values_ _ _ _ _ _ _ _ _ Hok).
    destruct (split_heads_nth _ _ _ _ _ _ _ _ Hok _ tq hh b
                (ok_queries _ _ _ _ _ _ _ _ Hok) Hh Hb) as [HQ HQs].
    destruct (split_heads_nth _ _ _ _ _ _ _ _ Hok _ tk hh b
                (ok_keys _ _ _ _ _ _ _ _ Hok) Hh Hb) as [HK HKs].
    destruct (split_heads_nth _ _ _ _ _ _ _ _ Hok _ tk hh b
                (ok_values _ _ _ _ _ _ _ _ Hok) Hh Hb) as [HV HVs].
    rewrite (ok_dv _ _ _ _ _ _ _ _ Hok).
    repeat split; try assumption.
    pose proof (heads_nth _ _ _ _ _ _ _ _ Hok hh b Hh Hb) as HH.
    unfold MultiHeadAttention.head_output in HH.
    destruct (shape3_nth _ _ _ _ _ (ok_query _ _ _ _ _ _ _ _ Hok) Hb) as (Hn & _ & _).
    rewrite Hn, (ok_dv _ _ _ _ _ _ _ _ Hok) in HH. exact HH.
  - apply (restored_side_by_side _ _ _ _ _ _ _ _ Hok).
  - apply (restored_shape _ _ _ _ _ _ _ _ Hok).
  - exact (ok_output _ _ _ _ _ _ _ _ Hok).
  - unfold MultiHeadAttention.compute_output_shape, input_shapes.
    destruct dq as [|dq']; [lia|]. reflexivity.
Qed.

End Built.

(** ** The theorems at a concrete layer and input *)

Lemma mha_scores_are_scaled_dot_products_witness :
  exists tr,
    MultiHeadAttention.call_trace mha_example mha_example_noise
      (mha_example_query, mha_example_key) None = ret tr
    /\ get3 (MultiHeadAttention.scores tr) 1 0 1
       = Some (K.dotp (MultiHeadAttention.head_slice
                         1 1 (row3 (MultiHeadAttention.queries tr) 0 0))
                      (MultiHeadAttention.head_slice
                         1 1 (row3 (MultiHeadAttention.keys tr) 0 1))
               / sqrt (IZR 1)).
Proof.
  destruct (mha_scores_are_scaled_dot_products
              "multi_head_attention_1" mha_example_kwargs mha_example_constructed
              mha_example mha_example_initial 1 2 2 1 1
              mha_example_query mha_example_key None mha_example_noise
              eq_refl eq_refl eq_refl eq_refl ltac:(lia) ltac:(lia)
              eq_refl eq_refl eq_refl)
    as (tr & Htr & _ & _ & H).
  exists tr. split; [exact Htr|].
  apply (H 1 0 0 1)%nat; simpl; lia.
Defined.

Lemma mha_example_query_1_zero :
  MultiHeadAttention.all_zero (row3 mha_example_query 0 1) = true.
Proof.
  unfold row3, MultiHeadAttention.all_zero. simpl. rewrite is_zero_0. reflexivity.
Qed.

Lemma mha_zero_queries_attend_to_nothing_witness :
  exists tr,
    MultiHeadAttention.call_trace mha_example mha_example_noise
      (mha_example_query, mha_example_key) None = ret tr
    /\ exists arow vrow,
        get2 (MultiHeadAttention.alphas tr) 1 1 = Some arow
        /\ length arow = 2%nat
        /\ Forall (fun a => a = 0) arow
        /\ get2 (MultiHeadAttention.heads tr) 1 1 = Some vrow
        /\ Forall (fun v => v = 0) vrow
        /\ length vrow = 1%nat.
Proof.
  destruct (mha_zero_queries_attend_to_nothing
              "multi_head_attention_1" mha_example_kwargs mha_example_constructed
              mha_example mha_example_initial 1 2 2 1 1
              mha_example_query mha_example_key None mha_example_noise
              eq_refl eq_refl eq_refl eq_refl ltac:(lia) ltac:(lia)
              eq_refl eq_refl eq_refl)
    as (tr & Htr & H).
  exists tr. split; [exact Htr|].
  destruct (H 1 0 1)%nat as (arow & vrow & H1 & H2 & H3 & H4 & H5 & H6);
    try (simpl; lia).
  { exact mha_example_query_1_zero. }
  exists arow, vrow. repeat split; try assumption.
  apply H6. lia.
Defined.

Lemma mha_heads_are_independent_and_concatenated_witness :
  exists tr,
    MultiHeadAttention.call_trace mha_example mha_example_noise
      (mha_example_query, mha_example_key) None = ret tr
    /\ MultiHeadAttention.restored tr
       = MultiHeadAttention.heads_side_by_side
           mha_example mha_example_noise (MultiHeadAttention.query_in tr)
           (MultiHeadAttention.key_in tr) (MultiHeadAttention.queries tr)
           (MultiHeadAttention.keys tr) (MultiHeadAttention.values tr)
    /\ K.has_shape3 1 2 2 (MultiHeadAttention.restored tr) = true.
Proof.
  destruct (mha_heads_are_independent_and_concatenated
              "multi_head_attention_1" mha_example_kwargs mha_example_constructed
              mha_example mha_example_initial 1 2 2 1 1
              mha_example_query mha_example_key None mha_example_noise
              eq_refl eq_refl eq_refl eq_refl ltac:(lia) ltac:(lia)
              eq_refl eq_refl eq_refl)
    as (tr & Htr & _ & H1 & H2 & _ & _).
  exists tr. split; [exact Htr|]. split; [exact H1|].
  apply H2. lia.
Defined.

(* ================================================================= *)
(** * Further properties of [MultiHeadAttention] *)

(** ** The constructor and [get_config] *)

Lemma dict_get_app_last (d : dict) (k : string) (v : pyval) :
  dict_get (d ++ [(k, v)]) k = Some v.
Proof.
  unfold dict_get. rewrite rev_app_distr. simpl. rewrite String.eqb_refl. reflexivity.
Qed.

Lemma activations_get_serialize (identifier : pyval) (a : Framework.Activation) :
  Framework.activations_get identifier = ret a ->
  Framework.activations_get (Framework.activations_serialize a) = ret a.
Proof.
  unfold Framework.activations_get, Framework.activations_serialize.
  destruct identifier as [| | | |s]; try discriminate.
  - intros H. injection H as <-. reflexivity.
  - repeat match goal with
           | |- context [if String.eqb s ?c then _ else _] =>
               destruct (String.eqb s c) eqn:?
           end;
      intros H; try discriminate; injection H as <-; cbn [Framework.act_name];
      repeat match goal with
             | E : String.eqb s _ = _ |- _ => rewrite E
             end; reflexivity.
Qed.

Lemma Layer_init_get_config (l : Framework.Layer) (default_name : string) :
  Framework.Layer_init default_name (Framework.Layer_get_config l) = ret l.
Proof. destruct l as [nm tr]. reflexivity. Qed.

(** What a successful constructor call fixes: the two required
    arguments are the integers read back from the layer, the
    activation is the one named by the [activation] argument, and no
    weight exists before [build]. *)
Lemma init_record (default_name : string) (kw : dict) (l : MultiHeadAttention.t) :
  MultiHeadAttention.__init__ default_name kw = ret l ->
  Framework.activations_get (arg kw "activation" (PyStr "relu"))
  = ret (MultiHeadAttention.activation l)
  /\ dict_get kw "n_heads" = Some (PyInt (MultiHeadAttention.n_heads l))
  /\ dict_get kw "dmodel" = Some (PyInt (MultiHeadAttention.dmodel l))
  /\ MultiHeadAttention.linear_q l = None /\ MultiHeadAttention.linear_k l = None
  /\ MultiHeadAttention.linear_v l = None /\ MultiHeadAttention.linear_o l = None
  /\ MultiHeadAttention.bias_q l = None /\ MultiHeadAttention.bias_k l = None
  /\ MultiHeadAttention.bias_v l = None /\ MultiHeadAttention.bias_o l = None.
Proof.
  unfold MultiHeadAttention.__init__, required.
  destruct (dict_get kw "n_heads") as [[| |h| |]|]; try discriminate.
  destruct (dict_get kw "dmodel") as [[| |m| |]|]; try discriminate.
  cbn [bind ret raise as_int].
  destruct (as_bool _ _); try discriminate.
  destruct (as_float _ _); try discriminate.
  destruct (as_bool _ _); try discriminate.
  destruct (Framework.Layer_init _ _); try discriminate.
  cbn [bind ret raise].
  destruct (h =? 0)%Z; try discriminate.
  cbn [bind ret raise]. unfold assert_.
  destruct (m mod h =? 0)%Z; try discriminate.
  cbn [bind ret raise].
  destruct (Framework.activations_get _) as [|a]; try discriminate.
  cbn [bind ret raise].
  intros H. injection H as <-. cbn. repeat split; reflexivity.
Qed.

(** X1: a layer constructed with the default [bias_initializer],
    [bias_regularizer] and [bias_constraint] is rebuilt unchanged by
    the constructor called with its [get_config()] dictionary,
    whatever the other arguments were. *)
Theorem mha_get_config_round_trip :
  forall (default_name default_name' : string) (kw : dict) (l : MultiHeadAttention.t),
    MultiHeadAttention.__init__ default_name kw = ret l ->
    MultiHeadAttention.bias_initializer l = PyStr "zeros" ->
    MultiHeadAttention.bias_regularizer l = PyNone ->
    MultiHeadAttention.bias_constraint l = PyNone ->
    MultiHeadAttention.__init__ default_name' (MultiHeadAttention.get_config l) = ret l.
Proof.
  intros dn dn' kw l Hinit Hbi Hbr Hbc.
  destruct (init_inv _ _ _ Hinit) as (Hnz & Hmod & Hdk & Hdv).
  destruct (init_record _ _ _ Hinit)
    as (Hact & _ & _ & Hq & Hk & Hv & Ho & Hbq & Hbk & Hbv & Hbo).
  apply activations_get_serialize in Hact.
  apply Z.eqb_neq in Hnz. apply Z.eqb_eq in Hmod.
  destruct l as [[nm tr] h m dk dv dr a ub ki kr kc ar bi br bc lv lk lq lo bv bk bq bo mf].
  cbn [MultiHeadAttention.n_heads MultiHeadAttention.dmodel MultiHeadAttention.dk
       MultiHeadAttention.dv MultiHeadAttention.activation
       MultiHeadAttention.bias_initializer MultiHeadAttention.bias_regularizer
       MultiHeadAttention.bias_constraint
       MultiHeadAttention.linear_q MultiHeadAttention.linear_k
       MultiHeadAttention.linear_v MultiHeadAttention.linear_o
       MultiHeadAttention.bias_q MultiHeadAttention.bias_k
       MultiHeadAttention.bias_v MultiHeadAttention.bias_o] in *.
  subst.
  unfold MultiHeadAttention.__init__, MultiHeadAttention.get_config, required, arg.
  cbn -[Framework.activations_get Z.modulo Z.eqb Z.div].
  rewrite Hnz. cbn -[Framework.activations_get Z.modulo Z.eqb Z.div].
  rewrite Hmod. cbn -[Framework.activations_get Z.modulo Z.eqb Z.div].
  rewrite Hact. reflexivity.
Qed.

(** The property at the example layer. *)
Lemma mha_get_config_round_trip_witness :
  MultiHeadAttention.__init__ "another_name"
    (MultiHeadAttention.get_config mha_example_constructed)
  = ret mha_example_constructed.
Proof.
  apply (mha_get_config_round_trip "multi_head_attention_1" "another_name"
           mha_example_kwargs mha_example_constructed);
    reflexivity.
Defined.

(** X2: whenever the constructor returns a layer, [n_heads] and
    [dmodel] are the integers it was called with, [n_heads] is not
    zero, the heads divide the model size exactly
    ([n_heads * dk = dmodel], [dv = dk]), and the layer has no
    weights yet. *)
Theorem mha_init_splits_dmodel_evenly :
  forall (default_name : string) (kw : dict) (l : MultiHeadAttention.t),
    MultiHeadAttention.__init__ default_name kw = ret l ->
    dict_get kw "n_heads" = Some (PyInt (MultiHeadAttention.n_heads l))
    /\ dict_get kw "dmodel" = Some (PyInt (MultiHeadAttention.dmodel l))
    /\ MultiHeadAttention.n_heads l <> 0%Z
    /\ (MultiHeadAttention.n_heads l * MultiHeadAttention.dk l
        = MultiHeadAttention.dmodel l)%Z
    /\ MultiHeadAttention.dv l = MultiHeadAttention.dk l
    /\ MultiHeadAttention.linear_q l = None /\ MultiHeadAttention.linear_k l = None
    /\ MultiHeadAttention.linear_v l = None /\ MultiHeadAttention.linear_o l = None
    /\ MultiHeadAttention.bias_q l = None /\ MultiHeadAttention.bias_k l = None
    /\ MultiHeadAttention.bias_v l = None /\ MultiHeadAttention.bias_o l = None.
Proof.
  intros dn kw l Hinit.
  destruct (init_inv _ _ _ Hinit) as (Hnz & Hmod & Hdk & Hdv).
  destruct (init_record _ _ _ Hinit) as (_ & Hh & Hm & Hw).
  split; [exact Hh|]. split; [exact Hm|]. split; [exact Hnz|].
  split; [|split; [congruence|exact Hw]].
  rewrite Hdk.
  pose proof (Z.div_mod (MultiHeadAttention.dmodel l) (MultiHeadAttention.n_heads l) Hnz).
  lia.
Qed.

(** The property at the example layer. *)
Lemma mha_init_splits_dmodel_evenly_witness :
  (MultiHeadAttention.n_heads mha_example_constructed
   * MultiHeadAttention.dk mha_example_constructed
   = MultiHeadAttention.dmodel mha_example_constructed)%Z
  /\ MultiHeadAttention.linear_q mha_example_constructed = None.
Proof.
  destruct (mha_init_splits_dmodel_evenly
              "multi_head_attention_1" mha_example_kwargs mha_example_constructed eq_refl)
    as (_ & _ & _ & H & _ & Hq & _).
  split; [exact H|exact Hq].
Defined.

(** ** [build] *)

(** X3: [build] raises the assertion error about two inputs unless it
    is handed exactly two input shapes; otherwise it fails only on
    the feature dimension [input_shape[i][2]] of one of them (a shape
    of fewer than three dimensions, or an undefined dimension) or
    because [add_weight] refuses a negative dimension
    ([dk * n_heads], [dv * n_heads] or [dmodel] below zero).  When it
    succeeds, none of these is negative, the four kernels have the
    shapes [(query_dim, dk * n_heads)], [(key_dim, dk * n_heads)],
    [(key_dim, dv * n_heads)] and [(dv * n_heads, dmodel)], the four
    biases exist exactly when [use_bias] is set, and the
    configuration reported by [get_config] is the one before. *)
Theorem mha_build_outcome :
  forall (self : MultiHeadAttention.t) (ini : MultiHeadAttention.initial)
         (input_shape : list shape),
    let zk := (MultiHeadAttention.dk self * MultiHeadAttention.n_heads self)%Z in
    let zv := (MultiHeadAttention.dv self * MultiHeadAttention.n_heads self)%Z in
    let zm := MultiHeadAttention.dmodel self in
    let hk := Z.to_nat zk in
    let hv := Z.to_nat zv in
    let dm := Z.to_nat zm in
    match MultiHeadAttention.build self ini input_shape with
    | inl e =>
        (length input_shape <> 2%nat /\ e = AssertionError two_inputs)
        \/ (length input_shape = 2%nat
            /\ (dim (nth 0 input_shape []) 2 = raise e
                \/ dim (nth 1 input_shape []) 2 = raise e))
        \/ (length input_shape = 2%nat
            /\ e = ValueError negative_dimension
            /\ (zk < 0 \/ zv < 0 \/ zm < 0)%Z)
    | inr built =>
        length input_shape = 2%nat
        /\ (0 <= zk /\ 0 <= zv /\ 0 <= zm)%Z
        /\ (exists query_dim key_dim Wq Wk Wv Wo,
               dim (nth 0 input_shape []) 2 = ret query_dim
               /\ dim (nth 1 input_shape []) 2 = ret key_dim
               /\ MultiHeadAttention.linear_q built = Some Wq
               /\ K.has_shape2 query_dim hk Wq = true
               /\ MultiHeadAttention.linear_k built = Some Wk
               /\ K.has_shape2 key_dim hk Wk = true
               /\ MultiHeadAttention.linear_v built = Some Wv
               /\ K.has_shape2 key_dim hv Wv = true
               /\ MultiHeadAttention.linear_o built = Some Wo
               /\ K.has_shape2 hv dm Wo = true)
        /\ (if MultiHeadAttention.use_bias self
            then exists bq bk bv bo,
                MultiHeadAttention.bias_q built = Some bq /\ length bq = hk
                /\ MultiHeadAttention.bias_k built = Some bk /\ length bk = hk
                /\ MultiHeadAttention.bias_v built = Some bv /\ length bv = hv
                /\ MultiHeadAttention.bias_o built = Some bo /\ length bo = dm
            else MultiHeadAttention.bias_q built = None
                 /\ MultiHeadAttention.bias_k built = None
                 /\ MultiHeadAttention.bias_v built = None
                 /\ MultiHeadAttention.bias_o built = None)
        /\ MultiHeadAttention.get_config built = MultiHeadAttention.get_config self
    end.
Proof.
  intros self ini input_shape zk zv zm hk hv dm.
  unfold MultiHeadAttention.build, assert_.
  destruct (length input_shape =? 2)%nat eqn:Hlen.
  - apply Nat.eqb_eq in Hlen. cbn [bind ret raise].
    destruct (dim (nth 0 input_shape []) 2) as [e|query_dim] eqn:Hq.
    { right. left. split; [exact Hlen|]. left. reflexivity. }
    cbn [bind ret raise].
    destruct (dim (nth 1 input_shape []) 2) as [e|key_dim] eqn:Hk.
    { right. left. split; [exact Hlen|]. right. reflexivity. }
    cbn [bind ret raise].
    pose proof (weight_dim_inv zk) as W1. fold zk.
    destruct (weight_dim zk) as [e|hk'].
    { cbn [bind ret raise]. right. right. split; [exact Hlen|].
      split; [apply W1|]. left. apply W1. }
    cbn [bind ret raise].
    pose proof (weight_dim_inv zv) as W2. fold zv.
    destruct (weight_dim zv) as [e|hv'].
    { cbn [bind ret raise]. right. right. split; [exact Hlen|].
      split; [apply W2|]. right. left. apply W2. }
    cbn [bind ret raise].
    pose proof (weight_dim_inv zm) as W3. fold zm.
    destruct (weight_dim zm) as [e|dm'].
    { cbn [bind ret raise]. right. right. split; [exact Hlen|].
      split; [apply W3|]. right. right. apply W3. }
    destruct W1 as [-> W1], W2 as [-> W2], W3 as [-> W3].
    cbn [bind ret raise MultiHeadAttention.linear_q MultiHeadAttention.linear_k
         MultiHeadAttention.linear_v MultiHeadAttention.linear_o
         MultiHeadAttention.bias_q MultiHeadAttention.bias_k
         MultiHeadAttention.bias_v MultiHeadAttention.bias_o].
    fold hk hv dm.
    split; [exact Hlen|]. split; [auto|]. split; [|split].
    + do 6 eexists.
      repeat (split; [reflexivity|]).
      repeat (split; [apply add_weight2_shape|]).
      repeat (split; [reflexivity|]).
      repeat (split; [apply add_weight2_shape|]).
      repeat (split; [reflexivity|]).
      repeat (split; [apply add_weight2_shape|]).
      repeat (split; [reflexivity|]).
      apply add_weight2_shape.
    + destruct (MultiHeadAttention.use_bias self).
      * do 4 eexists.
        repeat split; apply length_add_weight1.
      * repeat split.
    + reflexivity.
  - apply Nat.eqb_neq in Hlen. left. split; [exact Hlen|reflexivity].
Qed.

(** ** The inputs after the input masks *)

Lemma all_zero_map_scale (row : tensor1) (s : R) :
  MultiHeadAttention.all_zero (map (fun v => v * s) row)
  = MultiHeadAttention.all_zero row || K.is_zero s.
Proof.
  unfold MultiHeadAttention.all_zero.
  induction row as [|v row IH]; [reflexivity|].
  cbn [map forallb]. rewrite IH. unfold K.is_zero.
  destruct (Req_dec_T s 0) as [->|Hs].
  - destruct (Req_dec_T (v * 0) 0) as [_|Hne]; [|exfalso; apply Hne; ring].
    rewrite !orb_true_r. destruct (Req_dec_T v 0); reflexivity.
  - rewrite !orb_false_r.
    destruct (Req_dec_T v 0) as [->|Hv].
    + destruct (Req_dec_T (0 * s) 0) as [_|Hne]; [reflexivity|exfalso; apply Hne; ring].
    + destruct (Req_dec_T (v * s) 0) as [He|_]; [|reflexivity].
      exfalso. apply Rmult_integral in He. tauto.
Qed.

(** Row [(b, i)] of [x * K.cast(m)[:, :, None]]. *)
Lemma row3_scale_rows (n t d : nat) (x : tensor3) (m : list (list bool)) (b i : nat) :
  K.has_shape3 n t d x = true -> mask_fits n t (Some m) = true ->
  (b < n)%nat -> (i < t)%nat ->
  row3 (K.scale_rows x (K.cast m)) b i
  = map (fun v => v * (if nth i (nth b m []) true then 1 else 0)) (row3 x b i).
Proof.
  intros Hx Hm Hb Hi. apply has_shape3_spec in Hx. destruct Hx as [Hn Hx].
  rewrite Forall_forall in Hx.
  simpl in Hm. apply andb_true_iff in Hm. destruct Hm as [Hmn Hmr].
  apply Nat.eqb_eq in Hmn. rewrite forallb_forall in Hmr.
  unfold row3, K.scale_rows, K.cast.
  rewrite (nth_map2_default _ _ _ b [] [] []) by (rewrite ?length_map; lia).
  assert (Hxb : length (nth b x []) = t) by (apply Hx, nth_In; lia).
  assert (Hmb : length (nth b m []) = t).
  { apply Nat.eqb_eq, Hmr, nth_In. lia. }
  assert (E : nth b (map (map (fun b0 : bool => if b0 then 1 else 0)) m) []
              = map (fun b0 : bool => if b0 then 1 else 0) (nth b m []))
    by (apply (map_nth (map (fun b0 : bool => if b0 then 1 else 0)) m [] b)).
  rewrite E.
  rewrite (nth_map2_default _ _ _ i [] 0 []) by (rewrite ?length_map; lia).
  rewrite (nth_map_lt _ _ i true 0) by lia. reflexivity.
Qed.

(** The query and key that [call] works with are the inputs
    multiplied by their input masks. *)
Lemma call_trace_inputs (self : MultiHeadAttention.t) (noise : nat -> nat -> nat -> R)
      (query key : tensor3) (mask : MultiHeadAttention.masks)
      (tr : MultiHeadAttention.trace) :
  MultiHeadAttention.call_trace self noise (query, key) mask = ret tr ->
  MultiHeadAttention.query_in tr
  = match mask with
    | Some (Some m0, _) => K.scale_rows query (K.cast m0)
    | _ => query
    end
  /\ MultiHeadAttention.key_in tr
     = match mask with
       | Some (_, Some m1) => K.scale_rows key (K.cast m1)
       | _ => key
       end.
Proof.
  unfold MultiHeadAttention.call_trace. cbn [fst snd].
  destruct (MultiHeadAttention.linear self _ (MultiHeadAttention.linear_q self) _);
    [discriminate|].
  cbn [bind].
  destruct (MultiHeadAttention.linear self _ (MultiHeadAttention.linear_k self) _);
    [discriminate|].
  cbn [bind].
  destruct (MultiHeadAttention.linear self _ (MultiHeadAttention.linear_v self) _);
    [discriminate|].
  cbn [bind].
  destruct (MultiHeadAttention.linear self _ (MultiHeadAttention.linear_o self) _);
    [discriminate|].
  cbn [bind]. intros H. injection H as <-. split; reflexivity.
Qed.

Lemma is_zero_cast (c : bool) : K.is_zero (if c then 1 else 0) = negb c.
Proof. destruct c; [apply is_zero_1|apply is_zero_0]. Qed.

(** A query (key) vector of the masked input is entirely zero exactly
    when the input vector is, or its input mask switches it off. *)
Lemma masked_inputs_zero (self : MultiHeadAttention.t) (noise : nat -> nat -> nat -> R)
      (n tq tk dq dk_in : nat) (query key : tensor3) (mask : MultiHeadAttention.masks)
      (tr : MultiHeadAttention.trace) :
  K.has_shape3 n tq dq query = true ->
  K.has_shape3 n tk dk_in key = true ->
  masks_fit n tq tk mask = true ->
  MultiHeadAttention.call_trace self noise (query, key) mask = ret tr ->
  (forall b i, (b < n)%nat -> (i < tq)%nat ->
               MultiHeadAttention.all_zero (row3 (MultiHeadAttention.query_in tr) b i)
               = MultiHeadAttention.all_zero (row3 query b i) || query_mask_off mask b i)
  /\ (forall b j, (b < n)%nat -> (j < tk)%nat ->
                  MultiHeadAttention.all_zero (row3 (MultiHeadAttention.key_in tr) b j)
                  = MultiHeadAttention.all_zero (row3 key b j) || key_mask_off mask b j).
Proof.
  intros Hq Hk Hm Htr.
  destruct (call_trace_inputs _ _ _ _ _ _ Htr) as [-> ->].
  split.
  - intros b i Hb Hi. unfold query_mask_off.
    destruct mask as [[[m0|] m1]|]; try (rewrite orb_false_r; reflexivity).
    simpl in Hm. apply andb_true_iff in Hm. destruct Hm as [Hm0 _].
    rewrite (row3_scale_rows n tq dq) by assumption.
    rewrite all_zero_map_scale, is_zero_cast. reflexivity.
  - intros b j Hb Hj. unfold key_mask_off.
    destruct mask as [[m0 [m1|]]|]; try (rewrite orb_false_r; reflexivity).
    simpl in Hm. apply andb_true_iff in Hm. destruct Hm as [_ Hm1].
    rewrite (row3_scale_rows n tk dk_in) by assumption.
    rewrite all_zero_map_scale, is_zero_cast. reflexivity.
Qed.

(** ** [compute_mask] *)

Lemma get_entry_map_map {A B : Type} (f : A -> B) (m : list (list A)) (b i : nat) :
  get_entry (map (map f) m) b i = option_map f (get_entry m b i).
Proof.
  unfold get_entry. rewrite nth_error_map.
  destruct (nth_error m b) as [r|]; [|reflexivity].
  cbn [option_map]. apply nth_error_map.
Qed.

Lemma get_entry_nth {A : Type} (n t : nat) (m : list (list A)) (b i : nat) (d : A) :
  length m = n -> Forall (fun r => length r = t) m ->
  (b < n)%nat -> (i < t)%nat ->
  get_entry m b i = Some (nth i (nth b m []) d).
Proof.
  intros Hn Hm Hb Hi. unfold get_entry.
  rewrite (nth_error_nth' m []) by lia.
  apply nth_error_nth'.
  rewrite Forall_forall in Hm. rewrite (Hm (nth b m [])); [exact Hi|].
  apply nth_In. lia.
Qed.

Lemma is_zero_sum_abs (v : tensor1) :
  K.is_zero (K.sum (map Rabs v)) = MultiHeadAttention.all_zero v.
Proof.
  pose proof (sign_sum_abs v) as Hs. pose proof (sum_abs_nonneg v) as Hp.
  unfold K.sign in Hs. unfold K.is_zero.
  destruct (MultiHeadAttention.all_zero v).
  - destruct (Rlt_dec 0 (K.sum (map Rabs v))); [lra|].
    destruct (Req_dec_T (K.sum (map Rabs v)) 0); [reflexivity|lra].
  - destruct (Req_dec_T (K.sum (map Rabs v)) 0) as [E|]; [|reflexivity].
    rewrite E in Hs. destruct (Rlt_dec 0 0); lra.
Qed.

(** Without a query mask the propagated mask is the query mask that
    [call] multiplies the attention weights with. *)
Lemma cast_not_equal0_sign (query : tensor3) :
  K.cast (K.not_equal0 (K.sum_abs_last query))
  = map (map K.sign) (K.sum_abs_last query).
Proof.
  unfold K.cast, K.not_equal0, K.sum_abs_last.
  rewrite !map_map. apply map_ext. intros m.
  rewrite !map_map. apply map_ext. intros row.
  rewrite sign_sum_abs, is_zero_sum_abs.
  destruct (MultiHeadAttention.all_zero row); reflexivity.
Qed.

(** Shape and entries of the propagated mask. *)
Lemma mha_compute_mask_entries (self : MultiHeadAttention.t) (n tq tk dq : nat)
      (query key : tensor3) (mask : MultiHeadAttention.masks) :
  K.has_shape3 n tq dq query = true ->
  masks_fit n tq tk mask = true ->
  K.has_shape2 n tq (MultiHeadAttention.compute_mask self (query, key) mask) = true
  /\ (forall b i,
         (b < n)%nat -> (i < tq)%nat ->
         get_entry (MultiHeadAttention.compute_mask self (query, key) mask) b i
         = Some (if match mask with
                    | Some (Some _, _) => query_mask_off mask b i
                    | _ => MultiHeadAttention.all_zero (row3 query b i)
                    end
                 then 0 else 1)).
Proof.
  intros Hq Hm.
  assert (Hnone : K.has_shape2 n tq (K.cast (K.not_equal0 (K.sum_abs_last query))) = true
                  /\ forall b i,
                      (b < n)%nat -> (i < tq)%nat ->
                      get_entry (K.cast (K.not_equal0 (K.sum_abs_last query))) b i
                      = Some (if MultiHeadAttention.all_zero (row3 query b i)
                              then 0 else 1)).
  { apply has_shape3_spec in Hq. destruct Hq as [Hn Hx]. rewrite Forall_forall in Hx.
    split.
    - apply has_shape2_spec. unfold K.cast, K.not_equal0, K.sum_abs_last.
      rewrite !length_map. split; [exact Hn|].
      rewrite !Forall_map. apply Forall_forall. intros m Hin.
      rewrite !length_map. apply (Hx m Hin).
    - intros b i Hb Hi. rewrite cast_not_equal0_sign.
      unfold K.sum_abs_last. rewrite map_map.
      unfold get_entry. rewrite nth_error_map, (nth_error_nth' query []) by lia.
      cbn [option_map]. rewrite !map_map, nth_error_map.
      assert (Hlen : length (nth b query []) = tq) by (apply Hx, nth_In; lia).
      rewrite (nth_error_nth' (nth b query []) []) by lia.
      cbn [option_map]. rewrite sign_sum_abs. reflexivity. }
  unfold MultiHeadAttention.compute_mask. cbn [fst].
  destruct mask as [[[m0|] m1]|]; try exact Hnone.
  simpl in Hm. apply andb_true_iff in Hm. destruct Hm as [Hm0 _].
  apply andb_true_iff in Hm0. destruct Hm0 as [Hmn Hmr].
  apply Nat.eqb_eq in Hmn. rewrite forallb_forall in Hmr.
  assert (Hrows : Forall (fun r : list bool => length r = tq) m0).
  { apply Forall_forall. intros r Hr. apply Nat.eqb_eq, Hmr, Hr. }
  split.
  - apply has_shape2_spec. unfold K.cast. rewrite length_map. split; [exact Hmn|].
    rewrite Forall_map. apply Forall_forall. intros r Hr. rewrite length_map.
    apply Nat.eqb_eq, Hmr, Hr.
  - intros b i Hb Hi. unfold K.cast. rewrite get_entry_map_map.
    rewrite (get_entry_nth n tq m0 b i true) by assumption.
    cbn [option_map query_mask_off].
    destruct (nth i (nth b m0 []) true); reflexivity.
Qed.

(** X4: the mask that [compute_mask] hands to the next layer has one
    entry per query position; with a query mask it is that mask as
    numbers, and without one it is 0 exactly at the query vectors
    that are entirely zero and 1 elsewhere, which is the query mask
    [sign(sum(abs(query)))] that [call] applies to the attention
    weights. *)
Theorem mha_compute_mask_marks_zero_queries :
  forall (self : MultiHeadAttention.t) (n tq tk dq : nat) (query key : tensor3)
         (mask : MultiHeadAttention.masks),
    K.has_shape3 n tq dq query = true ->
    masks_fit n tq tk mask = true ->
    let out := MultiHeadAttention.compute_mask self (query, key) mask in
    K.has_shape2 n tq out = true
    /\ (forall b i,
           (b < n)%nat -> (i < tq)%nat ->
           get_entry out b i
           = Some (if match mask with
                      | Some (Some _, _) => query_mask_off mask b i
                      | _ => MultiHeadAttention.all_zero (row3 query b i)
                      end
                   then 0 else 1))
    /\ match mask with
       | Some (Some _, _) => True
       | _ => out = map (map K.sign) (K.sum_abs_last query)
       end.
Proof.
  intros self n tq tk dq query key mask Hq Hm out. subst out.
  destruct (mha_compute_mask_entries self n tq tk dq query key mask Hq Hm) as [Hs He].
  split; [exact Hs|]. split; [exact He|].
  unfold MultiHeadAttention.compute_mask. cbn [fst].
  destruct mask as [[[m0|] m1]|]; try exact I; apply cast_not_equal0_sign.
Qed.

(** The property at the example query, whose second vector is zero. *)
Lemma mha_compute_mask_marks_zero_queries_witness :
  get_entry (MultiHeadAttention.compute_mask mha_example
               (mha_example_query, mha_example_key) None) 0 1
  = Some (if MultiHeadAttention.all_zero (row3 mha_example_query 0 1) then 0 else 1).
Proof.
  destruct (mha_compute_mask_marks_zero_queries
              mha_example 1 2 2 1 mha_example_query mha_example_key None
              eq_refl eq_refl) as (_ & H & _).
  apply (H 0 1)%nat; lia.
Defined.

(** ** What the softmax receives and returns *)

Lemma mapi_const_index {A B : Type} (g : A -> B) (l : list A) :
  K.mapi (fun _ a => g a) l = map g l.
Proof.
  apply nth_error_ext. intros i.
  rewrite nth_error_mapi, nth_error_map. reflexivity.
Qed.

Lemma softmax1_pos (e : tensor1) : e <> [] -> Forall (fun a => 0 < a) (K.softmax1 e).
Proof.
  intros He. unfold K.softmax1. rewrite Forall_map. apply Forall_forall. intros x _.
  apply Rdiv_lt_0_compat; [apply exp_pos|apply sum_map_exp_pos; exact He].
Qed.

(** Without dropout, the weights of a query vector that is not
    entirely zero are the softmax of its logits. *)
Lemma sample_alphas_live_row (self : MultiHeadAttention.t) (noise_a : nat -> nat -> R)
      (query_b L : tensor2) (i : nat) (lrow : tensor1) :
  ~ 0 < MultiHeadAttention.dropout self ->
  nth_error L i = Some lrow ->
  MultiHeadAttention.all_zero (nth i query_b []) = false ->
  nth_error (MultiHeadAttention.sample_alphas self noise_a query_b L) i
  = Some (K.softmax1 lrow).
Proof.
  intros Hd HL Hz. unfold MultiHeadAttention.sample_alphas.
  rewrite nth_error_mapi, HL. cbn [option_map]. f_equal.
  rewrite Hz. destruct (Rlt_dec 0 (MultiHeadAttention.dropout self)); [contradiction|].
  rewrite mapi_const_index. rewrite <- (map_id (K.softmax1 lrow)) at 2.
  apply map_ext. intros a. ring.
Qed.

(** ** The weight of a suppressed key *)

Lemma softmax1_nth_error (e : tensor1) (j : nat) (l : R) :
  nth_error e j = Some l ->
  nth_error (K.softmax1 e) j = Some (exp l / K.sum (map exp e)).
Proof.
  intros H. unfold K.softmax1. rewrite nth_error_map, H. reflexivity.
Qed.






Section Called.

Variables (default_name : string) (kw : dict) (self0 self : MultiHeadAttention.t)
          (ini : MultiHeadAttention.initial) (n tq tk dq dk_in : nat)
          (query key : tensor3) (mask : MultiHeadAttention.masks)
          (noise : nat -> nat -> nat -> R).

Hypothesis Hinit : MultiHeadAttention.__init__ default_name kw = ret self0.
Hypothesis Hheads : (0 < MultiHeadAttention.n_heads self0)%Z.
Hypothesis Hdmodel : (0 < MultiHeadAttention.dmodel self0)%Z.
Hypothesis Hbuild :
  MultiHeadAttention.build self0 ini (input_shapes n tq tk dq dk_in) = ret self.
Hypothesis Hdq : (0 < dq)%nat.
Hypothesis Hdk : (0 < dk_in)%nat.
Hypothesis Hquery : K.has_shape3 n tq dq query = true.
Hypothesis Hkey : K.has_shape3 n tk dk_in key = true.
Hypothesis Hmask : masks_fit n tq tk mask = true.

Local Abbreviation h := (Z.to_nat (MultiHeadAttention.n_heads self)).
Local Abbreviation d := (Z.to_nat (MultiHeadAttention.dk self)).

(** The trace of the call, with what is known of it. *)
Lemma call_trace_masked_inputs :
  exists tr,
    MultiHeadAttention.call_trace self noise (query, key) mask = ret tr
    /\ trace_ok self noise n tq tk dq dk_in tr
    /\ (forall b i, (b < n)%nat -> (i < tq)%nat ->
                    MultiHeadAttention.all_zero (row3 (MultiHeadAttention.query_in tr) b i)
                    = MultiHeadAttention.all_zero (row3 query b i)
                      || query_mask_off mask b i)
    /\ (forall b j, (b < n)%nat -> (j < tk)%nat ->
                    MultiHeadAttention.all_zero (row3 (MultiHeadAttention.key_in tr) b j)
                    = MultiHeadAttention.all_zero (row3 key b j)
                      || key_mask_off mask b j).
Proof.
  destruct (call_trace_ok default_name kw self0 self ini n tq tk dq dk_in query key mask
              noise Hinit Hheads Hdmodel Hbuild Hdq Hdk Hquery Hkey Hmask)
    as (tr & Htr & Hok & _ & _).
  exists tr. split; [exact Htr|]. split; [exact Hok|].
  apply (masked_inputs_zero self noise n tq tk dq dk_in query key mask tr); assumption.
Qed.

(** X5: the tensor handed to the softmax, entry by entry: for head
    [hh], sample [b], query position [i] and key position [j] it is
    [-2^32 + 1] when the key vector is entirely zero, when the key
    mask switches the key off, or when [mask_future] is set and
    [j > i]; at every other entry it is the scaled dot product of the
    head's slices of the projected query and key, untouched by the
    maskings. *)
Theorem mha_softmax_input_entries :
  exists tr,
    MultiHeadAttention.call_trace self noise (query, key) mask = ret tr
    /\ forall hh b i j,
        (hh < h)%nat -> (b < n)%nat -> (i < tq)%nat -> (j < tk)%nat ->
        get3 (MultiHeadAttention.logits tr) (hh * n + b) i j
        = Some (if MultiHeadAttention.all_zero (row3 key b j)
                   || key_mask_off mask b j
                   || (MultiHeadAttention.mask_future self0 && (i <? j)%nat)
                then - 2 ^ 32 + 1
                else K.dotp (MultiHeadAttention.head_slice
                               d hh (row3 (MultiHeadAttention.queries tr) b i))
                            (MultiHeadAttention.head_slice
                               d hh (row3 (MultiHeadAttention.keys tr) b j))
                     / sqrt (IZR (MultiHeadAttention.dk self))).
Proof.
  destruct call_trace_masked_inputs as (tr & Htr & Hok & _ & Hkz).
  exists tr. split; [exact Htr|].
  intros hh b i j Hh Hb Hi Hj.
  destruct (build_inv _ _ _ _ _ _ _ _ Hbuild) as (_ & _ & _ & _ & Emf & _).
  destruct (logits_get self n tq tk dq dk_in noise Hdq Hdk tr hh b i j Hok Hh Hb Hi Hj)
    as (s & Hs & Hl).
  rewrite Hl, (Hkz b j Hb Hj), Emf. f_equal.
  destruct (MultiHeadAttention.all_zero (row3 key b j) || key_mask_off mask b j
            || (MultiHeadAttention.mask_future self0 && (i <? j)%nat)); [reflexivity|].
  rewrite (get3_sample _ _ _ _ _ (scores_nth _ _ _ _ _ _ _ _ Hok hh b Hh Hb)) in Hs.
  destruct (shape3_nth _ _ _ _ _ (ok_queries _ _ _ _ _ _ _ _ Hok) Hb) as (_ & _ & HQ).
  destruct (shape3_nth _ _ _ _ _ (ok_keys _ _ _ _ _ _ _ _ Hok) Hb) as (_ & _ & HK).
  apply has_shape2_spec in HQ. apply has_shape2_spec in HK.
  rewrite sample_scores_get in Hs by (rewrite length_map; lia).
  injection Hs as <-. unfold row3.
  rewrite (nth_map_lt _ _ i [] []) by lia.
  rewrite (nth_map_lt _ _ j [] []) by lia.
  reflexivity.
Qed.

(** X6: every query position that [compute_mask] reports as masked
    (entry 0 of the propagated mask: the query mask switches it off
    or, without a query mask, its vector is entirely zero) attends
    to nothing: in every head its attention weights are all zero
    and its attended vector is the zero vector. *)
Theorem mha_masked_positions_attend_to_nothing :
  exists tr,
    MultiHeadAttention.call_trace self noise (query, key) mask = ret tr
    /\ forall hh b i,
        (hh < h)%nat -> (b < n)%nat -> (i < tq)%nat ->
        get_entry (MultiHeadAttention.compute_mask self (query, key) mask) b i = Some 0 ->
        exists arow vrow,
          get2 (MultiHeadAttention.alphas tr) (hh * n + b) i = Some arow
          /\ length arow = tk
          /\ Forall (fun a => a = 0) arow
          /\ get2 (MultiHeadAttention.heads tr) (hh * n + b) i = Some vrow
          /\ Forall (fun v => v = 0) vrow.
Proof.
  destruct call_trace_masked_inputs as (tr & Htr & Hok & Hqz & _).
  exists tr. split; [exact Htr|].
  intros hh b i Hh Hb Hi Hm0.
  assert (Hz : MultiHeadAttention.all_zero
                 (nth i (nth b (MultiHeadAttention.query_in tr) []) []) = true).
  { change (MultiHeadAttention.all_zero
              (row3 (MultiHeadAttention.query_in tr) b i) = true).
    rewrite (Hqz b i Hb Hi).
    destruct (mha_compute_mask_entries self n tq tk dq query key mask Hquery Hmask)
      as (_ & He).
    rewrite (He b i Hb Hi) in Hm0.
    destruct mask as [[[m0|] m1]|];
      match type of Hm0 with
      | Some (if ?c then _ else _) = _ =>
          destruct c eqn:Hc; [|injection Hm0; lra]
      end;
      rewrite ?Hc; auto using orb_true_r. }
  destruct (sample_alphas_zero_row
              self (noise (hh * n + b)%nat) tq tk
              (nth b (MultiHeadAttention.query_in tr) [])
              (MultiHeadAttention.sample_logits
                 self (nth b (MultiHeadAttention.key_in tr) [])
                 (MultiHeadAttention.sample_scores
                    self
                    (map (MultiHeadAttention.head_slice d hh)
                         (nth b (MultiHeadAttention.queries tr) []))
                    (map (MultiHeadAttention.head_slice d hh)
                         (nth b (MultiHeadAttention.keys tr) []))))
              i) as (arow & Ha & Hlen & Hzero); try assumption.
  { apply sample_logits_shape.
    apply (sample_scores_shape_at _ _ _ _ _ _ _ _ Hok); assumption. }
  pose proof (alphas_nth _ _ _ _ _ _ _ _ Hok hh b Hh Hb) as HA.
  pose proof (heads_nth _ _ _ _ _ _ _ _ Hok hh b Hh Hb) as HH.
  unfold MultiHeadAttention.head_output, MultiHeadAttention.head_attention in HH.
  destruct (shape3_nth _ _ _ _ _ (ok_query _ _ _ _ _ _ _ _ Hok) Hb) as (Hn & _ & _).
  rewrite Hn in HH.
  destruct (matmul_zero_row _
              (map (MultiHeadAttention.head_slice
                      (Z.to_nat (MultiHeadAttention.dv self)) hh)
                   (nth b (MultiHeadAttention.values tr) []))
              i arow Ha Hzero) as (vrow & Hv & _ & Hvz).
  exists arow, vrow. unfold get2. rewrite HA, HH.
  repeat split; assumption.
Qed.

(** X7: without dropout and with at least one key position, the
    attention weights of every query position that is neither an
    entirely zero vector nor switched off by the query mask are the
    softmax of its row of logits: one positive weight per key,
    summing to 1, in every head. *)
Theorem mha_attention_weights_are_a_distribution :
  ~ 0 < MultiHeadAttention.dropout self ->
  (0 < tk)%nat ->
  exists tr,
    MultiHeadAttention.call_trace self noise (query, key) mask = ret tr
    /\ forall hh b i,
        (hh < h)%nat -> (b < n)%nat -> (i < tq)%nat ->
        MultiHeadAttention.all_zero (row3 query b i) = false ->
        query_mask_off mask b i = false ->
        exists lrow arow,
          get2 (MultiHeadAttention.logits tr) (hh * n + b) i = Some lrow
          /\ get2 (MultiHeadAttention.alphas tr) (hh * n + b) i = Some arow
          /\ arow = K.softmax1 lrow
          /\ length arow = tk
          /\ Forall (fun a => 0 < a) arow
          /\ K.sum arow = 1.
Proof.
  intros Hdrop Htk.
  destruct call_trace_masked_inputs as (tr & Htr & Hok & Hqz & _).
  exists tr. split; [exact Htr|].
  intros hh b i Hh Hb Hi Hnz Hon.
  pose proof (logits_nth _ _ _ _ _ _ _ _ Hok hh b Hh Hb) as HL.
  pose proof (alphas_nth _ _ _ _ _ _ _ _ Hok hh b Hh Hb) as HA.
  set (L := MultiHeadAttention.sample_logits
              self (nth b (MultiHeadAttention.key_in tr) [])
              (MultiHeadAttention.sample_scores
                 self
                 (map (MultiHeadAttention.head_slice d hh)
                      (nth b (MultiHeadAttention.queries tr) []))
                 (map (MultiHeadAttention.head_slice d hh)
                      (nth b (MultiHeadAttention.keys tr) [])))) in *.
  assert (HLs : K.has_shape2 tq tk L = true).
  { apply sample_logits_shape.
    apply (sample_scores_shape_at _ _ _ _ _ _ _ _ Hok); assumption. }
  apply has_shape2_spec in HLs. destruct HLs as [HLn HLr].
  rewrite Forall_forall in HLr.
  assert (Hrow : nth_error L i = Some (nth i L [])) by (apply nth_error_nth'; lia).
  assert (Hlen : length (nth i L []) = tk) by (apply HLr, nth_In; lia).
  assert (Hne : nth i L [] <> []).
  { intros E. rewrite E in Hlen. simpl in Hlen. lia. }
  exists (nth i L []), (K.softmax1 (nth i L [])).
  unfold get2. rewrite HL, HA.
  split; [exact Hrow|]. split.
  - apply sample_alphas_live_row; [exact Hdrop|exact Hrow|].
    change (MultiHeadAttention.all_zero
              (row3 (MultiHeadAttention.query_in tr) b i) = false).
    rewrite (Hqz b i Hb Hi), Hnz, Hon. reflexivity.
  - split; [reflexivity|]. split; [rewrite softmax1_length; exact Hlen|].
    split; [apply softmax1_pos; exact Hne|apply softmax1_sum; exact Hne].
Qed.

(** X8: for inputs with at least one key position, [call] returns a
    tensor of shape [(N, T_q, dmodel)], the shape announced by
    [compute_output_shape], and [compute_mask] returns a mask of
    shape [(N, T_q)]. *)
Theorem mha_call_output_shape :
  (0 < tk)%nat ->
  exists out,
    MultiHeadAttention.call self noise (query, key) mask = ret out
    /\ K.has_shape3 n tq (Z.to_nat (MultiHeadAttention.dmodel self)) out = true
    /\ MultiHeadAttention.compute_output_shape self (input_shapes n tq tk dq dk_in)
       = ret [Some (Z.of_nat n); Some (Z.of_nat tq); Some (MultiHeadAttention.dmodel self)]
    /\ K.has_shape2 n tq (MultiHeadAttention.compute_mask self (query, key) mask) = true.
Proof.
  intros Htk.
  destruct call_trace_masked_inputs as (tr & Htr & Hok & _ & _).
  exists (MultiHeadAttention.output tr).
  split; [unfold MultiHeadAttention.call; rewrite Htr; reflexivity|].
  split; [|split].
  - destruct (init_inv _ _ _ Hinit) as (Hnz & Hmod & Hdk0 & Hdv0).
    destruct (build_inv _ _ _ _ _ _ _ _ Hbuild)
      as (En & Edm & Edk & Edv & _ & fq & fk & fv & fo & gq & gk & gv & go & HW).
    cbv zeta in HW.
    destruct HW as (_ & _ & _ & Hlo & _ & _ & _ & Hbo).
    rewrite <- En, <- Edm, <- Edk, <- Edv in *.
    assert (Hmul : (MultiHeadAttention.dv self * MultiHeadAttention.n_heads self
                    = MultiHeadAttention.dmodel self)%Z).
    { rewrite Hdv0.
      pose proof (Z.div_mod (MultiHeadAttention.dmodel self)
                            (MultiHeadAttention.n_heads self) Hnz). lia. }
    rewrite Hmul in Hlo.
    pose proof (restored_shape _ _ _ _ _ _ _ _ Hok Htk) as Hrs.
    destruct (linear_built self (MultiHeadAttention.restored tr) n tq
                (Z.to_nat (MultiHeadAttention.dmodel self))
                (Z.to_nat (MultiHeadAttention.dmodel self)) fo go Hrs ltac:(lia))
      as (P & HP & HPs).
    pose proof (ok_output _ _ _ _ _ _ _ _ Hok) as Hout.
    rewrite Hlo, Hbo, HP in Hout. injection Hout as <-. exact HPs.
  - unfold MultiHeadAttention.compute_output_shape, input_shapes.
    destruct dq as [|dq']; [lia|]. reflexivity.
  - apply (mha_compute_mask_entries self n tq tk dq query key mask Hquery Hmask).
Qed.

Local Abbreviation suppressed b i j :=
  (MultiHeadAttention.all_zero (row3 key b j)
   || key_mask_off mask b j
   || (MultiHeadAttention.mask_future self0 && (i <? j)%nat)).







End Called.

(** ** The further theorems at the example layer *)

(** The property at the example layer and the second inputs, with the input
    masks: key 0 is neither zero nor switched off nor behind query
    1, and keeps its score; key 1 lies behind query 0. *)
Lemma mha_softmax_input_entries_witness :
  exists tr,
    MultiHeadAttention.call_trace mha_example mha_example_noise
      (mha_example_query2, mha_example_key2) mha_example_mask = ret tr
    /\ get3 (MultiHeadAttention.logits tr) 1 1 0
       = Some (K.dotp (MultiHeadAttention.head_slice
                         1 1 (row3 (MultiHeadAttention.queries tr) 0 1))
                      (MultiHeadAttention.head_slice
                         1 1 (row3 (MultiHeadAttention.keys tr) 0 0))
               / sqrt (IZR 1))
    /\ get3 (MultiHeadAttention.logits tr) 1 0 1 = Some (- 2 ^ 32 + 1).
Proof.
  destruct (mha_softmax_input_entries
              "multi_head_attention_1" mha_example_kwargs mha_example_constructed
              mha_example mha_example_initial 1 2 2 1 1
              mha_example_query2 mha_example_key2 mha_example_mask mha_example_noise
              eq_refl eq_refl eq_refl eq_refl ltac:(lia) ltac:(lia)
              eq_refl eq_refl eq_refl)
    as (tr & Htr & H).
  exists tr. split; [exact Htr|]. split.
  - etransitivity; [apply (H 1 0 1 0)%nat; simpl; lia|].
    unfold row3, MultiHeadAttention.all_zero. simpl.
    rewrite is_zero_1. reflexivity.
  - etransitivity; [apply (H 1 0 0 1)%nat; simpl; lia|].
    unfold row3, MultiHeadAttention.all_zero. simpl.
    unfold K.is_zero. destruct (Req_dec_T 3 0); [lra|]. reflexivity.
Defined.

(** The property at the example layer: the query mask switches the first query
    position off. *)
Lemma mha_masked_positions_attend_to_nothing_witness :
  exists tr,
    MultiHeadAttention.call_trace mha_example mha_example_noise
      (mha_example_query2, mha_example_key2) mha_example_mask = ret tr
    /\ exists arow vrow,
        get2 (MultiHeadAttention.alphas tr) 1 0 = Some arow
        /\ length arow = 2%nat
        /\ Forall (fun a => a = 0) arow
        /\ get2 (MultiHeadAttention.heads tr) 1 0 = Some vrow
        /\ Forall (fun v => v = 0) vrow.
Proof.
  destruct (mha_masked_positions_attend_to_nothing
              "multi_head_attention_1" mha_example_kwargs mha_example_constructed
              mha_example mha_example_initial 1 2 2 1 1
              mha_example_query2 mha_example_key2 mha_example_mask mha_example_noise
              eq_refl eq_refl eq_refl eq_refl ltac:(lia) ltac:(lia)
              eq_refl eq_refl eq_refl)
    as (tr & Htr & H).
  exists tr. split; [exact Htr|].
  apply (H 1 0 0)%nat; try (simpl; lia).
  reflexivity.
Defined.

Lemma mha_example_query2_1_nonzero :
  MultiHeadAttention.all_zero (row3 mha_example_query2 0 1) = false.
Proof.
  unfold row3, MultiHeadAttention.all_zero. simpl.
  unfold K.is_zero. destruct (Req_dec_T 2 0); [lra|]. reflexivity.
Qed.

Lemma mha_example_no_dropout : ~ 0 < MultiHeadAttention.dropout mha_example.
Proof. simpl. lra. Qed.

(** ** The masking theorems at the example layer *)









(** The property at the example layer: the second query position is neither
    zero nor switched off. *)
Lemma mha_attention_weights_are_a_distribution_witness :
  exists tr,
    MultiHeadAttention.call_trace mha_example mha_example_noise
      (mha_example_query2, mha_example_key2) mha_example_mask = ret tr
    /\ exists lrow arow,
        get2 (MultiHeadAttention.logits tr) 1 1 = Some lrow
        /\ get2 (MultiHeadAttention.alphas tr) 1 1 = Some arow
        /\ arow = K.softmax1 lrow
        /\ length arow = 2%nat
        /\ Forall (fun a => 0 < a) arow
        /\ K.sum arow = 1.
Proof.
  destruct (mha_attention_weights_are_a_distribution
              "multi_head_attention_1" mha_example_kwargs mha_example_constructed
              mha_example mha_example_initial 1 2 2 1 1
              mha_example_query2 mha_example_key2 mha_example_mask mha_example_noise
              eq_refl eq_refl eq_refl eq_refl ltac:(lia) ltac:(lia)
              eq_refl eq_refl eq_refl mha_example_no_dropout ltac:(lia))
    as (tr & Htr & H).
  exists tr. split; [exact Htr|].
  apply (H 1 0 1)%nat; try (simpl; lia).
  exact mha_example_query2_1_nonzero.
Defined.

(** The property at the example layer. *)
Lemma mha_call_output_shape_witness :
  exists out,
    MultiHeadAttention.call mha_example mha_example_noise
      (mha_example_query2, mha_example_key2) mha_example_mask = ret out
    /\ K.has_shape3 1 2 2 out = true.
Proof.
  destruct (mha_call_output_shape
              "multi_head_attention_1" mha_example_kwargs mha_example_constructed
              mha_example mha_example_initial 1 2 2 1 1
              mha_example_query2 mha_example_key2 mha_example_mask mha_example_noise
              eq_refl eq_refl eq_refl eq_refl ltac:(lia) ltac:(lia)
              eq_refl eq_refl eq_refl ltac:(lia))
    as (out & Hout & Hs & _).
  exists out. split; [exact Hout|exact Hs].
Defined.

(** ** The samples of a batch *)

(** A projection of [call] works sample by sample. *)
Lemma linear_nth_error (self : MultiHeadAttention.t) (x x' : tensor3)
      (kernel : option tensor2) (bias : option tensor1) (P P' : tensor3) (b : nat) :
  MultiHeadAttention.linear self x kernel bias = ret P ->
  MultiHeadAttention.linear self x' kernel bias = ret P' ->
  nth_error x b = nth_error x' b ->
  nth_error P b = nth_error P' b.
Proof.
  unfold MultiHeadAttention.linear.
  destruct kernel as [w|]; [|discriminate].
  destruct (MultiHeadAttention.use_bias self).
  - destruct bias as [bs|]; [|discriminate].
    intros H H' E. injection H as <-. injection H' as <-.
    unfold K.map3, K.bias_add, K.dot. rewrite !nth_error_map, E. reflexivity.
  - intros H H' E. injection H as <-. injection H' as <-.
    unfold K.map3, K.dot. rewrite !nth_error_map, E. reflexivity.
Qed.

(** The projections recorded in the trace of a call. *)
Lemma call_trace_projections (self : MultiHeadAttention.t) (noise : nat -> nat -> nat -> R)
      (inputs : tensor3 * tensor3) (mask : MultiHeadAttention.masks)
      (tr : MultiHeadAttention.trace) :
  MultiHeadAttention.call_trace self noise inputs mask = ret tr ->
  MultiHeadAttention.linear self (MultiHeadAttention.query_in tr)
                            (MultiHeadAttention.linear_q self)
                            (MultiHeadAttention.bias_q self)
  = ret (MultiHeadAttention.queries tr)
  /\ MultiHeadAttention.linear self (MultiHeadAttention.key_in tr)
                               (MultiHeadAttention.linear_k self)
                               (MultiHeadAttention.bias_k self)
     = ret (MultiHeadAttention.keys tr)
  /\ MultiHeadAttention.linear self (MultiHeadAttention.key_in tr)
                               (MultiHeadAttention.linear_v self)
                               (MultiHeadAttention.bias_v self)
     = ret (MultiHeadAttention.values tr).
Proof.
  unfold MultiHeadAttention.call_trace.
  destruct (MultiHeadAttention.linear self _ (MultiHeadAttention.linear_q self) _)
    as [|Q] eqn:HQ; [discriminate|].
  cbn [bind].
  destruct (MultiHeadAttention.linear self _ (MultiHeadAttention.linear_k self) _)
    as [|Kp] eqn:HK; [discriminate|].
  cbn [bind].
  destruct (MultiHeadAttention.linear self _ (MultiHeadAttention.linear_v self) _)
    as [|V] eqn:HV; [discriminate|].
  cbn [bind].
  destruct (MultiHeadAttention.linear self _ (MultiHeadAttention.linear_o self) _);
    [discriminate|].
  cbn [bind]. intros H. injection H as <-.
  cbn [MultiHeadAttention.query_in MultiHeadAttention.key_in MultiHeadAttention.queries
       MultiHeadAttention.keys MultiHeadAttention.values].
  repeat split; assumption.
Qed.

Lemma nth_nth_error_eq {A : Type} (l l' : list A) (b : nat) (d : A) :
  nth_error l b = nth_error l' b -> nth b l d = nth b l' d.
Proof.
  intros E. rewrite <- !nth_default_eq. unfold nth_default. rewrite E. reflexivity.
Qed.

Lemma scale_rows_nth_error (x x' : tensor3) (m : tensor2) (b : nat) :
  nth_error x b = nth_error x' b ->
  nth_error (K.scale_rows x m) b = nth_error (K.scale_rows x' m) b.
Proof. intros E. unfold K.scale_rows. rewrite !nth_error_map2, E. reflexivity. Qed.

Section Batch.

Variables (default_name : string) (kw : dict) (self0 self : MultiHeadAttention.t)
          (ini : MultiHeadAttention.initial) (n tq tk dq dk_in : nat)
          (query key query' key' : tensor3) (mask : MultiHeadAttention.masks)
          (noise : nat -> nat -> nat -> R).

Hypothesis Hinit : MultiHeadAttention.__init__ default_name kw = ret self0.
Hypothesis Hheads : (0 < MultiHeadAttention.n_heads self0)%Z.
Hypothesis Hdmodel : (0 < MultiHeadAttention.dmodel self0)%Z.
Hypothesis Hbuild :
  MultiHeadAttention.build self0 ini (input_shapes n tq tk dq dk_in) = ret self.
Hypothesis Hdq : (0 < dq)%nat.
Hypothesis Hdk : (0 < dk_in)%nat.
Hypothesis Hquery : K.has_shape3 n tq dq query = true.
Hypothesis Hkey : K.has_shape3 n tk dk_in key = true.
Hypothesis Hquery' : K.has_shape3 n tq dq query' = true.
Hypothesis Hkey' : K.has_shape3 n tk dk_in key' = true.
Hypothesis Hmask : masks_fit n tq tk mask = true.

(** X9: the samples of a batch are processed independently: two
    batches of the same shape, with the same input masks, that hold
    the same query and key matrices at sample [b] give the same
    output at sample [b], whatever the other samples are. *)
Theorem mha_samples_are_independent :
  forall b,
    (b < n)%nat ->
    nth b query [] = nth b query' [] ->
    nth b key [] = nth b key' [] ->
    exists out out',
      MultiHeadAttention.call self noise (query, key) mask = ret out
      /\ MultiHeadAttention.call self noise (query', key') mask = ret out'
      /\ nth b out [] = nth b out' [].
Proof.
  intros b Hb Eq Ek.
  destruct (call_trace_ok default_name kw self0 self ini n tq tk dq dk_in query key mask
              noise Hinit Hheads Hdmodel Hbuild Hdq Hdk Hquery Hkey Hmask)
    as (tr & Htr & Hok & _ & _).
  destruct (call_trace_ok default_name kw self0 self ini n tq tk dq dk_in query' key' mask
              noise Hinit Hheads Hdmodel Hbuild Hdq Hdk Hquery' Hkey' Hmask)
    as (tr' & Htr' & Hok' & _ & _).
  exists (MultiHeadAttention.output tr), (MultiHeadAttention.output tr').
  split; [unfold MultiHeadAttention.call; rewrite Htr; reflexivity|].
  split; [unfold MultiHeadAttention.call; rewrite Htr'; reflexivity|].
  destruct (shape3_nth _ _ _ _ _ Hquery Hb) as (Hn & Hqb & _).
  destruct (shape3_nth _ _ _ _ _ Hquery' Hb) as (Hn' & Hqb' & _).
  destruct (shape3_nth _ _ _ _ _ Hkey Hb) as (_ & Hkb & _).
  destruct (shape3_nth _ _ _ _ _ Hkey' Hb) as (_ & Hkb' & _).
  assert (Eq' : nth_error query b = nth_error query' b) by congruence.
  assert (Ek' : nth_error key b = nth_error key' b) by congruence.
  destruct (call_trace_inputs _ _ _ _ _ _ Htr) as [Hqi Hki].
  destruct (call_trace_inputs _ _ _ _ _ _ Htr') as [Hqi' Hki'].
  assert (Eqi : nth_error (MultiHeadAttention.query_in tr) b
                = nth_error (MultiHeadAttention.query_in tr') b).
  { rewrite Hqi, Hqi'. destruct mask as [[[m0|] m1]|]; try exact Eq'.
    apply scale_rows_nth_error. exact Eq'. }
  assert (Eki : nth_error (MultiHeadAttention.key_in tr) b
                = nth_error (MultiHeadAttention.key_in tr') b).
  { rewrite Hki, Hki'. destruct mask as [[m0 [m1|]]|]; try exact Ek'.
    apply scale_rows_nth_error. exact Ek'. }
  destruct (call_trace_projections _ _ _ _ _ Htr) as (HQ & HK & HV).
  destruct (call_trace_projections _ _ _ _ _ Htr') as (HQ' & HK' & HV').
  pose proof (linear_nth_error _ _ _ _ _ _ _ b HQ HQ' Eqi) as EQ.
  pose proof (linear_nth_error _ _ _ _ _ _ _ b HK HK' Eki) as EK.
  pose proof (linear_nth_error _ _ _ _ _ _ _ b HV HV' Eki) as EV.
  apply nth_nth_error_eq.
  apply (linear_nth_error self (MultiHeadAttention.restored tr)
           (MultiHeadAttention.restored tr') (MultiHeadAttention.linear_o self)
           (MultiHeadAttention.bias_o self));
    [exact (ok_output _ _ _ _ _ _ _ _ Hok)|exact (ok_output _ _ _ _ _ _ _ _ Hok')|].
  rewrite (restored_side_by_side _ _ _ _ _ _ _ _ Hok).
  rewrite (restored_side_by_side _ _ _ _ _ _ _ _ Hok').
  unfold MultiHeadAttention.heads_side_by_side.
  destruct (shape3_nth _ _ _ _ _ (ok_query _ _ _ _ _ _ _ _ Hok) Hb) as (Hl & _ & _).
  destruct (shape3_nth _ _ _ _ _ (ok_query _ _ _ _ _ _ _ _ Hok') Hb) as (Hl' & _ & _).
  rewrite !nth_error_map, Hl, Hl'.
  rewrite nth_error_seq. destruct (b <? n)%nat eqn:Hlt; [|apply Nat.ltb_ge in Hlt; lia].
  cbn [option_map Nat.add]. f_equal.
  unfold MultiHeadAttention.head_output. rewrite Hl, Hl'.
  rewrite (nth_nth_error_eq _ _ b [] Eqi), (nth_nth_error_eq _ _ b [] Eki),
    (nth_nth_error_eq _ _ b [] EQ), (nth_nth_error_eq _ _ b [] EK),
    (nth_nth_error_eq _ _ b [] EV).
  reflexivity.
Qed.

End Batch.

(** The property at the example layer and two batches that agree at sample 0
    only. *)
Lemma mha_samples_are_independent_witness :
  exists out out',
    MultiHeadAttention.call mha_example mha_example_noise
      (mha_batch_query, mha_batch_key) None = ret out
    /\ MultiHeadAttention.call mha_example mha_example_noise
         (mha_batch_query', mha_batch_key') None = ret out'
    /\ nth 0 out [] = nth 0 out' [].
Proof.
  apply (mha_samples_are_independent
           "multi_head_attention_1" mha_example_kwargs mha_example_constructed
           mha_example mha_example_initial 2 2 2 1 1
           mha_batch_query mha_batch_key mha_batch_query' mha_batch_key' None
           mha_example_noise
           eq_refl eq_refl eq_refl eq_refl ltac:(lia) ltac:(lia)
           eq_refl eq_refl eq_refl eq_refl eq_refl 0%nat ltac:(lia) eq_refl eq_refl).
Defined.

(* ================================================================= *)
(** * Further properties of [SoftAttention] *)

Lemma scale_rows_shape2 (n t d : nat) (x : tensor3) (m : tensor2) :
  K.has_shape3 n t d x = true -> K.has_shape2 n t m = true ->
  K.has_shape3 n t d (K.scale_rows x m) = true.
Proof.
  intros Hx Hm. apply has_shape3_spec in Hx. destruct Hx as [Hn Hx].
  rewrite Forall_forall in Hx.
  apply has_shape2_spec in Hm. destruct Hm as [Hmn Hmr]. rewrite Forall_forall in Hmr.
  apply has_shape3_spec. unfold K.scale_rows.
  rewrite length_map2, Hn, Hmn. split; [apply Nat.min_id|].
  apply Forall_map2. intros xm mr Hxm Hmr'.
  destruct (Hx xm Hxm) as [Hlen Hrows].
  rewrite length_map2, Hlen, (Hmr mr Hmr'). split; [apply Nat.min_id|].
  apply Forall_map2. intros row s Hrow _. rewrite length_map.
  rewrite Forall_forall in Hrows. apply Hrows. exact Hrow.
Qed.

Lemma ncols_scaled (X : tensor2) (alpha : tensor1) :
  length X = length alpha ->
  K.ncols (K.map2 (fun row s => map (fun v => v * s) row) X alpha) = K.ncols X.
Proof.
  destruct X as [|r X], alpha as [|a alpha]; simpl; try discriminate; try reflexivity.
  intros _. apply length_map.
Qed.

(** The summed attended representation of sample [b] is the weighted
    sum [phi] of the sample's input vectors. *)
Lemma sum_axis1_scale_rows_nth (n t d : nat) (x : tensor3) (alphas : tensor2) (b : nat) :
  K.has_shape3 n t d x = true -> K.has_shape2 n t alphas = true -> (b < n)%nat ->
  nth_error (K.sum_axis1 (K.scale_rows x alphas)) b
  = Some (SoftAttention.phi (nth b alphas []) (nth b x [])).
Proof.
  intros Hx Ha Hb.
  destruct (shape3_nth _ _ _ _ _ Hx Hb) as (Hn & Hxb & Hxs).
  apply has_shape2_spec in Ha. destruct Ha as [Han Har]. rewrite Forall_forall in Har.
  apply has_shape2_spec in Hxs. destruct Hxs as [Hxl _].
  unfold K.sum_axis1, K.scale_rows.
  rewrite nth_error_map, nth_error_map2, Hxb.
  rewrite (nth_error_nth' alphas []) by lia.
  cbn [option_map]. f_equal. apply weighted_columns.
  rewrite Hxl. symmetry. apply Har, nth_In. lia.
Qed.

(** X10: for inputs of shape [(n, t, d)] with at least one position,
    the two results of [attention_step] have the two shapes that
    [get_output_shape_for] announces: [(n, d)] for the summed
    attended representation ([(n, t, d)] when it is kept per
    position) and [(n, t)] for the attention weights. *)
Theorem soft_attention_output_shapes :
  forall (self : SoftAttention.t) (x : tensor3)
         (constants : SoftAttention.multiplier * tensor2) (n t d : nat)
         (context_shape : list shape),
    K.has_shape3 n t d x = true ->
    (0 < t)%nat ->
    constants_fit self n t constants = true ->
    exists dim_x_att dim_alpha_att,
      SoftAttention.get_output_shape_for self ([Some n; Some t; Some d] :: context_shape)
      = ret (dim_x_att, dim_alpha_att)
      /\ attended_has_shape dim_x_att (fst (SoftAttention.attention_step self x constants))
         = true
      /\ tensor2_has_shape dim_alpha_att
                           (snd (SoftAttention.attention_step self x constants))
         = true.
Proof.
  intros self x constants n t d context_shape Hx Ht Hc.
  pose proof (attention_step_alphas_shape self x constants n t d Hx Hc) as Hs.
  revert Hs. unfold SoftAttention.attention_step, SoftAttention.get_output_shape_for.
  set (alphas := K.softmax _).
  destruct (SoftAttention.sum_weighted_output self); cbn; intros Hs.
  - do 2 eexists. split; [reflexivity|]. split; [|exact Hs].
    cbn. apply has_shape2_spec. unfold K.sum_axis1.
    rewrite length_map. split.
    + pose proof (scale_rows_shape2 n t d x alphas Hx Hs) as Hsc.
      apply has_shape3_spec in Hsc. apply Hsc.
    + rewrite Forall_map. apply Forall_forall. intros m Hm.
      rewrite length_map, length_seq.
      pose proof (scale_rows_shape2 n t d x alphas Hx Hs) as Hsc.
      apply has_shape3_spec in Hsc. destruct Hsc as [_ Hsc].
      rewrite Forall_forall in Hsc.
      apply (ncols_shape t); [|exact Ht].
      apply has_shape2_spec. apply Hsc. exact Hm.
  - do 2 eexists. split; [reflexivity|]. split; [|exact Hs].
    cbn. apply scale_rows_shape2; assumption.
Qed.

(** The property at the example layer. *)
Lemma soft_attention_output_shapes_witness :
  exists dim_x_att dim_alpha_att,
    SoftAttention.get_output_shape_for soft_example
      [[Some 1%nat; Some 2%nat; Some 2%nat]; [Some 1%nat; Some 1%nat]]
    = ret (dim_x_att, dim_alpha_att)
    /\ attended_has_shape dim_x_att
         (fst (SoftAttention.attention_step soft_example soft_example_x
                                            soft_example_constants)) = true
    /\ tensor2_has_shape dim_alpha_att
         (snd (SoftAttention.attention_step soft_example soft_example_x
                                            soft_example_constants)) = true.
Proof.
  apply (soft_attention_output_shapes soft_example soft_example_x soft_example_constants
           1 2 2 [[Some 1%nat; Some 1%nat]] eq_refl ltac:(lia) eq_refl).
Defined.

Lemma weighted_sum_bounds {A : Type} (f : A -> R) (lo hi : R) (alpha : tensor1)
      (X : list A) :
  length alpha = length X ->
  Forall (fun a => 0 <= a) alpha ->
  (forall x, In x X -> lo <= f x <= hi) ->
  lo * K.sum alpha <= K.sum (K.map2 (fun a x => a * f x) alpha X) <= hi * K.sum alpha.
Proof.
  revert X. induction alpha as [|a alpha IH]; intros [|x X] Hlen Hpos Hb;
    try discriminate Hlen.
  - cbn. lra.
  - inversion Hpos as [|? ? Ha Hpos']. subst.
    specialize (IH X ltac:(simpl in Hlen; lia) Hpos'
                   (fun y Hy => Hb y (or_intror Hy))).
    pose proof (Hb x (or_introl eq_refl)) as Hx.
    unfold K.map2 in *. cbn [combine map K.sum fold_right fst snd] in *.
    unfold K.sum in IH. nra.
Qed.

(** X11: with [sum_weighted_output], every component of the attended
    vector of a sample lies within the range that the component
    takes over the sample's input positions: the attended vector is
    a convex combination of the input vectors. *)
Theorem soft_attention_stays_in_input_range :
  forall (self : SoftAttention.t) (x : tensor3)
         (constants : SoftAttention.multiplier * tensor2) (n t d : nat),
    K.has_shape3 n t d x = true ->
    (0 < t)%nat ->
    constants_fit self n t constants = true ->
    SoftAttention.sum_weighted_output self = true ->
    exists ctx,
      fst (SoftAttention.attention_step self x constants) = SoftAttention.Summed ctx
      /\ forall b c lo hi,
          (b < n)%nat -> (c < d)%nat ->
          (forall i, (i < t)%nat -> lo <= nth c (row3 x b i) 0 <= hi) ->
          lo <= nth c (nth b ctx []) 0 <= hi.
Proof.
  intros self x constants n t d Hx Ht Hc Hsum.
  pose proof (attention_step_alphas_shape self x constants n t d Hx Hc) as Hs.
  pose proof (attention_step_alphas self x constants) as Hal.
  revert Hs Hal. unfold SoftAttention.attention_step. rewrite Hsum. cbn [fst snd].
  set (alphas := K.softmax _). intros Hs Hal.
  eexists. split; [reflexivity|].
  intros b c lo hi Hb Hcd Hrange.
  pose proof (sum_axis1_scale_rows_nth n t d x alphas b Hx Hs Hb) as Hnth.
  rewrite (nth_error_nth _ _ _ Hnth).
  destruct (shape3_nth _ _ _ _ _ Hx Hb) as (Hn & Hxb & Hxs).
  pose proof (ncols_shape t d _ Hxs Ht) as Hnc.
  apply has_shape2_spec in Hxs. destruct Hxs as [Hxl Hxr].
  pose proof Hs as Hs'. apply has_shape2_spec in Hs'. destruct Hs' as [Han Har].
  rewrite Forall_forall in Har.
  assert (Hab : length (nth b alphas []) = t) by (apply Har, nth_In; lia).
  unfold SoftAttention.phi. rewrite Hnc.
  rewrite (nth_map_lt _ _ c 0%nat 0) by (rewrite length_seq; exact Hcd).
  rewrite seq_nth by exact Hcd. cbn [Nat.add].
  assert (Hrow : exists e, e <> [] /\ nth b alphas [] = K.softmax1 e).
  { subst alphas. unfold K.softmax in *.
    match goal with
    | |- context [map K.softmax1 ?E] => set (E0 := E) in *
    end.
    assert (Enth : nth b (map K.softmax1 E0) [] = K.softmax1 (nth b E0 []))
      by (apply (map_nth K.softmax1 E0 [] b)).
    exists (nth b E0 []). split; [|exact Enth].
    intros Z. rewrite Enth, Z in Hab. simpl in Hab. lia. }
  destruct Hrow as (e & He & Erow).
  pose proof (weighted_sum_bounds (fun x_i : tensor1 => nth c x_i 0) lo hi
                (nth b alphas []) (nth b x [])) as Hbd.
  rewrite Erow in Hbd |- *.
  rewrite (softmax1_sum e He) in Hbd.
  rewrite !Rmult_1_r in Hbd. apply Hbd.
  - rewrite <- Erow. lia.
  - apply softmax1_nonneg.
  - intros r Hr. apply In_nth with (d := []) in Hr. destruct Hr as (i & Hi & <-).
    apply Hrange. lia.
Qed.

(** The property at the example layer: both input vectors have their first
    component between 1 and 3. *)
Lemma soft_attention_stays_in_input_range_witness :
  exists ctx,
    fst (SoftAttention.attention_step soft_example soft_example_x soft_example_constants)
    = SoftAttention.Summed ctx
    /\ 1 <= nth 0 (nth 0 ctx []) 0 <= 3.
Proof.
  destruct (soft_attention_stays_in_input_range
              soft_example soft_example_x soft_example_constants 1 2 2
              eq_refl ltac:(lia) eq_refl eq_refl) as (ctx & Hctx & H).
  exists ctx. split; [exact Hctx|].
  apply (H 0%nat 0%nat 1 3); try lia.
  intros [|[|i]] Hi; try lia; unfold row3, soft_example_x; simpl; lra.
Defined.


(** ** The weights and the attended representation of [attention_step] *)

Lemma entries_by_index (n t : nat) (m : tensor2) (f : nat -> nat -> R) :
  length m = n ->
  (forall b, (b < n)%nat -> length (nth b m []) = t) ->
  (forall b i, (b < n)%nat -> (i < t)%nat -> nth i (nth b m []) 0 = f b i) ->
  m = map (fun b => map (f b) (seq 0 t)) (seq 0 n).
Proof.
  intros Hn Ht Hf.
  rewrite <- (map_nth_seq m []) at 1. rewrite Hn.
  apply map_ext_in. intros b Hb. apply in_seq in Hb.
  rewrite <- (map_nth_seq (nth b m []) 0) at 1. rewrite (Ht b) by lia.
  apply map_ext_in. intros i Hi. apply in_seq in Hi.
  apply Hf; lia.
Qed.

(** The tensor [e] of [attention_step], entry by entry. *)
Lemma attention_step_scores (self : SoftAttention.t) (x : tensor3)
      (constants : SoftAttention.multiplier * tensor2) (n t d : nat) :
  K.has_shape3 n t d x = true ->
  constants_fit self n t constants = true ->
  snd (SoftAttention.attention_step self x constants)
  = K.softmax (map (fun b => map (attention_score self x constants b) (seq 0 t)) (seq 0 n)).
Proof.
  intros Hx Hc. rewrite attention_step_alphas. f_equal.
  unfold constants_fit in Hc.
  apply andb_true_iff in Hc. destruct Hc as [Hc Hm].
  apply andb_true_iff in Hc. destruct Hc as [Hp Hca].
  apply Nat.eqb_eq in Hp. apply Nat.eqb_eq in Hca.
  assert (Hm' : match fst constants with
                | SoftAttention.Scalar _ => True
                | SoftAttention.Mask m => length m = t end).
  { destruct (fst constants); [exact I | apply Nat.eqb_eq; exact Hm]. }
  destruct (times_shape n t d x (fst constants) Hx Hm') as [Hlen Hrows].
  rewrite Forall_forall in Hrows.
  set (X := SoftAttention.times x (fst constants)) in *.
  set (P := K.map2 _ (snd constants) _).
  assert (HPlen : length P = n).
  { unfold P, K.dot. rewrite length_map2, length_map, Hp, Hlen. apply Nat.min_id. }
  assert (HPb : forall b, (b < n)%nat ->
            nth b P [] = map (fun row => K.map2 Rplus (nth b (snd constants) []) row)
                             (K.matmul (nth b X []) (SoftAttention.Wa self))).
  { intros b Hb. unfold P.
    rewrite (nth_map2_default _ _ _ b [] [] []);
      [|lia|unfold K.dot; rewrite length_map; lia].
    unfold K.dot. rewrite (nth_map_lt _ X b [] []) by lia. reflexivity. }
  assert (HXb : forall b, (b < n)%nat -> length (nth b X []) = t).
  { intros b Hb. apply Hrows, nth_In. lia. }
  apply entries_by_index.
  - unfold K.dot_vec, K.map3. rewrite !length_map. exact HPlen.
  - intros b Hb. unfold K.dot_vec, K.map3.
    rewrite (nth_map_lt _ _ b [] []) by (rewrite !length_map; lia).
    rewrite (nth_map_lt _ _ b [] []) by (rewrite length_map; lia).
    rewrite (nth_map_lt _ P b [] []) by lia.
    rewrite length_map2, !length_map, (HPb b Hb), length_map, length_matmul, (HXb b Hb), Hca.
    apply Nat.min_id.
  - intros b i Hb Hi. unfold K.dot_vec, K.map3.
    rewrite (nth_map_lt _ _ b [] []) by (rewrite !length_map; lia).
    rewrite (nth_map_lt _ _ b [] []) by (rewrite length_map; lia).
    rewrite (nth_map_lt _ P b [] []) by lia.
    rewrite (HPb b Hb).
    assert (Hmm : length (K.matmul (nth b X []) (SoftAttention.Wa self)) = t).
    { rewrite length_matmul. apply HXb; exact Hb. }
    rewrite (nth_map2_default _ _ _ i 0 0 0); [|rewrite !length_map; lia|lia].
    rewrite (nth_map_lt _ _ i [] 0) by (rewrite !length_map; lia).
    rewrite (nth_map_lt _ _ i [] []) by (rewrite length_map; lia).
    rewrite (nth_map_lt _ _ i [] []) by lia.
    unfold K.matmul. rewrite (nth_map_lt _ _ i [] []) by (apply HXb in Hb; lia).
    reflexivity.
Qed.

(** C4: the attention weights returned by
    [SoftAttention.attention_step] are a softmax over the input
    positions: they are the softmax of the scores that the step
    computes, so the weight of position [i] of sample [b] is
    [exp(e_i) / sum_j exp(e_j)] with [e_i] the score of that
    position; there is one weight per sample and position, every
    weight is non-negative, and the weights of each sample sum to 1. *)
Theorem soft_attention_alphas_are_softmax :
  forall (self : SoftAttention.t) (x : tensor3)
         (constants : SoftAttention.multiplier * tensor2) (n t d : nat),
    K.has_shape3 n t d x = true ->
    (0 < t)%nat ->
    constants_fit self n t constants = true ->
    let alphas := snd (SoftAttention.attention_step self x constants) in
    let e := attention_score self x constants in
    alphas = K.softmax (map (fun b => map (e b) (seq 0 t)) (seq 0 n))
    /\ (forall b i, (b < n)%nat -> (i < t)%nat ->
          get_entry alphas b i
          = Some (exp (e b i) / K.sum (map (fun j => exp (e b j)) (seq 0 t))))
    /\ K.has_shape2 n t alphas = true
    /\ Forall (fun row => Forall (fun a => 0 <= a) row /\ K.sum row = 1) alphas.
Proof.
  intros self x constants n t d Hx Ht Hc alphas e.
  pose proof (attention_step_alphas_shape self x constants n t d Hx Hc) as Hs.
  pose proof (attention_step_scores self x constants n t d Hx Hc) as He.
  fold alphas in Hs, He. fold e in He.
  split; [exact He|]. split; [|split; [exact Hs|]].
  - intros b i Hb Hi. rewrite He. unfold get_entry, K.softmax.
    rewrite !nth_error_map.
    rewrite (nth_error_nth' (seq 0 n) 0%nat) by (rewrite length_seq; lia).
    rewrite seq_nth by lia. cbn [option_map Nat.add].
    rewrite (softmax1_nth_error _ i (e b i)).
    + rewrite map_map. reflexivity.
    + rewrite nth_error_map.
      rewrite (nth_error_nth' (seq 0 t) 0%nat) by (rewrite length_seq; lia).
      rewrite seq_nth by lia. reflexivity.
  - apply has_shape2_spec in Hs. destruct Hs as [_ Hrows].
    rewrite He in *. unfold K.softmax in *.
    rewrite Forall_map in *. revert Hrows. apply Forall_impl. intros row Hrow.
    rewrite softmax1_length in Hrow. split; [apply softmax1_nonneg|].
    apply softmax1_sum. intros ->. simpl in Hrow. lia.
Qed.

Lemma soft_attention_alphas_are_softmax_witness :
  let alphas := snd (SoftAttention.attention_step soft_example soft_example_x
                                                  soft_example_constants) in
  let e := attention_score soft_example soft_example_x soft_example_constants in
  alphas = K.softmax (map (fun b => map (e b) (seq 0 2)) (seq 0 1))
  /\ (forall b i, (b < 1)%nat -> (i < 2)%nat ->
        get_entry alphas b i
        = Some (exp (e b i) / K.sum (map (fun j => exp (e b j)) (seq 0 2))))
  /\ K.has_shape2 1 2 alphas = true
  /\ Forall (fun row => Forall (fun a => 0 <= a) row /\ K.sum row = 1) alphas.
Proof.
  apply (soft_attention_alphas_are_softmax soft_example soft_example_x
                                           soft_example_constants 1 2 2).
  - reflexivity.
  - lia.
  - reflexivity.
Defined.



(* ================================================================= *)
(** * [Attention] and the constructors of the deprecated layers *)

Lemma sigmoid_range (x : R) : 0 < K.sigmoid x < 1.
Proof.
  unfold K.sigmoid. pose proof (exp_pos (- x)) as He.
  split.
  - apply Rdiv_lt_0_compat; lra.
  - apply (Rmult_lt_reg_r (1 + exp (- x))); [lra|].
    unfold Rdiv. rewrite Rmult_assoc, Rinv_l by lra. lra.
Qed.

Lemma attention_times_shape (n t d : nat) (x : tensor3) (b : Attention.multiplier) :
  K.has_shape3 n t d x = true ->
  match b with
  | Attention.OneList _ => True
  | Attention.Mask m => K.has_shape3 n t d m = true
  end ->
  K.has_shape3 n t d (Attention.times x b) = true.
Proof.
  intros Hx Hb. apply has_shape3_spec in Hx. destruct Hx as [Hn Hx].
  rewrite Forall_forall in Hx. apply has_shape3_spec.
  destruct b as [c|m]; cbn [Attention.times].
  - unfold K.map3. rewrite length_map. split; [exact Hn|].
    rewrite Forall_map. apply Forall_forall. intros xm Hxm.
    destruct (Hx xm Hxm) as [Hl Hr]. rewrite length_map. split; [exact Hl|].
    rewrite Forall_map. apply Forall_forall. intros row Hrow. rewrite length_map.
    rewrite Forall_forall in Hr. apply Hr. exact Hrow.
  - apply has_shape3_spec in Hb. destruct Hb as [Hmn Hm]. rewrite Forall_forall in Hm.
    unfold K.mul3. rewrite length_map2, Hn, Hmn. split; [apply Nat.min_id|].
    apply Forall_map2. intros xm mm Hxm Hmm.
    destruct (Hx xm Hxm) as [Hl Hr]. destruct (Hm mm Hmm) as [Hl' Hr'].
    rewrite length_map2, Hl, Hl'. split; [apply Nat.min_id|].
    apply Forall_map2. intros row mrow Hrow Hmrow.
    rewrite Forall_forall in Hr, Hr'.
    rewrite length_map2, (Hr row Hrow), (Hr' mrow Hmrow). apply Nat.min_id.
Qed.

(** X12: an [Attention] layer built for inputs of shape [(n, t, d)]
    maps such an input, with the constants of [get_constants], to a
    tensor of the shape [(n, t, nb_attention)] that
    [get_output_shape_for] announces, and every entry of it lies
    strictly between 0 and 1: the weights are independent sigmoid
    gates, not normalized over the positions. *)
Theorem attention_step_gates :
  forall (self built : Attention.t) (init_Wa : nat -> nat -> R) (n t d : nat)
         (x : tensor3) (constants : list Attention.multiplier),
    Attention.build self init_Wa [Some n; Some t; Some d] = ret built ->
    (0 < d)%nat ->
    K.has_shape3 n t d x = true ->
    attention_constants_fit n t d constants = true ->
    exists beta,
      Attention.attention_step built x constants = ret beta
      /\ tensor3_has_shape (Attention.get_output_shape_for built [Some n; Some t; Some d])
                           beta = true
      /\ Forall (Forall (Forall (fun v => 0 < v < 1))) beta.
Proof.
  intros self built init_Wa n t d x constants Hb Hd Hx Hc.
  cbn in Hb. injection Hb as <-.
  unfold Attention.attention_step, item.
  destruct constants as [|B rest]; [discriminate Hc|].
  cbn [nth_error bind ret Attention.Wa Attention.ba].
  assert (HB : match B with
               | Attention.OneList _ => True
               | Attention.Mask m => K.has_shape3 n t d m = true
               end).
  { destruct B; [exact I|exact Hc]. }
  pose proof (attention_times_shape n t d x B Hx HB) as Hts.
  eexists. split; [reflexivity|]. split.
  - cbn [Attention.get_output_shape_for firstn app tensor3_has_shape
         Attention.nb_attention].
    apply has_shape3_spec in Hts. destruct Hts as [Hn Hxs].
    rewrite Forall_forall in Hxs.
    pose proof (ncols_shape d (Attention.nb_attention self) _
                  (add_weight2_shape init_Wa d (Attention.nb_attention self)) Hd) as Hnc.
    apply has_shape3_spec. unfold K.map3, K.bias_add, K.dot.
    rewrite !length_map. split; [exact Hn|].
    rewrite !Forall_map. apply Forall_forall. intros xm Hxm.
    rewrite !length_map, length_matmul. split; [apply Hxs; exact Hxm|].
    rewrite !Forall_map. unfold K.matmul. rewrite Forall_map.
    apply Forall_forall. intros row _.
    rewrite length_map, length_map2, length_map, length_seq, Hnc, repeat_length.
    apply Nat.min_id.
  - unfold K.map3. rewrite Forall_map. apply Forall_forall. intros m _.
    rewrite Forall_map. apply Forall_forall. intros row _.
    rewrite Forall_map. apply Forall_forall. intros v _.
    apply sigmoid_range.
Qed.

(** The property at a layer with two attention mechanisms, built for one
    sample of two positions with one feature. *)
Lemma attention_step_gates_witness :
  exists beta,
    Attention.attention_step
      {| Attention.nb_attention := 2;
         Attention.Wa := add_weight2 (fun _ _ => 1) 1 2;
         Attention.ba := repeat 0 2 |}
      [[[1]; [2]]] [Attention.OneList 1] = ret beta
    /\ K.has_shape3 1 2 2 beta = true
    /\ Forall (Forall (Forall (fun v => 0 < v < 1))) beta.
Proof.
  apply (attention_step_gates attention_example _ (fun _ _ => 1) 1 2 1
           [[[1]; [2]]] [Attention.OneList 1] eq_refl ltac:(lia) eq_refl eq_refl).
Defined.

(** X13: the constructors of the deprecated layers [SoftAttention]
    and [ConvAtt] never return a layer.  [SoftAttention(att_dim=z,
    ...)] raises [NameError] for the name [initializations], which
    the module does not import; [ConvAtt(...)] raises before it
    reaches its test of [dim_ordering], so the [ValueError] of that
    test is never raised. *)
Theorem deprecated_constructors_never_return :
  (forall (default_name : string) (kw : dict),
      exists e, SoftAttention.__init__ default_name kw = raise e)
  /\ (forall (default_name : string) (kw : dict) (z : Z),
         dict_get kw "att_dim" = Some (PyInt z) ->
         SoftAttention.__init__ default_name kw = raise (NameError "initializations"))
  /\ (forall (image_dim_ordering default_name : string) (kw : dict),
         exists e,
           ConvAtt.__init__ image_dim_ordering default_name kw = raise e
           /\ e <> ValueError dim_ordering_not_tf_th).
Proof.
  split; [|split].
  - intros dn kw. unfold SoftAttention.__init__, required, initializations_get.
    destruct (dict_get kw "att_dim") as [[| |z| |]|]; cbn; eexists; reflexivity.
  - intros dn kw z Hz. unfold SoftAttention.__init__, required. rewrite Hz. reflexivity.
  - intros ido dn kw. unfold ConvAtt.__init__, required, initializations_get.
    destruct (dict_get kw "nb_embedding") as [[| |z| |]|]; cbn [bind ret raise as_int];
      try (eexists; split; [reflexivity|discriminate]).
    destruct (as_int "nb_glimpses" _) as [e|?] eqn:E0; cbn [bind ret raise].
    { exists e. split; [reflexivity|]. rewrite (as_int_raises _ _ _ E0). discriminate. }
    destruct (as_bool "concat_timesteps" _) as [e|?] eqn:E1; cbn [bind ret raise].
    { exists e. split; [reflexivity|]. rewrite (as_bool_raises _ _ _ E1). discriminate. }
    destruct (as_bool "return_states" _) as [e|?] eqn:E2; cbn [bind ret raise].
    { exists e. split; [reflexivity|]. rewrite (as_bool_raises _ _ _ E2). discriminate. }
    destruct (as_bool "bias" _) as [e|?] eqn:E3; cbn [bind ret raise].
    { exists e. split; [reflexivity|]. rewrite (as_bool_raises _ _ _ E3). discriminate. }
    destruct (ConvAtt.in_set _ _); cbn [bind ret raise];
      eexists; (split; [reflexivity|discriminate]).
Qed.

(** The property at a call with the required argument. *)
Lemma deprecated_constructors_never_return_witness :
  SoftAttention.__init__ "soft_attention_1" [("att_dim", PyInt 3)]%string
  = raise (NameError "initializations").
Proof.
  destruct deprecated_constructors_never_return as (_ & H & _).
  apply (H "soft_attention_1" [("att_dim", PyInt 3)] 3%Z)%string. reflexivity.
Defined.

(* ================================================================= *)
(** * Input masks and the announced shape of [MultiHeadAttention] *)

Lemma map2_fst_id {A B : Type} (f : A -> B -> A) (l1 : list A) (l2 : list B) :
  (length l1 <= length l2)%nat ->
  (forall a b, In (a, b) (combine l1 l2) -> f a b = a) ->
  K.map2 f l1 l2 = l1.
Proof.
  unfold K.map2. revert l2. induction l1 as [|a l1 IH]; intros [|b l2] Hlen Hf;
    simpl in *; try lia; try reflexivity.
  f_equal.
  - apply (Hf a b). left. reflexivity.
  - apply IH; [lia|]. intros a' b' Hin. apply Hf. right. exact Hin.
Qed.

(** Multiplying by a mask that is True everywhere changes nothing. *)
Lemma scale_rows_all_true (n t d : nat) (x : tensor3) (m : list (list bool)) :
  K.has_shape3 n t d x = true -> mask_fits n t (Some m) = true ->
  all_true (Some m) = true ->
  K.scale_rows x (K.cast m) = x.
Proof.
  intros Hx Hm Ht. apply has_shape3_spec in Hx. destruct Hx as [Hn Hx].
  rewrite Forall_forall in Hx.
  simpl in Hm. apply andb_true_iff in Hm. destruct Hm as [Hmn Hmr].
  apply Nat.eqb_eq in Hmn. rewrite forallb_forall in Hmr.
  simpl in Ht. rewrite forallb_forall in Ht.
  unfold K.scale_rows, K.cast.
  apply map2_fst_id; [rewrite length_map; lia|].
  intros xm mr Hin.
  pose proof (in_combine_l _ _ _ _ Hin) as Hxm.
  pose proof (in_combine_r _ _ _ _ Hin) as Hmr'.
  apply in_map_iff in Hmr'. destruct Hmr' as (mr0 & <- & Hmr0).
  destruct (Hx xm Hxm) as [Hl _].
  pose proof (proj1 (Nat.eqb_eq _ _) (Hmr mr0 Hmr0)) as Hl'.
  pose proof (Ht mr0 Hmr0) as Hall. rewrite forallb_forall in Hall.
  apply map2_fst_id; [rewrite length_map; lia|].
  intros row s Hin'.
  pose proof (in_combine_r _ _ _ _ Hin') as Hs.
  apply in_map_iff in Hs. destruct Hs as (b0 & <- & Hb0).
  rewrite (Hall b0 Hb0).
  rewrite <- (map_id row) at 2. apply map_ext. intros v. ring.
Qed.

(** X14: input masks act on [call] only by zeroing the vectors they
    switch off: a call with masks is the call without masks on the
    inputs multiplied by the masks; and masks that are True
    everywhere change nothing, so the call returns what it returns
    without masks. *)
Theorem mha_all_true_masks_change_nothing :
  forall (self : MultiHeadAttention.t) (noise : nat -> nat -> nat -> R)
         (n tq tk dq dk_in : nat) (query key : tensor3)
         (m0 m1 : option (list (list bool))),
    K.has_shape3 n tq dq query = true ->
    K.has_shape3 n tk dk_in key = true ->
    masks_fit n tq tk (Some (m0, m1)) = true ->
    MultiHeadAttention.call self noise (query, key) (Some (m0, m1))
    = MultiHeadAttention.call
        self noise
        (match m0 with Some m => K.scale_rows query (K.cast m) | None => query end,
         match m1 with Some m => K.scale_rows key (K.cast m) | None => key end)
        None
    /\ (all_true m0 = true -> all_true m1 = true ->
        MultiHeadAttention.call self noise (query, key) (Some (m0, m1))
        = MultiHeadAttention.call self noise (query, key) None).
Proof.
  intros self noise n tq tk dq dk_in query key m0 m1 Hq Hk Hm.
  simpl in Hm. apply andb_true_iff in Hm. destruct Hm as [Hm0 Hm1].
  assert (E : MultiHeadAttention.call self noise (query, key) (Some (m0, m1))
              = MultiHeadAttention.call
                  self noise
                  (match m0 with Some m => K.scale_rows query (K.cast m) | None => query end,
                   match m1 with Some m => K.scale_rows key (K.cast m) | None => key end)
                  None).
  { unfold MultiHeadAttention.call, MultiHeadAttention.call_trace. cbn [fst snd].
    destruct m0, m1; reflexivity. }
  split; [exact E|].
  intros Ht0 Ht1. rewrite E.
  assert (E0 : match m0 with Some m => K.scale_rows query (K.cast m) | None => query end
               = query).
  { destruct m0 as [m|]; [|reflexivity]. apply (scale_rows_all_true n tq dq); assumption. }
  assert (E1 : match m1 with Some m => K.scale_rows key (K.cast m) | None => key end
               = key).
  { destruct m1 as [m|]; [|reflexivity]. apply (scale_rows_all_true n tk dk_in); assumption. }
  rewrite E0, E1. reflexivity.
Qed.

(** The property at the example layer, with masks that are True everywhere. *)
Lemma mha_all_true_masks_change_nothing_witness :
  MultiHeadAttention.call mha_example mha_example_noise
    (mha_example_query2, mha_example_key2)
    (Some (Some [[true; true]], Some [[true; true]]))
  = MultiHeadAttention.call mha_example mha_example_noise
      (mha_example_query2, mha_example_key2) None.
Proof.
  destruct (mha_all_true_masks_change_nothing
              mha_example mha_example_noise 1 2 2 1 1
              mha_example_query2 mha_example_key2
              (Some [[true; true]]) (Some [[true; true]]) eq_refl eq_refl eq_refl)
    as [_ H].
  apply H; reflexivity.
Defined.

(** X15: [compute_output_shape] looks at the shape of the queries
    only.  It raises the assertion error unless that shape has at
    least three dimensions and a defined, non-zero last one; when it
    returns, the result has the rank of the query shape, agrees with
    it on every dimension but the last, and ends in [dmodel], the
    integer the layer was constructed with, whatever its sign. *)
Theorem mha_compute_output_shape_outcome :
  forall (self : MultiHeadAttention.t) (query_shape : shape) (others : list shape),
    match MultiHeadAttention.compute_output_shape self (query_shape :: others) with
    | inl e =>
        e = AssertionError output_shape_defined
        /\ ((length query_shape < 3)%nat
            \/ last query_shape None = None
            \/ last query_shape None = Some 0%nat)
    | inr out =>
        (3 <= length query_shape)%nat
        /\ (exists d, last query_shape None = Some (S d))
        /\ length out = length query_shape
        /\ removelast out = map (option_map Z.of_nat) (removelast query_shape)
        /\ last out None = Some (MultiHeadAttention.dmodel self)
    end.
Proof.
  intros self s0 others. unfold MultiHeadAttention.compute_output_shape, assert_.
  cbn [nth_error bind ret raise].
  destruct (negb (length s0 =? 0)%nat && (3 <=? length s0)%nat) eqn:Hrank.
  - apply andb_true_iff in Hrank. destruct Hrank as [_ Hrank].
    apply Nat.leb_le in Hrank. cbn [bind ret raise].
    destruct (last s0 None) as [[|d]|] eqn:Hlast; cbn [bind ret raise].
    + split; [reflexivity|]. right. right. reflexivity.
    + split; [exact Hrank|]. split; [exists d; reflexivity|].
      split; [|split].
      * rewrite length_app, length_map. cbn [length].
        destruct s0 as [|a s0]; [simpl in Hrank; lia|].
        rewrite (app_removelast_last None (l := a :: s0)) at 2 by discriminate.
        rewrite length_app. reflexivity.
      * apply removelast_last.
      * apply last_last.
    + split; [reflexivity|]. right. left. reflexivity.
  - cbn [bind ret raise]. split; [reflexivity|]. left.
    apply andb_false_iff in Hrank. destruct Hrank as [Hrank|Hrank].
    + apply negb_false_iff, Nat.eqb_eq in Hrank. lia.
    + apply Nat.leb_gt in Hrank. exact Hrank.
Qed.
